(* ===== verification/_CoqProject ===== *)
-Q . S2P
Prelude.v
JsString.v
Types.v
Remote.v
Prog.v
Backend.v
DashState.v
Upload.v
Dashboard.v
Login.v
Shop.v
Tailwind.v
Layout.v
Site.v
LegacyApp.v
Root.v
Catalog.v
