(* ===== verification/Prelude.v ===== *)
(** * Fragrance storefront and admin console: a verification development

    The program (src/src) is a React single-page application over a hosted
    backend: a public storefront (Layout, Home, Shop) and an admin console
    (AdminLogin, AdminDashboard) that signs in, checks the [admin_users]
    table, and creates, updates and deletes rows of [perfumes] with an
    optional image upload.  All its logic runs in the browser as async
    event handlers that await calls on the shared client of
    lib/supabase.ts and update React state.

    ** Files, in dependency order
    - Prelude.v (this file): the hint databases [fragrance] and
      [fragrance_rw], the tactics [inv] and [bool_cases], and the generic
      lemmas on lists ([filter_idem], the [sublist] order, ...), on
      interleavings ([shuffle], and [fold_shuffle]: commuting steps may be
      applied in any interleaving) and on sequences of transitions
      ([star], after Leroy's [Sequences]).
    - JsString.v, Module [JsString]: the JavaScript string operations the
      code calls ([toLowerCase], [trim], [split], [join], [includes],
      [startsWith], [substring], [Array.pop]) on strings of Latin-1 code
      units, with their laws (split/join round trip, idempotence of
      [trim] and [toLowerCase], substring characterisation of [includes]).
    - Types.v: [JsValue] (falsiness of strings and numbers; a [number] is a
      primitive binary64 float), and the records [Perfume.Perfume] and
      [PerfumeFormData.PerfumeFormData] of types/perfume.ts.
    - Remote.v: Module [SupabaseClient] (lib/supabase.ts: the module's
      bindings, initialisation, [updateSupabaseClient]) and Module
      [Remote]: every external call the pages await ([call]) with the type
      of its answer ([resp]), and the thrown values [exn].
    - Prog.v, Module [Prog]: handlers as finite trees [prog U A] of calls,
      UI effects, [throw], [try]/[catch]/[finally]; the semantics [exec]
      over every answer of the environment, the interpreter [run] against
      a [Backend], and their laws.  [run_exec]: the interpreter refines
      [exec]; [exec_run]: it always yields an execution; [run_bind],
      [run_try_catch] and [run_try_finally] read a run of a composite
      handler off the runs of its parts.  The unary tree
      predicates [emits_only], [calls_only] and [calls_le] (at most [n]
      awaited calls on every path) with their rules for bind, catch and
      finally carry the type and termination theorems.
    - Backend.v, Module [Backend]: one concrete remote service and browser
      from the spec (the service is not code of the repository), used by
      the end-to-end theorems and the witnesses.
    - DashState.v, Module [DashboardState] (pages/AdminDashboard.tsx,
      lines 8-29): the page state [DashState], its [Effect]s and [step].
    - Upload.v, Module [Upload] (pages/AdminDashboard.tsx, lines 90-121):
      [uploadImage], the object name it derives and the progress it
      displays.
    - Dashboard.v, Module [Dashboard] (pages/AdminDashboard.tsx): one
      definition per other handler ([checkAdmin], [fetchPerfumes],
      [handleLogout], [handleImageChange], [openModal],
      [closeModal], [handleSubmit] with its [try] block [submitTry],
      [handleDelete], the form's [onChange] handlers), the render [view]
      of the page and of its modal, the page's events and reachable
      states, and the spec's auth-gate contract.
    - Login.v, Module [Login] (pages/AdminLogin.tsx): [checkSession],
      [handleLogin] with its [try] block [loginTry], the input handlers,
      the render [view] and the page's reachable states.
    - Shop.v, Module [Shop] (pages/Shop.tsx): [fetchPerfumes], the
      client-side filter [filteredPerfumes], the render [view] and the
      page's reachable states.
    - Layout.v: Module [HtmlForm] (a [<form>] and the browser's
      submission of it) and Module [Layout] (components/Layout.tsx: the
      menu and scroll flags and their handlers, the rendered navigation
      and footer around the routed page, browser events as a sequence).
    - Site.v: Module [Router] (the route table of main.tsx), Module
      [Startup] (main.tsx's development notice) and Module [Home]
      (pages/Home.tsx: hero link, featured products and their slugged
      links, newsletter form, the page's render).
    - LegacyApp.v, Module [App] (App.tsx): the single-page component that
      Layout and Home replaced, its state, handlers and whole render, and
      its relation to them.
    - Tailwind.v, Module [Tailwind] (tailwind.config.js): the content
      globs, parsed and matched as fast-glob matches them, and the theme
      extension.
    - Root.v, Module [Root] (main.tsx lines 45-49): the React root under
      [StrictMode], which runs each page's mount effect twice in
      development ([mount_n]), and the layout's scroll listener with its
      cleanup.
    - Catalog.v, Module [Catalog]: the admin console and the shop composed
      over one service, the spec's write path feeding its read path, and
      two admin sessions over one service.

    ** How the code is modelled
    A handler of a page is a [Prog.prog] tree built from its source, its
    [await]s as [Call]s, its [setX], [navigate] and [console.error] as
    [Emit]s of the page's [Effect].  A handler reads the state of the
    render that created it (its closure): that snapshot is its state
    argument.  The page state after a run is [final s tr], the effects of
    the trace applied by [step] in order.  Two runs that overlap in time
    are an interleaving of their traces: the effects of one applied
    between a call of the other and its answer.  The invariant, type and
    termination theorems are stated over [exec], hence hold for every
    answer of the service and of the browser, failures included.  The
    theorems that tell a handler's outcomes apart are stated over [run]
    against any [Backend], with the answers the handler receives as
    hypotheses or as [let]s of the statement, so that each outcome is
    tied to the answer that causes it.  The ones over
    [Backend.db_backend] are end-to-end scenarios of the spec.

    ** What the theorems show
    - Write path (Dashboard), against any backend: validation before any
      call; no upload without a new file; the upload before the write, and
      no write after an upload that answers an error; the outcome of the
      write read off its answer; after a successful upload and a failed
      write the file stays selected and a resubmission uploads it again;
      the progress values an upload displays are those of the
      notifications the storage client answers; the outcome of a
      confirmed delete read off its answer, and a cancelled delete.
      Also: the progress values' bounds and monotonicity; the stored
      object keeps the file's extension; notes normalisation and the
      notes field round trip; opening a record loads it into the form;
      of the object URLs two previews create, closing the form revokes
      only the last.  Against Backend.v: a created row
      heads the refreshed list, a new image is stored under [perfumes/]
      and its public URL is the row's image, an edit replaces the fields
      of the row with the record's identifier (full-record update), a
      confirmed delete removes exactly that row, and the page then shows
      the table's content.  Every write a submission issues carries a
      record of the data model's shape (a type theorem, via [calls_only]);
      the displayed percentage equals [Math.round] computed on the exact
      rational ratio (an equivalence with a reference definition).
    - Auth gate (Dashboard, Login): [checkAdmin] refines the spec's
      three-way gate ([gate], [gate_effect]) against any backend; the
      calls and final state of [handleLogin] are read off the answers
      to the sign-in and the [admin_users] lookup; against
      Backend.v an unauthorised identity is signed out at the service and
      an admin's login time is recorded; the login page's button is
      enabled in every reachable state.
    - The dashboard as a state machine ([Event], [handler], [enabled],
      [reachable]): every reachable state is [quiescent] (no save or
      upload shown in progress, a closed modal holds no form data), by
      rule induction; its render [view] then never shows a progress bar
      or a disabled submit button.  The two handlers the mount effect
      starts together write disjoint state, so every interleaving of
      their runs ([shuffle]) ends in the same state.  Liveness: from every
      quiescent state a sequence of enabled events ([star dash_step])
      reaches a settled state (not loading, modal closed, form reset).
      Termination: every handler, on every path, awaits at most five
      calls ([calls_le]).
    - Read path (Shop): the filter's specification, order preservation,
      idempotence and case insensitivity; the load's outcome read off the
      answer to its select, against any backend; every
      reachable state renders exactly one of spinner, error or results.
    - Site: slugs are well formed; product links and three navigation
      links lead to no route; the newsletter form discards the typed
      address; without the Supabase URL every page targets the
      placeholder host and only a development build says so.
    - Layout: the state after any sequence of clicks and scrolls (menu
      open after an odd number of clicks, scrolled style from the last
      scroll position); the mobile menu mirrors the desktop links.
    - App: its header is Layout's with every target replaced by ["#"]
      on every event sequence (an equivalence up to link targets); none
      of its entries navigates; its footer and newsletter form are
      Layout's and Home's, and its product names Home's through a
      UTF-8/Latin-1 mix-up.
    - Interleaving (Dashboard): a save's run splits at its write call, and
      whatever state the page reached before the write's answer, the
      remainder closes and resets the open form when the write answers no
      error and shows that error in it otherwise.
    - Composition (Catalog): a record created in the console is the first
      row, and the first card, of a shop loaded afterwards; an edit saved
      after another session deleted the record closes the form as a
      success and is lost.
    - StrictMode (Root): against any service state, running each page's
      mount effect twice leaves the page as one run does, because those
      effects only read the service: [Backend.db_equiv] (equality up to
      the clock) is an [Equivalence] and a read-only run is [Proper] for
      it.  The root sees each page through the [MountedPage] record and
      the laws of [MountLaws], which each page discharges; the layout's
      scroll listener never leaks.
    - Tailwind: the source glob selects exactly the non-hidden [.js],
      [.ts], [.jsx] and [.tsx] files under [./src], all the application's
      files among them.
    - Shop search: [same_query] (same lower-case form) is an
      [Equivalence] and [filteredPerfumes] is [Proper] for it.

    ** What modelling showed
    The featured product links of Home.tsx and three navigation links of
    Layout.tsx have no route; [updateSupabaseClient] never reaches the
    exported client; a failed sign-in shows the service's own message,
    not the generic one the spec asks for; a file name without a dot is
    taken whole as the extension; a progress notification with
    [total = 0] displays NaN or Infinity; the newsletter form has no
    handler, no action and an unnamed input, so Subscribe only reloads the
    page; the footer's quick links are not links; production builds do
    not warn about a missing Supabase configuration; App.tsx has a
    mis-encoded product name; an edit of a record deleted meanwhile by
    another session is lost while the form reports success; a save that
    completes after the operator cancelled and opened another record
    closes that form and discards its edits (or shows its error there);
    the object URL of every preview but the last is never revoked; and a
    write that fails after a successful upload keeps the file selected,
    so that resubmitting stores it again and orphans the first object.

    ** Bounds and choices
    Trees are finite, so no fuel is needed: [run] is structural and
    [exec_run] shows every handler completes against any backend; the
    bound of five awaited calls per handler is the longest path of
    [handleSubmit] (random name, upload, public URL, write, refresh).
    Strings are lists of 8-bit characters: the code's strings are UTF-16,
    and [toLowerCase] and [trim] are modelled on the Latin-1 range (code
    units above U+00FF are out of scope).  Prices are primitive floats
    (binary64, JavaScript's [number]); falsiness of a number is [0] or
    NaN.  The upload percentage [Math.round(loaded / total * 100)] is
    computed exactly on integers, [(200 l + t) / (2 t)] for [t > 0], and
    as NaN or Infinity for [t = 0]; [Upload.percent_round_equiv] shows
    this is [Math.round] of the exact ratio.  The binary64 rounding of
    [loaded / total * 100] itself is not modelled: it can only matter
    where the exact value lies within a few ulps of a half-integer.

    ** Not modelled
    The markup and styling of the pages beyond what [view] renders (the
    locale format of the last-login date, static text, icons as names);
    the percent-encoding of a submitted form's values; Tailwind's default
    theme and the CSS it generates (the library's, not the repository's);
    the imports of each module; the hosted service
    itself, except the spec's description in Backend.v; the [Number()]
    parse of the price input ([onPriceChange] takes the parsed number)
    and the [String(price)] of the price display: both are the engine's
    conversions between decimal text and binary64, whose general
    properties the kernel can only reach through the floating-point
    axioms of the Standard Library, which this development does not
    assume;
    the browser's own form validation ([required], [min]); and, beyond the
    two mount handlers and a save overlapping the form's events, the
    interleaving of concurrent handler runs: each run is one step of
    [reachable], taken in the state of the render that triggered it. *)

From Stdlib Require Import List Bool Arith Lia String Ascii.
Import ListNotations.

(** Generic lemmas on lists, booleans and options shared by the
    component files, the hint database [fragrance] that automates
    them, and the development's Ltac tactics. *)

Create HintDb fragrance discriminated.
Create Rewrite HintDb fragrance_rw.

(** ** Tactics *)

(** [inv H]: invert [H], substitute and clean up. *)
Ltac inv H := inversion H; subst; clear H.

(** [bool_cases]: split the boolean connectives of the hypotheses. *)
Ltac bool_cases :=
  repeat match goal with
         | H : (_ && _)%bool = true |- _ => apply andb_true_iff in H as [? ?]
         | H : (_ || _)%bool = false |- _ => apply orb_false_iff in H as [? ?]
         | H : negb _ = true |- _ => apply negb_true_iff in H
         | H : negb _ = false |- _ => apply negb_false_iff in H
         end.

(** ** Lists *)

Section Lists.
Context {A : Type}.

(** Filtering twice with the same predicate filters once. *)
Lemma filter_idem (p : A -> bool) (l : list A) :
  filter p (filter p l) = filter p l.
Proof.
  induction l as [|x l IH]; simpl; [reflexivity|].
  destruct (p x) eqn:E; simpl; rewrite ?E, IH; reflexivity.
Qed.

(** Filtering keeps a sublist: what it keeps is in the original order. *)
Inductive sublist : list A -> list A -> Prop :=
| sublist_nil : sublist [] []
| sublist_skip x l1 l2 : sublist l1 l2 -> sublist l1 (x :: l2)
| sublist_keep x l1 l2 : sublist l1 l2 -> sublist (x :: l1) (x :: l2).

Lemma filter_sublist (p : A -> bool) (l : list A) : sublist (filter p l) l.
Proof.
  induction l as [|x l IH]; simpl; [constructor|].
  destruct (p x); constructor; exact IH.
Qed.

Lemma filter_ext_in_iff (p q : A -> bool) (l : list A) :
  (forall x, In x l -> p x = q x) -> filter p l = filter q l.
Proof. apply filter_ext_in. Qed.

(** [forallb] on a filtered list holds for the filter's predicate. *)
Lemma forallb_filter_self (p : A -> bool) (l : list A) :
  forallb p (filter p l) = true.
Proof.
  induction l as [|x l IH]; simpl; [reflexivity|].
  destruct (p x) eqn:E; simpl; rewrite ?E; auto.
Qed.

(** Updating the elements that satisfy [P] leaves a list without such
    elements as it is. *)
Lemma map_cond_absent (P : A -> bool) (f : A -> A) (l : list A) :
  forallb (fun a => negb (P a)) l = true -> map (fun a => if P a then f a else a) l = l.
Proof.
  induction l as [|a l IH]; simpl; [reflexivity|]. intros H. apply andb_true_iff in H as [Ha Hl].
  destruct (P a); [discriminate Ha|]. rewrite IH by exact Hl. reflexivity.
Qed.

Lemma last_app_single (l : list A) (x d : A) : last (l ++ [x]) d = x.
Proof.
  induction l as [|y l IH]; [reflexivity|].
  simpl. rewrite IH. destruct (l ++ [x]) eqn:E; [|reflexivity].
  destruct l; discriminate.
Qed.
End Lists.

(** ** Interleavings *)

Section Shuffle.
Context {X : Type}.

(** [shuffle l1 l2 l]: [l] interleaves [l1] and [l2], keeping the order
    of each. *)
Inductive shuffle : list X -> list X -> list X -> Prop :=
| shuffle_nil : shuffle [] [] []
| shuffle_left x l1 l2 l : shuffle l1 l2 l -> shuffle (x :: l1) l2 (x :: l)
| shuffle_right y l1 l2 l : shuffle l1 l2 l -> shuffle l1 (y :: l2) (y :: l).

End Shuffle.

Section Commuting.
Context {X V : Type} (step : X -> V -> V) (P Q : X -> Prop).

(** Every [P] step commutes with every [Q] step. *)
Hypothesis step_comm : forall a b v, P a -> Q b -> step a (step b v) = step b (step a v).

Lemma fold_comm_single (l : list X) (b : X) (v : V) :
  Forall P l -> Q b ->
  fold_left (fun v x => step x v) l (step b v) = step b (fold_left (fun v x => step x v) l v).
Proof.
  intros Hl Hb. revert v. induction Hl as [|a l Ha _ IH]; intros v; simpl; [reflexivity|].
  rewrite <- IH, step_comm by assumption. reflexivity.
Qed.

(** Applying an interleaving of a [P] sequence and a [Q] sequence gives
    the same result as applying one after the other. *)
Lemma fold_shuffle (l1 l2 l : list X) (v : V) :
  Forall P l1 -> Forall Q l2 -> shuffle l1 l2 l ->
  fold_left (fun v x => step x v) l v =
  fold_left (fun v x => step x v) l2 (fold_left (fun v x => step x v) l1 v).
Proof.
  intros H1 H2 Hs. revert v. induction Hs as [|x l1 l2 l _ IH|y l1 l2 l _ IH]; intros v; simpl.
  - reflexivity.
  - inversion H1 as [|? ? _ H1']; subst. exact (IH H1' H2 (step x v)).
  - inversion H2 as [|? ? Hy H2']; subst. rewrite (IH H1 H2' (step y v)).
    rewrite fold_comm_single by assumption. reflexivity.
Qed.

End Commuting.

(** ** Sequences of transitions *)

Section Star.
Context {St : Type} (R : St -> St -> Prop).

(** Zero, one or several transitions, as in Leroy's [Sequences]. *)
Inductive star : St -> St -> Prop :=
| star_refl a : star a a
| star_step a b c : R a b -> star b c -> star a c.

Lemma star_one a b : R a b -> star a b.
Proof. intros H. exact (star_step a b b H (star_refl b)). Qed.

Lemma star_trans a b c : star a b -> star b c -> star a c.
Proof. induction 1 as [|a b' b H _ IH]; [auto|]. intros Hc. exact (star_step a b' c H (IH Hc)). Qed.

End Star.

#[export] Hint Resolve filter_sublist forallb_filter_self star_one : fragrance.
#[export] Hint Rewrite @filter_idem @app_nil_r : fragrance_rw.
#[export] Hint Rewrite <- @app_assoc : fragrance_rw.

(** ** Options *)

Definition is_some {A} (o : option A) : bool :=
  match o with Some _ => true | None => false end.

Lemma is_some_true {A} (o : option A) : is_some o = true <-> exists a, o = Some a.
Proof. destruct o; simpl; split; intros H; eauto; [discriminate|now destruct H]. Qed.
