(* ===== verification/JsString.v ===== *)
(** * JsString: the JavaScript string operations the handlers use

    The storefront and the console manipulate strings with
    [String.prototype.trim], [split], [toLowerCase], [includes],
    [startsWith], [substring] and [Array.prototype.join] / [pop]
    (src/src/pages/AdminDashboard.tsx, Shop.tsx, Home.tsx).  This file
    models them on Rocq strings whose characters are UTF-16 code units
    restricted to the Latin-1 range U+0000..U+00FF (one [ascii] per code
    unit), following the ECMAScript definitions on that range:
    - [trim] strips WhiteSpace and LineTerminator code points, which in
      Latin-1 are TAB, LF, VT, FF, CR, SPACE and NO-BREAK SPACE (U+00A0);
    - [to_lower] is the Unicode lower-case mapping on Latin-1: A..Z and
      U+00C0..U+00DE except U+00D7 map 32 code points down;
    - [split] with a one-character separator returns the maximal pieces
      between separators, ["" ] for the empty string;
    - [join] puts the separator between consecutive elements.
    The theorems give the round trips [join]/[split], the specification
    of [includes] as a substring test, and the idempotence of [trim] and
    [to_lower]. *)

From Stdlib Require Import List Bool Arith Lia String Ascii.
From S2P Require Import Prelude.
Import ListNotations.

Module JsString.

Local Open Scope nat_scope.

(** ** Characters *)

(** ECMAScript WhiteSpace or LineTerminator, restricted to Latin-1. *)
Definition is_js_space (c : ascii) : bool :=
  match nat_of_ascii c with
  | 9 | 10 | 11 | 12 | 13 | 32 | 160 => true
  | _ => false
  end.

(** [String.prototype.toLowerCase] on one Latin-1 code unit. *)
Definition lower_char (c : ascii) : ascii :=
  let n := nat_of_ascii c in
  if ((65 <=? n) && (n <=? 90)) || ((192 <=? n) && (n <=? 222) && negb (n =? 215))
  then ascii_of_nat (n + 32) else c.

(** ** Strings *)

Fixpoint to_lower (s : string) : string :=
  match s with
  | EmptyString => EmptyString
  | String c s' => String (lower_char c) (to_lower s')
  end.

(** [trimStart]: drop the leading white space. *)
Fixpoint trim_start (s : string) : string :=
  match s with
  | EmptyString => EmptyString
  | String c s' => if is_js_space c then trim_start s' else s
  end.

(** [trimEnd]: drop the trailing white space. A character is kept when
    it is not white space or when something non-blank follows it. *)
Fixpoint trim_end (s : string) : string :=
  match s with
  | EmptyString => EmptyString
  | String c s' =>
      let r := trim_end s' in
      if is_js_space c && String.eqb r EmptyString then EmptyString
      else String c r
  end.

(** [String.prototype.trim]. *)
Definition trim (s : string) : string := trim_start (trim_end s).

(** [s.split(sep)] for a one-character separator: the piece being read
    and the pieces after it. *)
Fixpoint split_aux (sep : ascii) (s : string) : string * list string :=
  match s with
  | EmptyString => (EmptyString, [])
  | String c s' =>
      let '(cur, rest) := split_aux sep s' in
      if Ascii.eqb c sep then (EmptyString, cur :: rest)
      else (String c cur, rest)
  end.

Definition split (sep : ascii) (s : string) : list string :=
  let '(cur, rest) := split_aux sep s in cur :: rest.

(** [arr.join(sep)]. *)
Fixpoint join (sep : string) (l : list string) : string :=
  match l with
  | [] => EmptyString
  | [x] => x
  | x :: xs => x ++ sep ++ join sep xs
  end.

(** [Array.prototype.pop] on the non-empty result of [split]: its last
    element ([split] never returns an empty array, so [pop] never
    returns [undefined] there). *)
Definition pop_last (l : list string) : string := last l EmptyString.

(** [s.startsWith(p)]. *)
Fixpoint starts_with (p s : string) : bool :=
  match p, s with
  | EmptyString, _ => true
  | String a p', String b s' => Ascii.eqb a b && starts_with p' s'
  | String _ _, EmptyString => false
  end.

(** [s.includes(q)]: [q] occurs at some position of [s]. *)
Fixpoint includes (s q : string) : bool :=
  starts_with q s ||
  match s with
  | EmptyString => false
  | String _ s' => includes s' q
  end.

(** [s.substring(n)] for [n >= 0]: the suffix from position [n]
    (the empty string when [n] is past the end). *)
Fixpoint substring_from (n : nat) (s : string) : string :=
  match n, s with
  | 0, _ => s
  | S n', String _ s' => substring_from n' s'
  | S _, EmptyString => EmptyString
  end.

(** A string contains a character. *)
Fixpoint has_char (c : ascii) (s : string) : bool :=
  match s with
  | EmptyString => false
  | String d s' => Ascii.eqb d c || has_char c s'
  end.

(** A string is trimmed when [trim] leaves it unchanged. *)
Definition trimmed (s : string) : bool := String.eqb (trim s) s.

(** ** Lemmas *)

Lemma append_empty_r (s : string) : (s ++ EmptyString)%string = s.
Proof. induction s as [|c s IH]; simpl; rewrite ?IH; reflexivity. Qed.

Lemma join_cons_char (sep : string) (c : ascii) (x : string) (r : list string) :
  join sep (String c x :: r) = String c (join sep (x :: r)).
Proof. destruct r; reflexivity. Qed.

(** [split_aux] of a string with no separator followed by [t]. *)
Lemma split_aux_app (sep : ascii) (x t : string) :
  has_char sep x = false ->
  split_aux sep (x ++ t) =
  let '(cur, rest) := split_aux sep t in ((x ++ cur)%string, rest).
Proof.
  induction x as [|c x IH]; simpl; intros H.
  - destruct (split_aux sep t); reflexivity.
  - apply orb_false_iff in H as [Hc Hx].
    rewrite (IH Hx). destruct (split_aux sep t). rewrite Hc. reflexivity.
Qed.

(** Joining the pieces of a split with the separator gives the string back. *)
Lemma join_split (sep : ascii) (s : string) :
  join (String sep EmptyString) (split sep s) = s.
Proof.
  unfold split. induction s as [|c s IH]; [reflexivity|]. simpl.
  destruct (split_aux sep s) as [cur rest] eqn:E.
  destruct (Ascii.eqb c sep) eqn:Hc.
  - apply Ascii.eqb_eq in Hc. subst c.
    change (String sep (join (String sep EmptyString) (cur :: rest)) = String sep s).
    rewrite IH. reflexivity.
  - rewrite join_cons_char, IH. reflexivity.
Qed.

(** Splitting a join whose separator starts with [sep] and whose
    elements and separator tail contain no [sep]: the first element, then
    each following element prefixed with the separator tail [t]. *)
Lemma split_join_gen (sep : ascii) (t : string) (x : string) (xs : list string) :
  has_char sep t = false ->
  Forall (fun y => has_char sep y = false) (x :: xs) ->
  split sep (join (String sep t) (x :: xs)) = x :: map (fun y => (t ++ y)%string) xs.
Proof.
  intros Ht Hall. revert x Hall.
  induction xs as [|y xs IH]; intros x Hall; inversion Hall as [|? ? Hx Hrest]; subst.
  - unfold split. simpl. rewrite <- (append_empty_r x) at 1.
    rewrite (split_aux_app sep x EmptyString Hx). simpl. rewrite append_empty_r. reflexivity.
  - change (join (String sep t) (x :: y :: xs))
      with (x ++ String sep t ++ join (String sep t) (y :: xs))%string.
    specialize (IH y Hrest). unfold split in *.
    remember (join (String sep t) (y :: xs)) as J eqn:HJ. clear HJ.
    destruct (split_aux sep J) as [cur rest] eqn:E. inversion IH; subst.
    rewrite (split_aux_app sep x _ Hx). simpl.
    rewrite (split_aux_app sep t _ Ht), E, Ascii.eqb_refl, append_empty_r. reflexivity.
Qed.

Lemma split_aux_no_sep (sep : ascii) (t : string) :
  has_char sep t = false -> split_aux sep t = (t, []).
Proof.
  induction t as [|c t IH]; simpl; [reflexivity|]. intros H.
  apply orb_false_iff in H as [Hc Ht]. rewrite (IH Ht), Hc. reflexivity.
Qed.

Lemma split_aux_last (sep : ascii) (s t : string) :
  has_char sep t = false ->
  exists cur rest, split_aux sep (s ++ String sep t) = (cur, rest ++ [t]).
Proof.
  intros Ht. induction s as [|c s (cur & rest & IH)]; simpl.
  - rewrite (split_aux_no_sep sep t Ht), Ascii.eqb_refl. exists EmptyString, []. reflexivity.
  - rewrite IH. destruct (Ascii.eqb c sep).
    + exists EmptyString, (cur :: rest). reflexivity.
    + exists (String c cur), rest. reflexivity.
Qed.

(** [(s + sep + t).split(sep).pop()] is [t] when [t] has no [sep]. *)
Lemma pop_last_split_app (sep : ascii) (s t : string) :
  has_char sep t = false -> pop_last (split sep (s ++ String sep t)) = t.
Proof.
  intros Ht. unfold pop_last, split. destruct (split_aux_last sep s t Ht) as (cur & rest & ->).
  change (cur :: rest ++ [t]) with ((cur :: rest) ++ [t]). apply last_app_single.
Qed.

(** Without [sep], [s.split(sep).pop()] is [s] itself. *)
Lemma pop_last_split_no_sep (sep : ascii) (s : string) :
  has_char sep s = false -> pop_last (split sep s) = s.
Proof. intros Hs. unfold pop_last, split. rewrite (split_aux_no_sep sep s Hs). reflexivity. Qed.

(** [starts_with p s] holds exactly when [p] is a prefix of [s]. *)
Lemma starts_with_spec (p s : string) :
  starts_with p s = true <-> exists b, s = (p ++ b)%string.
Proof.
  revert s; induction p as [|a p IH]; intros s; simpl.
  - split; eauto.
  - destruct s as [|b s]; simpl.
    + split; [discriminate|intros [b' H]; discriminate].
    + rewrite andb_true_iff, IH. split.
      * intros [Hab [t Ht]]. apply Ascii.eqb_eq in Hab. subst. eauto.
      * intros [t Ht]. inversion Ht; subst. rewrite Ascii.eqb_refl. eauto.
Qed.

(** [includes s q] holds exactly when [q] is a substring of [s]. *)
Lemma includes_spec (s q : string) :
  includes s q = true <-> exists a b, s = (a ++ q ++ b)%string.
Proof.
  induction s as [|c s IH]; simpl; rewrite orb_true_iff, starts_with_spec.
  - split.
    + intros [[b H]|H]; [exists EmptyString, b; exact H|discriminate].
    + intros [[|? a] [b H]]; [left; exists b; exact H|discriminate].
  - rewrite IH. split.
    + intros [[b H]|[a [b H]]].
      * exists EmptyString, b. exact H.
      * exists (String c a), b. simpl. rewrite H. reflexivity.
    + intros [[|d a] [b H]].
      * left. exists b. exact H.
      * right. inversion H; subst. eauto.
Qed.

Lemma includes_empty (s : string) : includes s EmptyString = true.
Proof. destruct s; reflexivity. Qed.

(** Trimming. *)
Lemma trim_start_idem (s : string) : trim_start (trim_start s) = trim_start s.
Proof.
  induction s as [|c s IH]; simpl; [reflexivity|].
  destruct (is_js_space c) eqn:E; [exact IH|simpl; rewrite E; reflexivity].
Qed.

Lemma trim_end_idem (s : string) : trim_end (trim_end s) = trim_end s.
Proof.
  induction s as [|c s IH]; simpl; [reflexivity|].
  destruct (is_js_space c && String.eqb (trim_end s) EmptyString) eqn:E;
    simpl; [reflexivity|]. rewrite IH, E. reflexivity.
Qed.

Lemma trim_end_start (s : string) : trim_end (trim_start s) = trim_start (trim_end s).
Proof.
  induction s as [|c s IH]; simpl; [reflexivity|].
  destruct (is_js_space c) eqn:Ec; simpl.
  - rewrite IH. destruct (String.eqb (trim_end s) EmptyString) eqn:Er; simpl.
    + apply String.eqb_eq in Er. rewrite Er. reflexivity.
    + rewrite Ec. reflexivity.
  - rewrite Ec. reflexivity.
Qed.

(** [trim] is idempotent. *)
Lemma trim_idem (s : string) : trim (trim s) = trim s.
Proof. unfold trim. rewrite trim_end_start, trim_end_idem, trim_start_idem. reflexivity. Qed.

(** A leading white-space character does not change the trimmed string. *)
Lemma trim_space_cons (c : ascii) (s : string) :
  is_js_space c = true -> trim (String c s) = trim s.
Proof.
  intros Hc. unfold trim. simpl. rewrite Hc. simpl.
  destruct (String.eqb (trim_end s) EmptyString) eqn:E; simpl.
  - apply String.eqb_eq in E. rewrite E. reflexivity.
  - rewrite Hc. reflexivity.
Qed.

Lemma trimmed_trim (s : string) : trimmed (trim s) = true.
Proof. unfold trimmed. rewrite trim_idem. apply String.eqb_refl. Qed.

(** Lower-casing. *)
Lemma lower_char_idem (c : ascii) : lower_char (lower_char c) = lower_char c.
Proof. destruct c as [[] [] [] [] [] [] [] []]; reflexivity. Qed.

Lemma to_lower_idem (s : string) : to_lower (to_lower s) = to_lower s.
Proof. induction s as [|c s IH]; simpl; rewrite ?IH, ?lower_char_idem; reflexivity. Qed.

#[export] Hint Rewrite trim_idem to_lower_idem join_split : fragrance_rw.
#[export] Hint Resolve includes_empty trimmed_trim : fragrance.

End JsString.
