(* ===== verification/Types.v ===== *)
(** * Types: the catalog entity and the form payload

    src/src/types/perfume.ts declares [Perfume] and
    [PerfumeFormData = Omit<Perfume, 'id' | 'created_at' | 'updated_at'>].
    A TypeScript [number] is an IEEE-754 binary64 value, modelled by the
    kernel's primitive [float]; the [!x] tests of the handlers are
    JavaScript falsiness, modelled by [JsValue.str_falsy] (the empty
    string) and [JsValue.num_falsy] (+0, -0 and NaN). *)

From Stdlib Require Import List String PrimFloat Bool.
From S2P Require Import Prelude JsString.
Import ListNotations.

Module JsValue.

(** [!s] for a string: only the empty string is falsy. *)
Definition str_falsy (s : string) : bool := String.eqb s EmptyString.

(** [!x] for a number: +0, -0 and NaN are falsy. *)
Definition num_falsy (x : float) : bool :=
  PrimFloat.eqb x 0%float || PrimFloat.is_nan x.

Lemma str_falsy_iff (s : string) : str_falsy s = true <-> s = EmptyString.
Proof. apply String.eqb_eq. Qed.

End JsValue.

Module Perfume.

(** [interface Perfume] (perfume.ts lines 1-11). *)
Record Perfume := mkPerfume {
  id : string;
  name : string;
  category : string;
  price : float;
  image_url : string;
  description : string;
  notes : list string;
  created_at : string;
  updated_at : string
}.

End Perfume.

Module PerfumeFormData.

(** [type PerfumeFormData] (perfume.ts line 13): a [Perfume] without its
    identifier and timestamps. *)
Record PerfumeFormData := mkForm {
  name : string;
  category : string;
  price : float;
  image_url : string;
  description : string;
  notes : list string
}.

End PerfumeFormData.
