(* ===== verification/Remote.v ===== *)
(** * Remote: the client module and the calls the handlers issue

    - [SupabaseClient] models src/src/lib/supabase.ts: the module state
      (the URL, the key and the client built from them), its
      initialisation and [updateSupabaseClient], and the exported binding
      [supabase] that every page imports.
    - [Remote] lists every external call the pages make through that
      client or through the browser ([call]), with the type of the answer
      each call receives ([resp]): the [{ data, error }] pairs of the
      client library, the progress notifications of a storage upload, the
      boolean of [window.confirm], the strings of [Math.random] and
      [Date].  The remote service itself (tables, authentication, storage)
      is not code of this repository: the handlers are verified against
      every answer these types admit (see Prog.v), and Backend.v gives one
      concrete service from the spec's description.
    - [exn] are the thrown values: an [Error] instance carries the
      [message] the handlers display; any other thrown value is shown with
      the handler's fallback text. *)

From Stdlib Require Import List String ZArith Bool.
From S2P Require Import Prelude JsString Types.
Import ListNotations.

Module SupabaseClient.

(** The configuration a client is created with. *)
Record Client := createClient { client_url : string; client_key : string }.

(** The module's state: the [let] bindings and the exported [const]. *)
Record ModuleState := mkModuleState {
  supabaseUrl : string;
  supabaseAnonKey : string;
  supabaseClient : Client;
  supabase : Client
}.

(** [a || b] on strings. *)
Definition str_or (a b : string) : string :=
  if JsValue.str_falsy a then b else a.

(** Module initialisation (supabase.ts lines 3-8 and 16) from the two
    environment variables ([import.meta.env.X || '']; a missing variable
    is the empty string). *)
Definition init (env_url env_key : string) : ModuleState :=
  let url := str_or env_url EmptyString in
  let key := str_or env_key EmptyString in
  let client := createClient (str_or url "http://placeholder-url") (str_or key "placeholder-key") in
  {| supabaseUrl := url; supabaseAnonKey := key;
     supabaseClient := client; supabase := client |}.

(** [updateSupabaseClient(url, key)] (lines 10-14): reassigns the module's
    [let] bindings.  The exported [const supabase] was bound once, at
    initialisation, and is not reassigned. *)
Definition updateSupabaseClient (url key : string) (m : ModuleState) : ModuleState :=
  {| supabaseUrl := url; supabaseAnonKey := key;
     supabaseClient := createClient url key; supabase := supabase m |}.

End SupabaseClient.

Module Remote.

(** Thrown values. *)
Inductive exn :=
| ErrorObj (message : string)
| Thrown (description : string).

(** [err instanceof Error ? err.message : dflt]. *)
Definition message_or (dflt : string) (e : exn) : string :=
  match e with
  | ErrorObj m => m
  | Thrown _ => dflt
  end.

(** An authenticated identity. *)
Record User := mkUser { user_id : string; user_email : string }.

(** A row of [admin_users]. *)
Record AdminRow := mkAdminRow {
  admin_email : string;
  admin_username : string;
  admin_last_login : option string
}.

(** A browser [File] chosen in the file input. *)
Record File := mkFile { file_name : string; file_size : Z }.

(** An upload progress notification: bytes sent and bytes to send. *)
Record Progress := mkProgress { loaded : Z; total : Z }.

(** The external calls of the pages, with their arguments. *)
Inductive call :=
| AuthGetUser
| AuthGetSession
| AuthSignInWithPassword (email password : string)
| AuthSignOut
| AdminUsersSelectSingle (columns email : string)
| AdminUsersUpdateLastLogin (last_login email : string)
| PerfumesSelectOrdered
| PerfumesInsert (row : PerfumeFormData.PerfumeFormData)
| PerfumesUpdate (row : PerfumeFormData.PerfumeFormData) (id : string)
| PerfumesDelete (id : string)
| StorageUpload (bucket path : string) (file : File) (cacheControl : string) (upsert : bool)
| StorageGetPublicUrl (bucket path : string)
| WindowConfirm (message : string)
| MathRandomToString36
| DateToISOString
| CreateObjectURL (file : File).

(** The answer each call receives. *)
Definition resp (c : call) : Type :=
  match c with
  | AuthGetUser => option User
  | AuthGetSession => bool
  | AuthSignInWithPassword _ _ => option User * option exn
  | AuthSignOut => option exn
  | AdminUsersSelectSingle _ _ => option AdminRow * option exn
  | AdminUsersUpdateLastLogin _ _ => option exn
  | PerfumesSelectOrdered => option (list Perfume.Perfume) * option exn
  | PerfumesInsert _ => option exn
  | PerfumesUpdate _ _ => option exn
  | PerfumesDelete _ => option exn
  | StorageUpload _ _ _ _ _ => list Progress * option exn
  | StorageGetPublicUrl _ _ => string
  | WindowConfirm _ => bool
  | MathRandomToString36 => string
  | DateToISOString => string
  | CreateObjectURL _ => string
  end.

(** Calls that reach the remote data service (tables, authentication or
    storage), as opposed to the browser's own APIs. *)
Definition is_service_call (c : call) : bool :=
  match c with
  | WindowConfirm _ | MathRandomToString36 | DateToISOString | CreateObjectURL _ => false
  | _ => true
  end.

Definition is_upload (c : call) : bool :=
  match c with StorageUpload _ _ _ _ _ => true | _ => false end.

(** Calls that change the [perfumes] table. *)
Definition is_catalog_write (c : call) : bool :=
  match c with
  | PerfumesInsert _ | PerfumesUpdate _ _ | PerfumesDelete _ => true
  | _ => false
  end.

End Remote.

