(* ===== verification/Prog.v ===== *)
(** * Prog: async handlers as trees of external calls and UI effects

    Every handler of the pages is an [async] function: a sequence of
    [await]s on external calls (Remote.call), React state updates and
    navigations (the page's UI effects, a type [U] of each page), with
    [throw], [try]/[catch]/[finally] and early [return].  A handler is
    modelled as a finite tree [prog U A]:
    - [Ret a]: the function returns [a];
    - [Throw e]: it throws [e];
    - [Call c k]: it awaits call [c] and continues with [k r] on the
      answer [r : resp c];
    - [Emit u k]: it performs the synchronous effect [u], then [k].
    [bind] is sequencing, [try_catch] and [try_finally] are JavaScript's
    [catch] and [finally] clauses.

    Two semantics:
    - [exec p tr o]: [p] can run with the trace of labels [tr] (the calls
      issued and the effects performed, in order) and end with outcome [o]
      (an exception or a value), for SOME answers of the environment.  A
      theorem [forall tr o, exec p tr o -> P tr o] holds whatever the
      remote service and the browser answer: every run, failures included.
    - [run p s]: the deterministic interpreter against a [Backend] (a
      state [S] and an answer function); [run_exec] proves that every run
      of the interpreter is an execution (the interpreter refines [exec]),
      and [exec_run] that the interpreter always produces one: every
      handler runs to completion against any backend, since the trees are
      finite (no fuel is needed).  [run_bind], [run_try_catch] and
      [run_try_finally] are the interpreter's equations for the
      combinators: a theorem about a run against any backend is proved
      from the answers the handler receives, one part at a time. *)

From Stdlib Require Import List String Bool Arith Lia.
From S2P Require Import Prelude Types Remote.
Import ListNotations.

Module Prog.
Import Remote.

Inductive prog (U A : Type) : Type :=
| Ret (a : A)
| Throw (e : exn)
| Call (c : call) (k : resp c -> prog U A)
| Emit (u : U) (k : prog U A).

Arguments Ret {U A} a.
Arguments Throw {U A} e.
Arguments Call {U A} c k.
Arguments Emit {U A} u k.

(** The label of one step of a run. *)
Inductive label (U : Type) :=
| LCall (c : call)
| LEmit (u : U).

Arguments LCall {U} c.
Arguments LEmit {U} u.

Definition outcome (A : Type) : Type := (exn + A)%type.

Section Combinators.
Context {U : Type}.

Fixpoint bind {A B} (p : prog U A) (f : A -> prog U B) : prog U B :=
  match p with
  | Ret a => f a
  | Throw e => Throw e
  | Call c k => Call c (fun r => bind (k r) f)
  | Emit u k => Emit u (bind k f)
  end.

(** [await c]. *)
Definition call_ (c : call) : prog U (resp c) := Call c Ret.

(** A synchronous effect. *)
Definition emit (u : U) : prog U unit := Emit u (Ret tt).

(** Several effects in order. *)
Fixpoint emit_all (us : list U) : prog U unit :=
  match us with
  | [] => Ret tt
  | u :: us' => Emit u (emit_all us')
  end.

(** [try { p } catch (e) { h(e) }]. *)
Fixpoint try_catch {A} (p : prog U A) (h : exn -> prog U A) : prog U A :=
  match p with
  | Ret a => Ret a
  | Throw e => h e
  | Call c k => Call c (fun r => try_catch (k r) h)
  | Emit u k => Emit u (try_catch k h)
  end.

(** [try { p } finally { f }]: [f] runs after [p] returns or throws, and
    the result of [p] is kept unless [f] throws. *)
Fixpoint try_finally {A} (p : prog U A) (f : prog U unit) : prog U A :=
  match p with
  | Ret a => bind f (fun _ => Ret a)
  | Throw e => bind f (fun _ => Throw e)
  | Call c k => Call c (fun r => try_finally (k r) f)
  | Emit u k => Emit u (try_finally k f)
  end.

(** [if (error) throw error]. *)
Definition throw_if (e : option exn) : prog U unit :=
  match e with Some x => Throw x | None => Ret tt end.

(** ** Executions over every answer *)

Fixpoint exec {A} (p : prog U A) (tr : list (label U)) (o : outcome A) : Prop :=
  match p with
  | Ret a => tr = [] /\ o = inr a
  | Throw e => tr = [] /\ o = inl e
  | Call c k => exists r tr', tr = LCall c :: tr' /\ exec (k r) tr' o
  | Emit u k => exists tr', tr = LEmit u :: tr' /\ exec k tr' o
  end.

(** ** The interpreter against a backend *)

Class Backend (S : Type) := answer : forall c : call, S -> resp c * S.

Fixpoint run {S} `{Backend S} {A} (p : prog U A) (s : S) : list (label U) * outcome A * S :=
  match p with
  | Ret a => ([], inr a, s)
  | Throw e => ([], inl e, s)
  | Call c k =>
      let '(r, s') := answer c s in
      let '(tr, o, s'') := run (k r) s' in (LCall c :: tr, o, s'')
  | Emit u k =>
      let '(tr, o, s') := run k s in (LEmit u :: tr, o, s')
  end.

(** ** Traces *)

(** The calls of a trace. *)
Fixpoint calls (tr : list (label U)) : list call :=
  match tr with
  | [] => []
  | LCall c :: tr' => c :: calls tr'
  | LEmit _ :: tr' => calls tr'
  end.

(** The effects of a trace. *)
Fixpoint effects (tr : list (label U)) : list U :=
  match tr with
  | [] => []
  | LCall _ :: tr' => effects tr'
  | LEmit u :: tr' => u :: effects tr'
  end.

(** Applying the effects of a trace to a UI state. *)
Definition apply_trace {V} (step : U -> V -> V) (tr : list (label U)) (v : V) : V :=
  fold_left (fun v u => step u v) (effects tr) v.

(** [emits_only P p]: every effect [p] can perform, whatever the
    answers, satisfies [P]. *)
Fixpoint emits_only {A} (P : U -> Prop) (p : prog U A) : Prop :=
  match p with
  | Ret _ | Throw _ => True
  | Call c k => forall r, emits_only P (k r)
  | Emit u k => P u /\ emits_only P k
  end.

(** [calls_le n p]: whatever the answers, [p] awaits at most [n] calls
    before it returns or throws. *)
Fixpoint calls_le {A} (n : nat) (p : prog U A) : Prop :=
  match p with
  | Ret _ | Throw _ => True
  | Call c k => match n with 0 => False | S m => forall r, calls_le m (k r) end
  | Emit u k => calls_le n k
  end.

(** [calls_only P p]: every call [p] can await, whatever the earlier
    answers, satisfies [P]. *)
Fixpoint calls_only {A} (P : call -> Prop) (p : prog U A) : Prop :=
  match p with
  | Ret _ | Throw _ => True
  | Call c k => P c /\ forall r, calls_only P (k r)
  | Emit u k => calls_only P k
  end.

End Combinators.

Declare Scope prog_scope.
Delimit Scope prog_scope with prog.
Notation "x <- p ;; q" := (bind p (fun x => q))
  (at level 61, p at next level, right associativity) : prog_scope.
Notation "' pat <- p ;; q" := (bind p (fun x => match x with pat => q end))
  (at level 61, pat pattern, p at next level, right associativity) : prog_scope.
Notation "p ;; q" := (bind p (fun _ => q))
  (at level 61, right associativity) : prog_scope.

(** [destruct_exec]: break the existentials and conjunctions that [exec]
    unfolds to, substituting the traces. *)
Ltac destruct_exec :=
  repeat match goal with
         | H : exists _, _ |- _ => destruct H
         | H : _ /\ _ |- _ => destruct H
         | H : ?tr = _ |- _ => is_var tr; subst tr
         | H : inl _ = inl _ |- _ => injection H as H
         | H : inr _ = inr _ |- _ => injection H as H
         | H : inl _ = inr _ |- _ => discriminate H
         | H : inr _ = inl _ |- _ => discriminate H
         end.

Section Laws.
Context {U : Type}.

Lemma exec_bind {A B} (p : prog U A) (f : A -> prog U B) tr o :
  exec (bind p f) tr o <->
  (exists tr1 a tr2, exec p tr1 (inr a) /\ exec (f a) tr2 o /\ tr = tr1 ++ tr2) \/
  (exists e, exec p tr (inl e) /\ o = inl e).
Proof.
  revert tr; induction p as [a|e|c k IH|u k IH]; intros tr; simpl.
  - split.
    + intros H. left. exists [], a, tr. auto.
    + intros [(tr1 & a' & tr2 & (-> & Ha) & H & ->)|(e & (_ & He) & _)];
        [injection Ha as ->; exact H|discriminate He].
  - split.
    + intros [-> ->]. right. exists e. auto.
    + intros [(tr1 & a & tr2 & (_ & Ha) & _)|(e' & (-> & He) & ->)];
        [discriminate Ha|injection He as ->; auto].
  - split.
    + intros (r & tr' & -> & H).
      apply IH in H as [(tr1 & a & tr2 & H1 & H2 & ->)|(e & H1 & ->)].
      * left. exists (LCall c :: tr1), a, tr2. split; [exists r, tr1; auto|auto].
      * right. exists e. split; [exists r, tr'; auto|reflexivity].
    + intros [(tr1 & a & tr2 & (r & tr1' & -> & H1) & H2 & ->)|(e & (r & tr' & -> & H1) & ->)].
      * exists r, (tr1' ++ tr2). split; [reflexivity|]. apply IH. left. exists tr1', a, tr2. auto.
      * exists r, tr'. split; [reflexivity|]. apply IH. right. exists e. auto.
  - split.
    + intros (tr' & -> & H).
      apply IH in H as [(tr1 & a & tr2 & H1 & H2 & ->)|(e & H1 & ->)].
      * left. exists (LEmit u :: tr1), a, tr2. split; [exists tr1; auto|auto].
      * right. exists e. split; [exists tr'; auto|reflexivity].
    + intros [(tr1 & a & tr2 & (tr1' & -> & H1) & H2 & ->)|(e & (tr' & -> & H1) & ->)].
      * exists (tr1' ++ tr2). split; [reflexivity|]. apply IH. left. exists tr1', a, tr2. auto.
      * exists tr'. split; [reflexivity|]. apply IH. right. exists e. auto.
Qed.

Lemma exec_try_catch {A} (p : prog U A) (h : exn -> prog U A) tr o :
  exec (try_catch p h) tr o <->
  (exists a, exec p tr (inr a) /\ o = inr a) \/
  (exists tr1 e tr2, exec p tr1 (inl e) /\ exec (h e) tr2 o /\ tr = tr1 ++ tr2).
Proof.
  revert tr; induction p as [a|e|c k IH|u k IH]; intros tr; simpl.
  - split.
    + intros [-> ->]. left. exists a. auto.
    + intros [(a' & (-> & Ha) & ->)|(tr1 & e & tr2 & (_ & He) & _)];
        [injection Ha as ->; auto|discriminate He].
  - split.
    + intros H. right. exists [], e, tr. auto.
    + intros [(a & (_ & Ha) & _)|(tr1 & e' & tr2 & (-> & He) & H & ->)];
        [discriminate Ha|injection He as ->; exact H].
  - split.
    + intros (r & tr' & -> & H).
      apply IH in H as [(a & H & ->)|(tr1 & e & tr2 & H1 & H2 & ->)].
      * left. exists a. split; [exists r, tr'; auto|reflexivity].
      * right. exists (LCall c :: tr1), e, tr2. split; [exists r, tr1; auto|auto].
    + intros [(a & (r & tr' & -> & H) & ->)|(tr1 & e & tr2 & (r & tr1' & -> & H1) & H2 & ->)].
      * exists r, tr'. split; [reflexivity|]. apply IH. left. exists a. auto.
      * exists r, (tr1' ++ tr2). split; [reflexivity|]. apply IH. right. exists tr1', e, tr2. auto.
  - split.
    + intros (tr' & -> & H).
      apply IH in H as [(a & H & ->)|(tr1 & e & tr2 & H1 & H2 & ->)].
      * left. exists a. split; [exists tr'; auto|reflexivity].
      * right. exists (LEmit u :: tr1), e, tr2. split; [exists tr1; auto|auto].
    + intros [(a & (tr' & -> & H) & ->)|(tr1 & e & tr2 & (tr1' & -> & H1) & H2 & ->)].
      * exists tr'. split; [reflexivity|]. apply IH. left. exists a. auto.
      * exists (tr1' ++ tr2). split; [reflexivity|]. apply IH. right. exists tr1', e, tr2. auto.
Qed.

(** The [finally] clause runs after the body whatever its outcome. *)
Lemma exec_try_finally {A} (p : prog U A) (f : prog U unit) tr o :
  exec (try_finally p f) tr o <->
  exists tr1 o1 tr2 of_, exec p tr1 o1 /\ exec f tr2 of_ /\ tr = tr1 ++ tr2 /\
    o = match of_ with inl e => inl e | inr _ => o1 end.
Proof.
  revert tr; induction p as [a|e|c k IH|u k IH]; intros tr; simpl; try rewrite exec_bind.
  1,2: split;
    [ intros [(tr1 & v & tr2 & H & (-> & ->) & ->)|(e' & H & ->)];
      [ eexists [], _, tr1, (inr v); rewrite app_nil_r; simpl; auto
      | eexists [], _, tr, (inl e'); simpl; auto ]
    | intros (tr1 & o1 & tr2 & [|v] & (-> & ->) & H & -> & ->);
      [ right; eexists; eauto
      | left; exists tr2, v, []; rewrite app_nil_r; simpl; auto ] ].
  - split.
    + intros (r & tr' & -> & H). apply IH in H as (tr1 & o1 & tr2 & of_ & H1 & H2 & -> & ->).
      exists (LCall c :: tr1), o1, tr2, of_. split; [exists r, tr1; auto|auto].
    + intros (tr1 & o1 & tr2 & of_ & (r & tr1' & -> & H1) & H2 & -> & ->).
      exists r, (tr1' ++ tr2). split; [reflexivity|]. apply IH. exists tr1', o1, tr2, of_. auto.
  - split.
    + intros (tr' & -> & H). apply IH in H as (tr1 & o1 & tr2 & of_ & H1 & H2 & -> & ->).
      exists (LEmit u :: tr1), o1, tr2, of_. split; [exists tr1; auto|auto].
    + intros (tr1 & o1 & tr2 & of_ & (tr1' & -> & H1) & H2 & -> & ->).
      exists (tr1' ++ tr2). split; [reflexivity|]. apply IH. exists tr1', o1, tr2, of_. auto.
Qed.

Lemma exec_emit_all (us : list U) tr (o : outcome unit) :
  exec (emit_all us) tr o <-> tr = map LEmit us /\ o = inr tt.
Proof.
  revert tr; induction us as [|u us IH]; intros tr; simpl; [tauto|].
  split.
  - intros (tr' & -> & H). apply IH in H as [-> ->]. auto.
  - intros [-> ->]. eexists. split; [reflexivity|]. apply IH. auto.
Qed.

(** The interpreter refines the semantics: each of its runs is an
    execution. *)
Lemma run_exec {S} `{Backend S} {A} (p : prog U A) (s : S) tr o s' :
  run p s = (tr, o, s') -> exec p tr o.
Proof.
  revert s tr o s'; induction p as [a|e|c k IH|u k IH]; intros s tr o s'; simpl.
  - intros [= <- <- _]. auto.
  - intros [= <- <- _]. auto.
  - destruct (answer c s) as [r s1].
    destruct (run (k r) s1) as [[tr1 o1] s2] eqn:E. intros [= <- <- _].
    exists r, tr1. split; [reflexivity|exact (IH r s1 tr1 o1 s2 E)].
  - destruct (run k s) as [[tr1 o1] s2] eqn:E. intros [= <- <- _].
    exists tr1. split; [reflexivity|exact (IH s tr1 o1 s2 E)].
Qed.

(** Every handler completes against any backend: the interpreter's
    run is an execution, so every tree has one. *)
Theorem exec_run {S} `{Backend S} {A} (p : prog U A) (s : S) :
  exec p (fst (fst (run p s))) (snd (fst (run p s))).
Proof.
  revert s; induction p as [a|e|c k IH|u k IH]; intros s; simpl; [auto|auto| |].
  - destruct (answer c s) as [r s1]. specialize (IH r s1).
    destruct (run (k r) s1) as [[tr o] s2]. simpl in *. exists r, tr. auto.
  - specialize (IH s). destruct (run k s) as [[tr o] s2]. simpl in *. exists tr. auto.
Qed.

(** The interpreter's equations for the combinators: a run of [bind],
    [try_catch] and [try_finally] is read off the runs of their parts. *)
Lemma run_bind {S} `{Backend S} {A B} (p : prog U A) (f : A -> prog U B) (s : S) :
  run (bind p f) s =
  let '(tr, o, s1) := run p s in
  match o with
  | inl e => (tr, inl e, s1)
  | inr a => let '(tr2, o2, s2) := run (f a) s1 in (tr ++ tr2, o2, s2)
  end.
Proof.
  revert s; induction p as [a|e|c k IH|u k IH]; intros s; simpl.
  - destruct (run (f a) s) as [[? ?] ?]. reflexivity.
  - reflexivity.
  - destruct (answer c s) as [r s1]. rewrite IH.
    destruct (run (k r) s1) as [[tr o] s2]. destruct o as [e|a]; [reflexivity|].
    destruct (run (f a) s2) as [[? ?] ?]. reflexivity.
  - rewrite IH. destruct (run k s) as [[tr o] s2]. destruct o as [e|a]; [reflexivity|].
    destruct (run (f a) s2) as [[? ?] ?]. reflexivity.
Qed.

Lemma run_try_catch {S} `{Backend S} {A} (p : prog U A) (h : exn -> prog U A) (s : S) :
  run (try_catch p h) s =
  let '(tr, o, s1) := run p s in
  match o with
  | inl e => let '(tr2, o2, s2) := run (h e) s1 in (tr ++ tr2, o2, s2)
  | inr a => (tr, inr a, s1)
  end.
Proof.
  revert s; induction p as [a|e|c k IH|u k IH]; intros s; simpl.
  - reflexivity.
  - destruct (run (h e) s) as [[? ?] ?]. reflexivity.
  - destruct (answer c s) as [r s1]. rewrite IH.
    destruct (run (k r) s1) as [[tr o] s2]. destruct o as [e|a]; [|reflexivity].
    destruct (run (h e) s2) as [[? ?] ?]. reflexivity.
  - rewrite IH. destruct (run k s) as [[tr o] s2]. destruct o as [e|a]; [|reflexivity].
    destruct (run (h e) s2) as [[? ?] ?]. reflexivity.
Qed.

Lemma run_try_finally {S} `{Backend S} {A} (p : prog U A) (f : prog U unit) (s : S) :
  run (try_finally p f) s =
  let '(tr, o, s1) := run p s in
  let '(tr2, o2, s2) := run f s1 in
  (tr ++ tr2, match o2 with inl e => inl e | inr _ => o end, s2).
Proof.
  revert s; induction p as [a|e|c k IH|u k IH]; intros s; simpl.
  1,2: rewrite run_bind; destruct (run f s) as [[tr o] s1]; destruct o; simpl; rewrite ?app_nil_r; reflexivity.
  - destruct (answer c s) as [r s1]. rewrite IH.
    destruct (run (k r) s1) as [[tr o] s2]. destruct (run f s2) as [[? ?] ?]. reflexivity.
  - rewrite IH. destruct (run k s) as [[tr o] s2]. destruct (run f s2) as [[? ?] ?]. reflexivity.
Qed.

Lemma run_bind_emit_all {S} `{Backend S} {A} (us : list U) (k : unit -> prog U A) (s : S) :
  run (bind (emit_all us) k) s = let '(tr, o, s') := run (k tt) s in (map LEmit us ++ tr, o, s').
Proof.
  induction us as [|u us IH]; simpl; [destruct (run (k tt) s) as [[? ?] ?]; reflexivity|].
  rewrite IH. destruct (run (k tt) s) as [[? ?] ?]. reflexivity.
Qed.
Lemma try_catch_emit_all {A} (us : list U) (k : unit -> prog U A) h :
  try_catch (bind (emit_all us) k) h = bind (emit_all us) (fun u => try_catch (k u) h).
Proof. induction us as [|u us IH]; simpl; [reflexivity|]. rewrite IH. reflexivity. Qed.

Lemma try_finally_emit_all {A} (us : list U) (k : unit -> prog U A) f :
  try_finally (bind (emit_all us) k) f = bind (emit_all us) (fun u => try_finally (k u) f).
Proof. induction us as [|u us IH]; simpl; [reflexivity|]. rewrite IH. reflexivity. Qed.

Lemma exec_bind_emit_all {A} (us : list U) (k : unit -> prog U A) tr o :
  exec (bind (emit_all us) k) tr o <-> exists tr', tr = map LEmit us ++ tr' /\ exec (k tt) tr' o.
Proof.
  revert tr; induction us as [|u us IH]; intros tr; simpl.
  - split; [eauto|intros (tr' & -> & H); exact H].
  - split.
    + intros (tr1 & -> & H). apply IH in H as (tr' & -> & H). eauto.
    + intros (tr' & -> & H). exists (map LEmit us ++ tr'). split; [reflexivity|].
      apply IH. eauto.
Qed.

(** A [try]/[catch]/[finally] whose handler and [finally] clause only
    perform effects completes normally; its trace is the body's, then the
    handler's effects when the body threw, then the [finally] effects. *)
Lemma exec_try_catch_finally_effects (p : prog U unit) (h : exn -> list U) (fin : list U) tr o :
  exec (try_finally (try_catch p (fun e => emit_all (h e))) (emit_all fin)) tr o ->
  o = inr tt /\
  exists tr1, tr = tr1 ++ map LEmit fin /\
    (exec p tr1 (inr tt) \/
     exists tr0 e, exec p tr0 (inl e) /\ tr1 = tr0 ++ map LEmit (h e)).
Proof.
  intros H. apply exec_try_finally in H as (tr1 & o1 & tr2 & of_ & H1 & H2 & -> & ->).
  apply exec_emit_all in H2 as [-> ->].
  apply exec_try_catch in H1 as [(a & H1 & ->)|(tr0 & e & tr3 & H0 & H3 & ->)].
  - destruct a. split; [reflexivity|]. exists tr1. auto.
  - apply exec_emit_all in H3 as [-> ->]. split; [reflexivity|].
    exists (tr0 ++ map LEmit (h e)). split; [reflexivity|]. right. eauto.
Qed.

Lemma calls_app (t1 t2 : list (label U)) : calls (t1 ++ t2) = calls t1 ++ calls t2.
Proof. induction t1 as [|[c|u] t1 IH]; simpl; rewrite ?IH; reflexivity. Qed.

Lemma effects_app (t1 t2 : list (label U)) : effects (t1 ++ t2) = effects t1 ++ effects t2.
Proof. induction t1 as [|[c|u] t1 IH]; simpl; rewrite ?IH; reflexivity. Qed.

Lemma apply_trace_app {V} (step : U -> V -> V) t1 t2 v :
  apply_trace step (t1 ++ t2) v = apply_trace step t2 (apply_trace step t1 v).
Proof. unfold apply_trace. rewrite effects_app, fold_left_app. reflexivity. Qed.

Lemma calls_map_emit (us : list U) : calls (map LEmit us) = [].
Proof. induction us; simpl; auto. Qed.

Lemma effects_map_emit (us : list U) : effects (map LEmit us) = us.
Proof. induction us; simpl; f_equal; auto. Qed.

(** The effects of an interleaving of two traces interleave their
    effects. *)
Lemma effects_shuffle (t1 t2 t : list (label U)) :
  shuffle t1 t2 t -> shuffle (effects t1) (effects t2) (effects t).
Proof.
  induction 1 as [|[c|u] t1 t2 t _ IH|[c|u] t1 t2 t _ IH]; simpl;
    try constructor; exact IH.
Qed.

Lemma exec_emits_only {A} (P : U -> Prop) (p : prog U A) tr o :
  emits_only P p -> exec p tr o -> Forall P (effects tr).
Proof.
  revert tr; induction p as [a|e|c k IH|u k IH]; intros tr; simpl.
  - intros _ [-> _]. constructor.
  - intros _ [-> _]. constructor.
  - intros Hk (r & tr' & -> & H). exact (IH r tr' (Hk r) H).
  - intros [Hu Hk] (tr' & -> & H). simpl. constructor; [exact Hu|exact (IH tr' Hk H)].
Qed.
Lemma exec_calls_le {A} (n : nat) (p : prog U A) tr o :
  calls_le n p -> exec p tr o -> List.length (calls tr) <= n.
Proof.
  revert n tr; induction p as [a|e|c k IH|u k IH]; intros n tr; simpl.
  - intros _ [-> _]. apply Nat.le_0_l.
  - intros _ [-> _]. apply Nat.le_0_l.
  - destruct n as [|n]; [contradiction|]. intros Hk (r & tr' & -> & H).
    simpl. apply le_n_S. exact (IH r n tr' (Hk r) H).
  - intros Hk (tr' & -> & H). exact (IH n tr' Hk H).
Qed.

Lemma exec_calls_only {A} (P : call -> Prop) (p : prog U A) tr o :
  calls_only P p -> exec p tr o -> Forall P (calls tr).
Proof.
  revert tr; induction p as [a|e|c k IH|u k IH]; intros tr; simpl.
  - intros _ [-> _]. constructor.
  - intros _ [-> _]. constructor.
  - intros [Hc Hk] (r & tr' & -> & H). simpl. constructor; [exact Hc|exact (IH r tr' (Hk r) H)].
  - intros Hk (tr' & -> & H). exact (IH tr' Hk H).
Qed.

(** The bind rule of [calls_only]. *)
Lemma calls_only_bind {A B} (P : call -> Prop) (p : prog U A) (f : A -> prog U B) :
  calls_only P p -> (forall a, calls_only P (f a)) -> calls_only P (bind p f).
Proof.
  induction p as [a|e|c k IH|u k IH]; simpl; auto.
  intros [Hc Hk] Hf. split; [exact Hc|]. intros r. exact (IH r (Hk r) Hf).
Qed.

Lemma calls_only_try_catch {A} (P : call -> Prop) (p : prog U A) (h : exn -> prog U A) :
  calls_only P p -> (forall e, calls_only P (h e)) -> calls_only P (try_catch p h).
Proof.
  induction p as [a|e|c k IH|u k IH]; simpl; auto.
  intros [Hc Hk] Hh. split; [exact Hc|]. intros r. exact (IH r (Hk r) Hh).
Qed.

Lemma calls_only_try_finally {A} (P : call -> Prop) (p : prog U A) (f : prog U unit) :
  calls_only P p -> calls_only P f -> calls_only P (try_finally p f).
Proof.
  induction p as [a|e|c k IH|u k IH]; simpl; intros Hp Hf.
  - apply calls_only_bind; [exact Hf|]. intros _. exact I.
  - apply calls_only_bind; [exact Hf|]. intros _. exact I.
  - destruct Hp as [Hc Hk]. split; [exact Hc|]. intros r. exact (IH r (Hk r) Hf).
  - exact (IH Hp Hf).
Qed.

Lemma calls_only_emit_all {A} (P : call -> Prop) (us : list U) (k : unit -> prog U A) :
  calls_only P (k tt) -> calls_only P (bind (emit_all us) k).
Proof. induction us as [|u us IH]; simpl; auto. Qed.

Lemma calls_le_mono {A} (n m : nat) (p : prog U A) :
  calls_le n p -> n <= m -> calls_le m p.
Proof.
  revert n m; induction p as [a|e|c k IH|u k IH]; intros n m; simpl.
  - auto.
  - auto.
  - destruct n as [|n]; [contradiction|]. destruct m as [|m]; [intros _ H; inversion H|].
    intros Hk Hle r. apply (IH r n m (Hk r)). apply le_S_n, Hle.
  - exact (IH n m).
Qed.

(** The bind rule of [calls_le]: the bounds add up. *)
Lemma calls_le_bind {A B} (n m : nat) (p : prog U A) (f : A -> prog U B) :
  calls_le n p -> (forall a, calls_le m (f a)) -> calls_le (n + m) (bind p f).
Proof.
  revert n; induction p as [a|e|c k IH|u k IH]; intros n; simpl; auto.
  - intros _ Hf. apply (calls_le_mono m); [exact (Hf a)|apply Nat.le_add_l].
  - destruct n as [|n]; [contradiction|]. intros Hk Hf r. exact (IH r n (Hk r) Hf).
Qed.

Lemma calls_le_try_catch {A} (n m : nat) (p : prog U A) (h : exn -> prog U A) :
  calls_le n p -> (forall e, calls_le m (h e)) -> calls_le (n + m) (try_catch p h).
Proof.
  revert n; induction p as [a|e|c k IH|u k IH]; intros n; simpl; auto.
  - intros _ Hh. apply (calls_le_mono m); [exact (Hh e)|apply Nat.le_add_l].
  - destruct n as [|n]; [contradiction|]. intros Hk Hh r. exact (IH r n (Hk r) Hh).
Qed.

Lemma calls_le_try_finally {A} (n m : nat) (p : prog U A) (f : prog U unit) :
  calls_le n p -> calls_le m f -> calls_le (n + m) (try_finally p f).
Proof.
  revert n; induction p as [a|e|c k IH|u k IH]; intros n; simpl.
  1,2: intros _ Hf; apply (calls_le_mono (m + 0)); [apply calls_le_bind; [exact Hf|exact (fun _ => I)]|lia].
  - destruct n as [|n]; [contradiction|]. intros Hk Hf r. exact (IH r n (Hk r) Hf).
  - exact (IH n).
Qed.

Lemma calls_le_emit_all {A} (n : nat) (us : list U) (k : unit -> prog U A) :
  calls_le n (k tt) -> calls_le n (bind (emit_all us) k).
Proof. induction us as [|u us IH]; simpl; auto. Qed.

End Laws.

#[export] Hint Rewrite @calls_app @effects_app @calls_map_emit @effects_map_emit : fragrance_rw.

(** [simpl_trace]: compute the calls and effects of a trace. *)
Ltac simpl_trace := repeat progress (simpl; autorewrite with fragrance_rw).

(** [solve_over_answers]: check [emits_only], [calls_le] or [calls_only]
    on a concrete handler by case analysis of every answer. *)
Ltac solve_over_answers :=
  repeat (simpl; intros;
          repeat match goal with
                 | x : prod _ _ |- _ => destruct x
                 | x : option _ |- _ => destruct x
                 | x : bool |- _ => destruct x
                 | |- context [match ?x with _ => _ end] => destruct x
                 | H : None = Some _ |- _ => discriminate H
                 end;
          rewrite ?try_catch_emit_all, ?try_finally_emit_all;
          try apply calls_le_emit_all; try apply calls_only_emit_all;
          repeat split).

End Prog.
