(* ===== verification/Backend.v ===== *)
(** * Backend: a remote service and browser that answer every call

    The hosted service (tables [perfumes] and [admin_users], email and
    password authentication, blob storage) and the browser APIs are not
    code of this repository.  This file models them from the spec
    (sections 3 and 6) as one state [Db] and an answer function making it
    a [Prog.Backend]:
    - rows of [perfumes] are kept newest first, so the ordered select
      ([created_at] descending) returns them as stored, and an insert
      assigns a fresh identifier and the current time;
    - [admin_users.select(..).eq('email', e).single()] answers the row
      whose email equals [e] exactly, and an error when there is none;
    - sign-in checks the credentials and opens a session, sign-out
      closes it;
    - an upload with [upsert: false] fails when the path is taken, and
      reports one progress notification for the whole file otherwise;
    - [online = false] makes every service call fail, as a network
      failure does;
    - [window.confirm] answers [confirm_answer]; [Math.random], [Date] and
      [URL.createObjectURL] are derived from a logical clock that every
      call advances.
    [db_equiv] relates two states with the same data (they may differ in
    the clock): it is an [Equivalence], and a handler that only reads
    gives the same trace on equivalent states ([run_trace_Proper]).
    The handler theorems of the other files hold for every backend; this
    one serves the end-to-end theorems and the witnesses. *)

From Stdlib Require Import List String Ascii Bool ZArith PrimFloat DecimalString Setoid Morphisms.
From S2P Require Import Prelude JsString Types Remote Prog.
Import ListNotations.

Module Backend.
Import Remote Prog.
Local Open Scope string_scope.

Record Db := mkDb {
  perfume_rows : list Perfume.Perfume;
  admin_rows : list AdminRow;
  credentials : list (string * string * User);
  session : option User;
  objects : list string;
  online : bool;
  confirm_answer : bool;
  clock : nat
}.

(** The decimal digits of a number. *)
Definition digits (n : nat) : string := NilEmpty.string_of_uint (Nat.to_uint n).

(** The timestamp of a logical time (the ISO string of the spec). *)
Definition timestamp (n : nat) : string := "t" ++ digits n.

Definition tick (d : Db) : Db :=
  mkDb (perfume_rows d) (admin_rows d) (credentials d) (session d) (objects d)
       (online d) (confirm_answer d) (S (clock d)).

Definition with_rows (rows : list Perfume.Perfume) (d : Db) : Db :=
  mkDb rows (admin_rows d) (credentials d) (session d) (objects d)
       (online d) (confirm_answer d) (clock d).

Definition with_admins (rows : list AdminRow) (d : Db) : Db :=
  mkDb (perfume_rows d) rows (credentials d) (session d) (objects d)
       (online d) (confirm_answer d) (clock d).

Definition with_session (u : option User) (d : Db) : Db :=
  mkDb (perfume_rows d) (admin_rows d) (credentials d) u (objects d)
       (online d) (confirm_answer d) (clock d).

Definition with_objects (o : list string) (d : Db) : Db :=
  mkDb (perfume_rows d) (admin_rows d) (credentials d) (session d) o
       (online d) (confirm_answer d) (clock d).

Definition network_error : exn := Thrown "FetchError: network request failed".

(** The row an insert creates from the payload. *)
Definition new_row (d : Db) (f : PerfumeFormData.PerfumeFormData) : Perfume.Perfume :=
  {| Perfume.id := "p" ++ digits (clock d); Perfume.name := PerfumeFormData.name f;
     Perfume.category := PerfumeFormData.category f; Perfume.price := PerfumeFormData.price f;
     Perfume.image_url := PerfumeFormData.image_url f;
     Perfume.description := PerfumeFormData.description f; Perfume.notes := PerfumeFormData.notes f;
     Perfume.created_at := timestamp (clock d); Perfume.updated_at := timestamp (clock d) |}.

(** Full replacement of the fields of a row, keeping its identity. *)
Definition replace_row (d : Db) (f : PerfumeFormData.PerfumeFormData) (p : Perfume.Perfume) : Perfume.Perfume :=
  {| Perfume.id := Perfume.id p; Perfume.name := PerfumeFormData.name f;
     Perfume.category := PerfumeFormData.category f; Perfume.price := PerfumeFormData.price f;
     Perfume.image_url := PerfumeFormData.image_url f;
     Perfume.description := PerfumeFormData.description f; Perfume.notes := PerfumeFormData.notes f;
     Perfume.created_at := Perfume.created_at p; Perfume.updated_at := timestamp (clock d) |}.

Definition find_admin (e : string) (rows : list AdminRow) : option AdminRow :=
  find (fun r => String.eqb (admin_email r) e) rows.

Definition find_credentials (e p : string) (cs : list (string * string * User)) : option User :=
  option_map snd (find (fun '(e', p', _) => String.eqb e' e && String.eqb p' p) cs).

(** The row that recording a login time for [e] stamps. *)
Definition stamp_login (t e : string) (r : AdminRow) : AdminRow :=
  if String.eqb (admin_email r) e then mkAdminRow (admin_email r) (admin_username r) (Some t) else r.

(** The public URL of a stored object. *)
Definition public_url (b path : string) : string :=
  "https://storage.example/object/public/" ++ b ++ "/" ++ path.

(** The answer to one call, before the clock advances. *)
Definition answer_db (c : call) (d : Db) : resp c * Db :=
  match c return resp c * Db with
  | AuthGetUser => (if online d then session d else None, d)
  | AuthGetSession => (is_some (session d), d)
  | AuthSignInWithPassword e p =>
      if negb (online d) then ((None, Some network_error), d) else
      match find_credentials e p (credentials d) with
      | Some u => ((Some u, None), with_session (Some u) d)
      | None => ((None, Some (ErrorObj "Invalid login credentials")), d)
      end
  | AuthSignOut => (None, with_session None d)
  | AdminUsersSelectSingle _ e =>
      if negb (online d) then ((None, Some network_error), d) else
      match find_admin e (admin_rows d) with
      | Some r => ((Some r, None), d)
      | None => ((None, Some (Thrown "JSON object requested, multiple (or no) rows returned")), d)
      end
  | AdminUsersUpdateLastLogin t e =>
      if negb (online d) then (Some network_error, d) else
      (None, with_admins (map (stamp_login t e) (admin_rows d)) d)
  | PerfumesSelectOrdered =>
      if online d then ((Some (perfume_rows d), None), d) else ((None, Some network_error), d)
  | PerfumesInsert f =>
      if online d then (None, with_rows (new_row d f :: perfume_rows d) d) else (Some network_error, d)
  | PerfumesUpdate f id =>
      if online d then
        (None, with_rows (map (fun p => if String.eqb (Perfume.id p) id then replace_row d f p else p)
                              (perfume_rows d)) d)
      else (Some network_error, d)
  | PerfumesDelete id =>
      if online d then
        (None, with_rows (filter (fun p => negb (String.eqb (Perfume.id p) id)) (perfume_rows d)) d)
      else (Some network_error, d)
  | StorageUpload _ path file _ upsert =>
      if negb (online d) then (([], Some network_error), d)
      else if existsb (String.eqb path) (objects d) && negb upsert
      then (([], Some (Thrown "The resource already exists")), d)
      else (([mkProgress (file_size file) (file_size file)], None), with_objects (path :: objects d) d)
  | StorageGetPublicUrl b path => (public_url b path, d)
  | WindowConfirm _ => (confirm_answer d, d)
  | MathRandomToString36 => ("0." ++ digits (clock d), d)
  | DateToISOString => (timestamp (clock d), d)
  | CreateObjectURL _ => ("blob:" ++ digits (clock d), d)
  end.

#[export] Instance db_backend : Backend Db :=
  fun c d => let '(r, d') := answer_db c d in (r, tick d').

(** A signed-in session. *)
Definition signedInDb : Db :=
  mkDb [] [] [] (Some (mkUser "u1" "admin@fragrance.example")) [] true false 0.

(** ** The service's data, up to the clock *)

(** Two service states hold the same data when they differ at most in
    their clock: the clock only feeds [Math.random], [Date] and object
    URLs, never a table, a session or the storage. *)
Definition data_of (d : Db) : Db :=
  mkDb (perfume_rows d) (admin_rows d) (credentials d) (session d) (objects d)
       (online d) (confirm_answer d) 0.

Definition db_equiv (d1 d2 : Db) : Prop := data_of d1 = data_of d2.

(** The calls that read the service or the browser without changing
    them and whose answer does not depend on the clock. *)
Definition reads_only (c : call) : bool :=
  match c with
  | AuthGetUser | AuthGetSession | AdminUsersSelectSingle _ _ | PerfumesSelectOrdered
  | StorageGetPublicUrl _ _ | WindowConfirm _ => true
  | _ => false
  end.

(** ** Lemmas *)

#[export] Instance db_equiv_Equivalence : Equivalence db_equiv.
Proof. unfold db_equiv. split; [intros d|intros d1 d2 H|intros d1 d2 d3 H1 H2]; congruence. Qed.

#[export] Instance tick_Proper : Proper (db_equiv ==> db_equiv) tick.
Proof. intros d1 d2 H. exact H. Qed.

Lemma tick_equiv (d : Db) : db_equiv (tick d) d.
Proof. reflexivity. Qed.

(** A read answers the same on states with the same data, and leaves
    the data as it was. *)
Lemma answer_reads_only (c : call) (d1 d2 : Db) :
  reads_only c = true -> db_equiv d1 d2 ->
  fst (answer c d1) = fst (answer c d2) /\ db_equiv (snd (answer c d1)) d1.
Proof.
  intros Hc H. unfold answer, db_backend.
  destruct d1 as [r1 a1 c1 s1 o1 n1 f1 k1], d2 as [r2 a2 c2 s2 o2 n2 f2 k2].
  injection H as -> -> -> -> -> -> ->.
  destruct c; try discriminate Hc; try destruct n2; simpl; try destruct (find_admin _ _); split; reflexivity.
Qed.

(** A handler that only reads gives the same trace and outcome on states
    with the same data, and leaves the data as it was. *)
Lemma run_reads_only {U A} (p : prog U A) (d1 d2 : Db) :
  calls_only (fun c => reads_only c = true) p -> db_equiv d1 d2 ->
  fst (run p d1) = fst (run p d2) /\ db_equiv (snd (run p d1)) d1.
Proof.
  revert d1 d2. induction p as [a|e|c k IH|u k IH]; intros d1 d2 Hp H; simpl in Hp |- *.
  - split; reflexivity.
  - split; reflexivity.
  - destruct Hp as [Hc Hk]. destruct (answer_reads_only c d1 d2 Hc H) as [Hr He].
    destruct (answer_reads_only c d2 d2 Hc (reflexivity _)) as [_ He2].
    destruct (answer c d1) as [r d1'], (answer c d2) as [r' d2'].
    simpl in Hr, He, He2. subst r'.
    assert (H' : db_equiv d1' d2') by (rewrite He, H, He2; reflexivity).
    destruct (IH r d1' d2' (Hk r) H') as [Ht Hd].
    destruct (run (k r) d1') as [[t1 o1] e1], (run (k r) d2') as [[t2 o2] e2].
    simpl in Ht, Hd |- *. injection Ht as -> ->. split; [reflexivity|]. rewrite Hd. exact He.
  - destruct (IH d1 d2 Hp H) as [Ht Hd].
    destruct (run k d1) as [[t1 o1] e1], (run k d2) as [[t2 o2] e2].
    simpl in Ht, Hd |- *. injection Ht as -> ->. split; [reflexivity|exact Hd].
Qed.

Section ReadOnly.
Context {U A : Type} (p : prog U A).
Hypothesis Hp : calls_only (fun c => reads_only c = true) p.

(** For a read-only handler, the trace and outcome of a run are a
    function of the service's data. *)
#[export] Instance run_trace_Proper : Proper (db_equiv ==> eq) (fun d => fst (run p d)).
Proof. intros d1 d2 H. exact (proj1 (run_reads_only p d1 d2 Hp H)). Qed.

(** Running a read-only handler a second time repeats the first run. *)
Lemma run_reads_twice (d : Db) : fst (run p (snd (run p d))) = fst (run p d).
Proof. apply run_trace_Proper. exact (proj2 (run_reads_only p d d Hp (reflexivity _))). Qed.

End ReadOnly.


Lemma find_admin_stamp (t e : string) (rows : list AdminRow) :
  find_admin e (map (stamp_login t e) rows) =
  option_map (fun r => mkAdminRow (admin_email r) (admin_username r) (Some t)) (find_admin e rows).
Proof.
  unfold find_admin, stamp_login. induction rows as [|r rows IH]; simpl; [reflexivity|].
  destruct (String.eqb (admin_email r) e) eqn:E; simpl; rewrite ?E; [reflexivity|exact IH].
Qed.

(** [db_simpl]: run the interpreter against [db_backend], keeping the
    credential and [admin_users] lookups folded so that hypotheses about
    them can be rewritten. *)
Ltac db_simpl :=
  repeat progress (unfold answer, db_backend; cbn -[find_credentials find_admin]).

(** ** Witnesses *)

Lemma run_exec_witness :
  exec (U := unit) (call_ AuthGetSession) [LCall AuthGetSession] (inr true).
Proof.
  exact (run_exec (U := unit) (call_ AuthGetSession) signedInDb [LCall AuthGetSession] (inr true)
           (tick signedInDb) eq_refl).
Defined.

End Backend.
