(* ===== verification/DashState.v ===== *)
(** * DashState: the admin console's page state (src/src/pages/AdminDashboard.tsx)

    The page's React state (lines 8-29) is the record [DashState]; each
    [setX] call and each [navigate], [console.error] and
    [URL.revokeObjectURL] a handler performs is an [Effect], applied to
    the state by [step]; [final s tr] applies the effects of a trace in
    order.  The lemmas here say how runs of effects act on the state and
    are shared by Upload.v and Dashboard.v. *)

From Stdlib Require Import List String Bool ZArith PrimFloat.
From S2P Require Import Prelude Types Remote Prog.
Import ListNotations.

Module DashboardState.
Import Remote Prog.
Local Open Scope string_scope.

(** [{ username, last_login }] as selected by [checkAdmin]. *)
Record AdminData := mkAdminData { username : string; last_login : option string }.

(** The value [Math.round(x)] stores in [uploadProgress]: an integer, or
    NaN / Infinity when the division by [progress.total] is by zero. *)
Inductive Pct := PctInt (z : Z) | PctNaN | PctInfinity.

(** The page's state (lines 8-15, 27-29) and the router location. *)
Record DashState := mkDash {
  loading : bool;
  perfumes : list Perfume.Perfume;
  adminData : option AdminData;
  isModalOpen : bool;
  editingPerfume : option Perfume.Perfume;
  formError : string;
  isSaving : bool;
  uploadProgress : option Pct;
  formData : PerfumeFormData.PerfumeFormData;
  selectedImage : option File;
  previewUrl : option string;
  location : option string
}.

(** The synchronous effects of the handlers. *)
Inductive Effect :=
| SetLoading (b : bool)
| SetPerfumes (l : list Perfume.Perfume)
| SetAdminData (a : AdminData)
| SetIsModalOpen (b : bool)
| SetEditingPerfume (p : option Perfume.Perfume)
| SetFormError (msg : string)
| SetIsSaving (b : bool)
| SetUploadProgress (p : option Pct)
| SetFormData (f : PerfumeFormData.PerfumeFormData)
| SetSelectedImage (f : option File)
| SetPreviewUrl (u : option string)
| Navigate (path : string)
| ConsoleError (msg : string)
| RevokeObjectURL (url : string).

(** [initialFormData] (lines 18-25). *)
Definition initialFormData : PerfumeFormData.PerfumeFormData :=
  {| PerfumeFormData.name := EmptyString; PerfumeFormData.category := EmptyString;
     PerfumeFormData.price := 0%float; PerfumeFormData.image_url := EmptyString;
     PerfumeFormData.description := EmptyString; PerfumeFormData.notes := [] |}.

(** The state of the first render ([useState] initial values). *)
Definition initialState : DashState :=
  {| loading := true; perfumes := []; adminData := None; isModalOpen := false;
     editingPerfume := None; formError := EmptyString; isSaving := false;
     uploadProgress := None; formData := initialFormData; selectedImage := None;
     previewUrl := None; location := None |}.

(** How each effect changes the state. *)
Definition step (u : Effect) (s : DashState) : DashState :=
  let '(mkDash lo ps ad mo ed fe sv up fd si pu loc) := s in
  match u with
  | SetLoading b => mkDash b ps ad mo ed fe sv up fd si pu loc
  | SetPerfumes l => mkDash lo l ad mo ed fe sv up fd si pu loc
  | SetAdminData a => mkDash lo ps (Some a) mo ed fe sv up fd si pu loc
  | SetIsModalOpen b => mkDash lo ps ad b ed fe sv up fd si pu loc
  | SetEditingPerfume p => mkDash lo ps ad mo p fe sv up fd si pu loc
  | SetFormError m => mkDash lo ps ad mo ed m sv up fd si pu loc
  | SetIsSaving b => mkDash lo ps ad mo ed fe b up fd si pu loc
  | SetUploadProgress p => mkDash lo ps ad mo ed fe sv p fd si pu loc
  | SetFormData f => mkDash lo ps ad mo ed fe sv up f si pu loc
  | SetSelectedImage f => mkDash lo ps ad mo ed fe sv up fd f pu loc
  | SetPreviewUrl p => mkDash lo ps ad mo ed fe sv up fd si p loc
  | Navigate path => mkDash lo ps ad mo ed fe sv up fd si pu (Some path)
  | ConsoleError _ | RevokeObjectURL _ => s
  end.

Definition final (s : DashState) (tr : list (label Effect)) : DashState :=
  apply_trace step tr s.

Definition login_path : string := "/admin/login".

(** ** Properties *)

Local Open Scope list_scope.

(** The state after a list of effects. *)
Abbreviation run_effects us v0 := (fold_left (fun w u => step u w) us v0).

(** An upload run leaves a state without progress as it was. *)
Lemma step_console (m : string) (v : DashState) : step (ConsoleError m) v = v.
Proof. destruct v; reflexivity. Qed.

(** Effects that leave the state unchanged. *)
Lemma final_revokes (s : DashState) rest :
  Forall (fun u => exists url, u = RevokeObjectURL url) rest ->
  fold_left (fun v u => step u v) rest s = s.
Proof.
  intros Hall. revert s. induction Hall as [|u rest [url ->] _ IH]; intros s; simpl; auto.
  rewrite IH. destruct s. reflexivity.
Qed.

Lemma fold_progress (us : list Effect) (v : DashState) (p : option Pct) :
  Forall (fun u => exists q, u = SetUploadProgress q) us ->
  step (SetUploadProgress p) (run_effects us v) = step (SetUploadProgress p) v.
Proof.
  intros Hall; revert v; induction Hall as [|u us [q ->] _ IH]; intros v; simpl; [reflexivity|].
  rewrite IH. destruct v; reflexivity.
Qed.

End DashboardState.
