(* ===== verification/Upload.v ===== *)
(** * Upload: the image upload of the admin console (src/src/pages/AdminDashboard.tsx)

    [uploadImage] (lines 90-121) names the object from [Math.random] and
    the file's extension ([fileExt], [filePath]), sets the progress to 0,
    uploads with [upsert: false], reports one rounded percentage per
    progress notification ([percent], [onUploadProgress]), resolves the
    public URL, and clears the progress in its [finally] clause.

    The theorems give the run of [uploadImage] against any backend
    ([run_uploadImage]), the progress values it displays for the
    notifications the storage client answers and its outcome, their
    bounds and monotonicity, the
    agreement of [percent] with [Math.round] on the exact quotient, and
    the extension the stored name keeps. *)

From Stdlib Require Import List String Ascii Bool ZArith PrimFloat Lia Sorted QArith Qround.
From S2P Require Import Prelude JsString Types Remote Prog Backend DashState.
Import ListNotations.

Module Upload.
Import Remote Prog DashboardState.
Local Open Scope string_scope.
Local Open Scope prog_scope.

(** [Math.round((progress.loaded / progress.total) * 100)] (line 103-104),
    with the quotient computed exactly: for [total > 0] it rounds half up. *)
Definition percent (p : Progress) : Pct :=
  if (total p =? 0)%Z then
    (if (loaded p =? 0)%Z then PctNaN else PctInfinity)
  else PctInt ((200 * loaded p + total p) / (2 * total p))%Z.

(** [file.name.split('.').pop()] (line 91). *)
Definition fileExt (file : File) : string :=
  JsString.pop_last (JsString.split "."%char (file_name file)).

(** [`perfumes/${Math.random().toString(36).substring(2)}.${fileExt}`]
    (lines 92-93) from the string [Math.random().toString(36)]. *)
Definition filePath (random36 : string) (file : File) : string :=
  "perfumes/" ++ JsString.substring_from 2 random36 ++ "." ++ fileExt file.

Definition bucket : string := "perfume-images".

(** The [onUploadProgress] callback (lines 102-105). *)
Definition onUploadProgress (ev : Progress) : Effect :=
  SetUploadProgress (Some (percent ev)).

(** [uploadImage] (lines 90-121). *)
Definition uploadImage (file : File) : prog Effect string :=
  r36 <- call_ MathRandomToString36 ;;
  let path := filePath r36 file in
  try_finally
    (try_catch
       (emit (SetUploadProgress (Some (PctInt 0))) ;;
        '(events, uploadError) <- call_ (StorageUpload bucket path file "3600" false) ;;
        emit_all (map onUploadProgress events) ;;
        throw_if uploadError ;;
        publicUrl <- call_ (StorageGetPublicUrl bucket path) ;;
        Ret publicUrl)
       (fun _ => emit (ConsoleError "Error uploading image:") ;;
                 Throw (ErrorObj "Failed to upload image")))
    (emit (SetUploadProgress None)).

(** The values an effect list stores in [uploadProgress], in order. *)
Fixpoint progressValues (us : list Effect) : list (option Pct) :=
  match us with
  | [] => []
  | SetUploadProgress p :: us' => p :: progressValues us'
  | _ :: us' => progressValues us'
  end.

(** The order of displayed progress values: both are integers, the first
    not above the second. *)
Definition pct_le (a b : option Pct) : Prop :=
  match a, b with
  | Some (PctInt x), Some (PctInt y) => (x <= y)%Z
  | _, _ => False
  end.

(** ** Reference definitions *)

(** [Math.round(x)] on an exact rational: the nearest integer, a tie
    going toward +Infinity, i.e. [floor (x + 1/2)]. *)
Definition js_round (x : Q) : Z := Qfloor (x + (1 # 2))%Q.

(** [(progress.loaded / progress.total) * 100] computed exactly. *)
Definition percent_q (p : Progress) : Q := (inject_Z (loaded p) / inject_Z (total p) * inject_Z 100)%Q.

(** ** Witness inputs *)

Definition sampleFile : File := mkFile "bottle.photo.jpg" 2048.

(** A reachable service with an empty store. *)
Definition uploadDb : Backend.Db := Backend.mkDb [] [] [] None [] true false 0.

(** ** Properties *)

Local Open Scope list_scope.
#[local] Existing Instance Backend.db_backend.

(** Every run of [uploadImage]: the random name, progress 0, the upload
    with [upsert: false] at the derived path, one progress value per
    notification, then either the public URL of the path or the log and
    the "Failed to upload image" error; the progress is cleared last. *)
Lemma exec_uploadImage (file : File) tr o :
  exec (uploadImage file) tr o ->
  exists r36 events,
    let path := filePath r36 file in
    let pre := [LCall MathRandomToString36; LEmit (SetUploadProgress (Some (PctInt 0)));
                LCall (StorageUpload bucket path file "3600" false)]
               ++ map LEmit (map onUploadProgress events) in
    (exists url, tr = pre ++ [LCall (StorageGetPublicUrl bucket path);
                              LEmit (SetUploadProgress None)] /\ o = inr url) \/
    (tr = pre ++ [LEmit (ConsoleError "Error uploading image:"); LEmit (SetUploadProgress None)] /\
     o = inl (ErrorObj "Failed to upload image")).
Proof.
  simpl. intros (r36 & tr1 & -> & tr2 & -> & [events err] & tr3 & -> & H).
  simpl in H. rewrite try_catch_emit_all, try_finally_emit_all, exec_bind_emit_all in H.
  destruct H as (tr4 & -> & H). exists r36, events.
  destruct err; simpl in H; destruct_exec; [right|left; eexists]; split; reflexivity.
Qed.

Lemma progressValues_app (u1 u2 : list Effect) :
  progressValues (u1 ++ u2) = progressValues u1 ++ progressValues u2.
Proof. induction u1 as [|[] u1 IH]; simpl; rewrite ?IH; reflexivity. Qed.

(** The interpreter's run of [uploadImage] against any backend, from the
    random name and the upload's answer: the progress values of the
    notifications that answer carries, then the public URL of the path
    when the upload reports no error, or the log and "Failed to upload
    image" when it does. *)
Lemma run_uploadImage {S} `{Backend S} (file : File) (b b1 b2 : S) (r36 : string)
  (events : list Progress) (err : option exn) :
  answer MathRandomToString36 b = (r36, b1) ->
  answer (StorageUpload bucket (filePath r36 file) file "3600" false) b1 = ((events, err), b2) ->
  run (uploadImage file) b =
  let path := filePath r36 file in
  let pre := [LCall MathRandomToString36; LEmit (SetUploadProgress (Some (PctInt 0)));
              LCall (StorageUpload bucket path file "3600" false)] ++ map LEmit (map onUploadProgress events) in
  match err with
  | Some _ => (pre ++ [LEmit (ConsoleError "Error uploading image:"); LEmit (SetUploadProgress None)],
               inl (ErrorObj "Failed to upload image"), b2)
  | None => let '(url, b3) := answer (StorageGetPublicUrl bucket path) b2 in
            (pre ++ [LCall (StorageGetPublicUrl bucket path); LEmit (SetUploadProgress None)], inr url, b3)
  end.
Proof.
  intros Hr Hu. unfold uploadImage. cbn -[filePath]. rewrite Hr. cbn -[filePath]. rewrite Hu. cbn -[filePath].
  rewrite try_catch_emit_all, try_finally_emit_all, run_bind_emit_all.
  destruct err; cbn -[filePath]; [reflexivity|].
  destruct (answer (StorageGetPublicUrl bucket (filePath r36 file)) b2) as [url b3]. reflexivity.
Qed.

(** C15: Against any backend, the progress an upload displays is 0, then
    the rounded percentage of each notification the storage client's
    answer carries, in order, then [null], whether the upload succeeds or
    fails; the upload returns the public URL of the stored path when the
    answer carries no error, and throws "Failed to upload image" when it
    does. *)
Theorem uploadImage_progress_sequence {S} `{Backend S} (file : File) (b b1 b2 : S) (r36 : string)
  (events : list Progress) (err : option exn) :
  answer MathRandomToString36 b = (r36, b1) ->
  answer (StorageUpload bucket (filePath r36 file) file "3600" false) b1 = ((events, err), b2) ->
  let '(tr, o, _) := run (uploadImage file) b in
  progressValues (effects tr) = Some (PctInt 0) :: map (fun ev => Some (percent ev)) events ++ [None] /\
  o = match err with
      | Some _ => inl (ErrorObj "Failed to upload image")
      | None => inr (fst (answer (StorageGetPublicUrl bucket (filePath r36 file)) b2))
      end.
Proof.
  intros Hr Hu. rewrite (run_uploadImage file b b1 b2 r36 events err Hr Hu).
  assert (Hp : progressValues (map onUploadProgress events) = map (fun ev => Some (percent ev)) events)
    by (clear - events; induction events as [|ev events IH]; simpl; rewrite ?IH; reflexivity).
  cbv zeta. destruct err as [e|]; [|destruct (answer _ b2) as [url b3]];
    simpl_trace; rewrite progressValues_app, Hp; split; reflexivity.
Qed.

Lemma percent_of_positive (ev : Progress) :
  (0 < total ev)%Z ->
  percent ev = PctInt ((200 * loaded ev + total ev) / (2 * total ev))%Z.
Proof. intros H. unfold percent. destruct (Z.eqb_spec (total ev) 0); [lia|reflexivity]. Qed.

(** A notification of a transfer of [T] bytes shows a value in [0, 100],
    and shows 100 once all bytes are sent. *)
Lemma percent_bounds (T : Z) (ev : Progress) :
  (0 < T)%Z -> total ev = T -> (0 <= loaded ev <= T)%Z ->
  exists z, percent ev = PctInt z /\ (0 <= z <= 100)%Z /\ (loaded ev = T -> z = 100%Z).
Proof.
  intros HT Ht Hl. rewrite percent_of_positive by lia. rewrite Ht.
  eexists. split; [reflexivity|]. split; [split|].
  - apply Z.div_pos; lia.
  - assert (((200 * loaded ev + T) / (2 * T) < 101)%Z) by (apply Z.div_lt_upper_bound; lia). lia.
  - intros ->. symmetry. apply (Z.div_unique_pos _ _ _ T); lia.
Qed.

Lemma percent_mono (T : Z) (a b : Progress) :
  (0 < T)%Z -> total a = T -> total b = T -> (loaded a <= loaded b)%Z ->
  pct_le (Some (percent a)) (Some (percent b)).
Proof.
  intros HT Ha Hb Hab. rewrite (percent_of_positive a), (percent_of_positive b) by lia.
  unfold pct_le. rewrite Ha, Hb.
  apply Z.div_le_mono; lia.
Qed.

(** C16: For a transfer of [T > 0] bytes whose notifications report a
    non-decreasing number of bytes sent, at most [T]: the displayed values
    0, then one per notification, never decrease, stay within [0, 100],
    and a notification of the whole file shows 100. *)
Theorem upload_progress_monotone (T : Z) (events : list Progress) :
  (0 < T)%Z ->
  Forall (fun ev => total ev = T /\ (0 <= loaded ev <= T)%Z) events ->
  Sorted (fun a b => (loaded a <= loaded b)%Z) events ->
  Sorted pct_le (Some (PctInt 0) :: map (fun ev => Some (percent ev)) events) /\
  Forall (fun ev => exists z, percent ev = PctInt z /\ (0 <= z <= 100)%Z /\
                              (loaded ev = T -> z = 100%Z)) events.
Proof.
  intros HT Hall Hs. split.
  - constructor.
    + induction Hs as [|a l Hs IH Hhd]; simpl; constructor; inversion Hall as [|? ? Ha Hl]; subst.
      * apply IH. exact Hl.
      * inversion Hhd as [|b l' Hab]; subst; constructor.
        inversion Hl as [|? ? Hb _]; subst. apply (percent_mono T); tauto.
    + destruct events as [|ev l]; constructor. inversion Hall as [|? ? [Ht Hl] _]; subst.
      destruct (percent_bounds _ ev HT eq_refl Hl) as (z & -> & Hz & _). simpl. lia.
  - eapply Forall_impl; [|exact Hall]. intros ev [Ht Hl]. exact (percent_bounds T ev HT Ht Hl).
Qed.

(** C35: The stored name keeps the chosen file's extension: the text after its
    last dot.  A name without a dot is taken whole as the extension. *)
Theorem fileExt_spec (base ext : string) (size : Z) :
  JsString.has_char "."%char ext = false ->
  fileExt (mkFile (base ++ String "."%char ext)%string size) = ext /\
  filePath "0.4fzyo82mvyr" (mkFile (base ++ String "."%char ext)%string size) =
    ("perfumes/4fzyo82mvyr." ++ ext)%string /\
  (JsString.has_char "."%char base = false -> fileExt (mkFile base size) = base).
Proof.
  intros Hx. unfold filePath, fileExt. simpl.
  rewrite JsString.pop_last_split_app by exact Hx.
  split; [reflexivity|split; [reflexivity|]].
  apply JsString.pop_last_split_no_sep.
Qed.

Lemma progress_callbacks_only (events : list Progress) :
  Forall (fun u => exists q, u = SetUploadProgress q) (map onUploadProgress events).
Proof. induction events as [|ev events IH]; simpl; [constructor|constructor; [eexists; reflexivity|exact IH]]. Qed.

Lemma exec_uploadImage_final (file : File) tr o (v : DashState) :
  uploadProgress v = None -> exec (uploadImage file) tr o -> run_effects (effects tr) v = v.
Proof.
  intros Hv H. apply exec_uploadImage in H as (r36 & events & [(url & -> & _)|(-> & _)]);
    rewrite !effects_app, effects_map_emit, !fold_left_app; simpl;
    rewrite ?step_console, (fold_progress _ _ None (progress_callbacks_only events));
    destruct v; simpl in Hv |- *; subst; reflexivity.
Qed.

(** C17: The integer formula of [percent] is [Math.round] of the exact
    percentage: for every notification with a positive total, [percent]
    displays [js_round ((loaded / total) * 100)]. *)
Theorem percent_round_equiv (p : Progress) :
  (0 < total p)%Z -> percent p = PctInt (js_round (percent_q p)).
Proof.
  intros Ht. destruct p as [l [|t|t]]; simpl in Ht; try lia.
  unfold percent. cbn [total loaded Z.eqb]. f_equal. unfold js_round, percent_q, Qfloor.
  cbn [Qnum Qden Qplus Qmult Qdiv Qinv inject_Z total loaded]. rewrite !Pos2Z.inj_mul. f_equal; lia.
Qed.

(** [uploadImage] awaits at most three calls: the random name, the
    upload and the public URL. *)
Lemma uploadImage_calls_le (file : File) : calls_le 3 (uploadImage file).
Proof. unfold uploadImage. solve_over_answers. Qed.

(** ** Witnesses *)

Lemma uploadImage_progress_sequence_witness :
  let '(tr, o, _) := run (uploadImage sampleFile) uploadDb in
  progressValues (effects tr) = [Some (PctInt 0); Some (PctInt 100); None] /\
  o = inr (Backend.public_url bucket "perfumes/0.jpg").
Proof.
  pose proof (uploadImage_progress_sequence sampleFile uploadDb _ _ _ _ _ eq_refl eq_refl) as H. exact H.
Defined.

Lemma upload_progress_monotone_witness :
  Sorted pct_le (Some (PctInt 0) :: map (fun ev => Some (percent ev))
                   [mkProgress 512 2048; mkProgress 1024 2048; mkProgress 2048 2048]).
Proof.
  refine (proj1 (upload_progress_monotone 2048
    [mkProgress 512 2048; mkProgress 1024 2048; mkProgress 2048 2048] _ _ _)).
  all: repeat constructor; simpl; lia.
Defined.

Lemma fileExt_spec_witness :
  fileExt (mkFile "bottle.photo.jpg" 2048) = "jpg".
Proof. exact (proj1 (fileExt_spec "bottle.photo" "jpg" 2048 eq_refl)). Defined.

Lemma percent_round_equiv_witness :
  percent (mkProgress 1 3) = PctInt (js_round (percent_q (mkProgress 1 3))).
Proof. exact (percent_round_equiv (mkProgress 1 3) ltac:(simpl; lia)). Defined.

End Upload.
