(* ===== verification/Dashboard.v ===== *)
(** * Dashboard: the admin console page (src/src/pages/AdminDashboard.tsx)

    The page's state and effects are in DashState.v and the image upload
    in Upload.v.  Every other handler of the page is a [Prog.prog Effect]
    tree built from the handler's code: [checkAdmin], [fetchPerfumes],
    [handleLogout], [handleImageChange], [openModal], [closeModal],
    [handleSubmit], [handleDelete] and the form's [onChange] handlers.
    A handler reads the state of the render it was created in (its
    closure): that snapshot is the handler's [DashState] argument.
    [view] is the page's render (lines 220-495); [Event], [handler],
    [enabled] and [reachable] make the page a state machine whose
    reachable states are shown [quiescent] by rule induction; [gate] and
    [gate_effect] are the spec's auth-gate contract that [checkAdmin]
    refines.  The theorems cover each handler on every branch, failures
    included: the ones that tell outcomes apart are stated against any
    backend, from the answers the handler receives ([run_write_answer]
    runs a valid submission in every branch of its write's answer).  For
    the page as a whole: every write carries a record of the data
    model's shape ([payload_ok]), every handler awaits at most five
    calls, from every quiescent state a sequence of enabled events
    ([dash_step]) settles the page, a save that completes after other
    events closes or marks whatever form is then open, a failed write
    after an upload leads a resubmission to upload again, and only the
    last preview's object URL is revoked ([revokedUrls]). *)

From Stdlib Require Import List String Ascii Bool ZArith PrimFloat Lia Sorted.
From S2P Require Import Prelude JsString Types Remote Prog Backend DashState Upload.
Import ListNotations.

Module Dashboard.
Import Remote Prog DashboardState Upload.
Local Open Scope string_scope.
Local Open Scope prog_scope.

(** ** Handlers *)

(** [checkAdmin] (lines 36-61). *)
Definition checkAdmin : prog Effect unit :=
  try_finally
    (try_catch
       (user <- call_ AuthGetUser ;;
        match user with
        | None => emit (Navigate login_path)
        | Some u =>
            '(adminUser, error) <- call_ (AdminUsersSelectSingle "username, last_login" (user_email u)) ;;
            match error, adminUser with
            | None, Some row =>
                emit (SetAdminData (mkAdminData (admin_username row) (admin_last_login row)))
            | _, _ => Throw (ErrorObj "Unauthorized access")
            end
        end)
       (fun _ => emit (Navigate login_path)))
    (emit (SetLoading false)).

(** [fetchPerfumes] (lines 63-75). *)
Definition fetchPerfumes : prog Effect unit :=
  try_catch
    ('(data, error) <- call_ PerfumesSelectOrdered ;;
     throw_if error ;;
     emit (SetPerfumes match data with Some l => l | None => [] end))
    (fun _ => emit (ConsoleError "Error fetching perfumes:")).

(** [handleLogout] (lines 77-80). *)
Definition handleLogout : prog Effect unit :=
  _ <- call_ AuthSignOut ;;
  emit (Navigate login_path).

(** [handleImageChange] (lines 82-88) on [e.target.files?.[0]]. *)
Definition handleImageChange (file : option File) : prog Effect unit :=
  match file with
  | Some f =>
      emit (SetSelectedImage (Some f)) ;;
      url <- call_ (CreateObjectURL f) ;;
      emit (SetPreviewUrl (Some url))
  | None => Ret tt
  end.

(** The form's fields from a record ([openModal], lines 126-133). *)
Definition formOfPerfume (p : Perfume.Perfume) : PerfumeFormData.PerfumeFormData :=
  {| PerfumeFormData.name := Perfume.name p; PerfumeFormData.category := Perfume.category p;
     PerfumeFormData.price := Perfume.price p; PerfumeFormData.image_url := Perfume.image_url p;
     PerfumeFormData.description := Perfume.description p; PerfumeFormData.notes := Perfume.notes p |}.

(** [openModal] (lines 123-143). *)
Definition openModal (perfume : option Perfume.Perfume) : prog Effect unit :=
  emit_all
    (app match perfume with
     | Some p => [SetEditingPerfume (Some p); SetFormData (formOfPerfume p);
                  SetPreviewUrl (Some (Perfume.image_url p))]
     | None => [SetEditingPerfume None; SetFormData initialFormData; SetPreviewUrl None]
     end [SetSelectedImage None; SetIsModalOpen true; SetFormError EmptyString]).

(** [closeModal] (lines 145-155): it resets the form and revokes the
    preview of its closure when that is an object URL. *)
Definition closeModal (s : DashState) : prog Effect unit :=
  emit_all [SetIsModalOpen false; SetEditingPerfume None; SetFormData initialFormData;
            SetFormError EmptyString; SetSelectedImage None; SetPreviewUrl None] ;;
  match previewUrl s with
  | Some url =>
      if negb (JsValue.str_falsy url) && negb (JsString.starts_with "http" url)
      then emit (RevokeObjectURL url) else Ret tt
  | None => Ret tt
  end.

(** [!formData.name || !formData.category || !formData.price] (line 163). *)
Definition requiredMissing (f : PerfumeFormData.PerfumeFormData) : bool :=
  JsValue.str_falsy (PerfumeFormData.name f) || JsValue.str_falsy (PerfumeFormData.category f)
  || JsValue.num_falsy (PerfumeFormData.price f).

(** [formData.notes.filter(note => note.trim() !== '')] (line 177). *)
Definition keptNotes (notes : list string) : list string :=
  filter (fun note => negb (String.eqb (JsString.trim note) EmptyString)) notes.

(** [perfumeData] (lines 174-178). *)
Definition perfumeData (f : PerfumeFormData.PerfumeFormData) (imageUrl : string)
  : PerfumeFormData.PerfumeFormData :=
  {| PerfumeFormData.name := PerfumeFormData.name f;
     PerfumeFormData.category := PerfumeFormData.category f;
     PerfumeFormData.price := PerfumeFormData.price f;
     PerfumeFormData.image_url := imageUrl;
     PerfumeFormData.description := PerfumeFormData.description f;
     PerfumeFormData.notes := keptNotes (PerfumeFormData.notes f) |}.

(** The image URL step of [handleSubmit] (lines 167-172). *)
Definition resolveImageUrl (s : DashState) : prog Effect string :=
  match selectedImage s with
  | Some file => uploadImage file
  | None =>
      let url := PerfumeFormData.image_url (formData s) in
      if JsValue.str_falsy url then Throw (ErrorObj "Please select an image") else Ret url
  end.

(** The write step of [handleSubmit] (lines 180-193). *)
Definition saveRecord (s : DashState) (data : PerfumeFormData.PerfumeFormData) : prog Effect unit :=
  match editingPerfume s with
  | Some p => error <- call_ (PerfumesUpdate data (Perfume.id p)) ;; throw_if error
  | None => error <- call_ (PerfumesInsert data) ;; throw_if error
  end.

Definition requiredFieldsMessage : string := "Please fill in all required fields".

(** The [try] block of [handleSubmit] (lines 163-196). *)
Definition submitTry (s : DashState) : prog Effect unit :=
  if requiredMissing (formData s) then Throw (ErrorObj requiredFieldsMessage) else
  imageUrl <- resolveImageUrl s ;;
  saveRecord s (perfumeData (formData s) imageUrl) ;;
  fetchPerfumes ;;
  closeModal s.

(** [handleSubmit] (lines 157-202). *)
Definition handleSubmit (s : DashState) : prog Effect unit :=
  emit (SetFormError EmptyString) ;;
  emit (SetIsSaving true) ;;
  try_finally
    (try_catch (submitTry s)
       (fun e => emit (SetFormError (message_or "An error occurred" e))))
    (emit (SetIsSaving false)).

Definition deleteConfirmMessage : string := "Are you sure you want to delete this perfume?".

(** [handleDelete] (lines 204-218). *)
Definition handleDelete (id : string) : prog Effect unit :=
  ok <- call_ (WindowConfirm deleteConfirmMessage) ;;
  if negb ok then Ret tt else
  try_catch
    (error <- call_ (PerfumesDelete id) ;; throw_if error ;; fetchPerfumes)
    (fun _ => emit (ConsoleError "Error deleting perfume:")).

(** The form's [onChange] handlers (lines 400, 412, 445, 458). *)
Definition onNameChange (s : DashState) (v : string) : prog Effect unit :=
  let f := formData s in
  emit (SetFormData (PerfumeFormData.mkForm v (PerfumeFormData.category f) (PerfumeFormData.price f)
                      (PerfumeFormData.image_url f) (PerfumeFormData.description f) (PerfumeFormData.notes f))).

Definition onCategoryChange (s : DashState) (v : string) : prog Effect unit :=
  let f := formData s in
  emit (SetFormData (PerfumeFormData.mkForm (PerfumeFormData.name f) v (PerfumeFormData.price f)
                      (PerfumeFormData.image_url f) (PerfumeFormData.description f) (PerfumeFormData.notes f))).

Definition onDescriptionChange (s : DashState) (v : string) : prog Effect unit :=
  let f := formData s in
  emit (SetFormData (PerfumeFormData.mkForm (PerfumeFormData.name f) (PerfumeFormData.category f)
                      (PerfumeFormData.price f) (PerfumeFormData.image_url f) v (PerfumeFormData.notes f))).

(** [e.target.value.split(',').map(note => note.trim())]. *)
Definition notesOfInput (v : string) : list string :=
  map JsString.trim (JsString.split ","%char v).

Definition onNotesChange (s : DashState) (v : string) : prog Effect unit :=
  let f := formData s in
  emit (SetFormData (PerfumeFormData.mkForm (PerfumeFormData.name f) (PerfumeFormData.category f)
                      (PerfumeFormData.price f) (PerfumeFormData.image_url f)
                      (PerfumeFormData.description f) (notesOfInput v))).

(** The price input's [onChange] (line 431), on the value [Number()]
    parsed from the text. *)
Definition onPriceChange (s : DashState) (x : float) : prog Effect unit :=
  let f := formData s in
  emit (SetFormData (PerfumeFormData.mkForm (PerfumeFormData.name f) (PerfumeFormData.category f) x
                      (PerfumeFormData.image_url f) (PerfumeFormData.description f)
                      (PerfumeFormData.notes f))).

(** The notes input's [value={formData.notes.join(', ')}] (line 457). *)
Definition notesValue (f : PerfumeFormData.PerfumeFormData) : string :=
  JsString.join ", " (PerfumeFormData.notes f).

(** The write call of [saveRecord]: an update keyed by the edited
    record's identifier, or an insert. *)
Definition saveCall (s : DashState) (data : PerfumeFormData.PerfumeFormData) : call :=
  match editingPerfume s with
  | Some p => PerfumesUpdate data (Perfume.id p)
  | None => PerfumesInsert data
  end.

(** ** Rendering *)

(** The header's last-login line (line 241): the stored time through
    [new Date(..).toLocaleString()] (the locale format is not modelled),
    or "First login" when it is null or empty. *)
Inductive LoginLine := FirstLogin | LastLoginAt (iso : string).

(** A row of the table (lines 280-309): its image, name, category and
    price cells; its edit and delete buttons act on the record. *)
Record RowView := mkRowView {
  row_image : string; row_name : string; row_category : string; row_price : float;
  row_record : Perfume.Perfume
}.

(** The modal (lines 318-492): title, error banner, image preview or the
    upload prompt, progress bar, the controlled inputs' values and the
    submit button. *)
Record ModalView := mkModalView {
  title : string;
  errorBanner : option string;
  preview : option string;
  progressBar : option Pct;
  nameValue : string;
  categoryValue : string;
  priceValue : float;
  descriptionValue : string;
  notesText : string;
  submitLabel : string;
  submitDisabled : bool
}.

Inductive DashView :=
| LoadingScreen
| Page (welcome : string) (lastLogin : LoginLine) (rows : list RowView) (modal : option ModalView).

Definition rowView (p : Perfume.Perfume) : RowView :=
  mkRowView (Perfume.image_url p) (Perfume.name p) (Perfume.category p) (Perfume.price p) p.

(** [{x && <..>{x}</..>}] and [{x ? .. : ..}] on a string. *)
Definition shown (x : option string) : option string :=
  match x with
  | Some v => if JsValue.str_falsy v then None else Some v
  | None => None
  end.

(** The form's submit button (lines 471-486): its text and its
    [disabled] attribute. *)
Definition submitButton (s : DashState) : string * bool :=
  (if isSaving s then "Saving..."
   else match editingPerfume s with Some _ => "Update Perfume" | None => "Create Perfume" end,
   isSaving s).

Definition modalView (s : DashState) : ModalView :=
  let f := formData s in
  {| title := match editingPerfume s with Some _ => "Edit Perfume" | None => "Add New Perfume" end;
     errorBanner := shown (Some (formError s));
     preview := shown (previewUrl s);
     progressBar := uploadProgress s;
     nameValue := PerfumeFormData.name f;
     categoryValue := PerfumeFormData.category f;
     priceValue := PerfumeFormData.price f;
     descriptionValue := PerfumeFormData.description f;
     notesText := notesValue f;
     submitLabel := fst (submitButton s);
     submitDisabled := snd (submitButton s) |}.

(** The page's render (lines 220-495). *)
Definition view (s : DashState) : DashView :=
  if loading s then LoadingScreen else
  Page match adminData s with Some a => username a | None => EmptyString end
       match adminData s with
       | Some a => match shown (last_login a) with Some t => LastLoginAt t | None => FirstLogin end
       | None => FirstLogin
       end
       (map rowView (perfumes s))
       (if isModalOpen s then Some (modalView s) else None).

(** ** The auth gate's contract (spec 4.1 and 9) *)

(** The three-way result the spec asks the gate to compute. *)
Inductive AuthResult :=
| Authorized (row : AdminRow)
| Unauthorized
| ServiceError.

(** The gate from the current identity and the [admin_users] lookup of
    its email. *)
Definition gate (user : option User) (lookup : User -> option AdminRow * option exn) : AuthResult :=
  match user with
  | None => Unauthorized
  | Some u =>
      match lookup u with
      | (_, Some _) => ServiceError
      | (Some row, None) => Authorized row
      | (None, None) => Unauthorized
      end
  end.

(** What the page does with the gate's result: an authorised admin's
    name and last login are shown, the two other results collapse to
    the same redirect; the page stops loading in every case. *)
Definition gate_effect (r : AuthResult) (s : DashState) : DashState :=
  let '(mkDash _ ps ad mo ed fe sv up fd si pu loc) := s in
  match r with
  | Authorized row =>
      mkDash false ps (Some (mkAdminData (admin_username row) (admin_last_login row)))
             mo ed fe sv up fd si pu loc
  | Unauthorized | ServiceError => mkDash false ps ad mo ed fe sv up fd si pu (Some login_path)
  end.

(** ** The page as a state machine *)

(** What the operator or the page can trigger: the two mount effects
    (lines 31-34), the header's logout button, the table's add, edit and
    delete buttons, and the form's controls. *)
Inductive Event :=
| EvCheckAdmin
| EvFetchPerfumes
| EvLogout
| EvOpenModal (p : option Perfume.Perfume)
| EvCloseModal
| EvSubmit
| EvImageChange (file : option File)
| EvNameChange (v : string)
| EvCategoryChange (v : string)
| EvPriceChange (x : float)
| EvDescriptionChange (v : string)
| EvNotesChange (v : string)
| EvDelete (id : string).

(** The handler an event runs, in the state of the current render. *)
Definition handler (ev : Event) (s : DashState) : prog Effect unit :=
  match ev with
  | EvCheckAdmin => checkAdmin
  | EvFetchPerfumes => fetchPerfumes
  | EvLogout => handleLogout
  | EvOpenModal p => openModal p
  | EvCloseModal => closeModal s
  | EvSubmit => handleSubmit s
  | EvImageChange f => handleImageChange f
  | EvNameChange v => onNameChange s v
  | EvCategoryChange v => onCategoryChange s v
  | EvPriceChange x => onPriceChange s x
  | EvDescriptionChange v => onDescriptionChange s v
  | EvNotesChange v => onNotesChange s v
  | EvDelete id => handleDelete id
  end.

(** Which events can fire in a state.  While [loading] the page renders
    only "Loading..." (lines 220-226), so no control exists; the form's
    controls exist only while the modal is rendered ([isModalOpen && ...],
    line 318), and the submit button is [disabled={isSaving}] (line 474).
    The mount effects can always run. *)
Definition enabled (ev : Event) (s : DashState) : bool :=
  match ev with
  | EvCheckAdmin | EvFetchPerfumes => true
  | EvLogout | EvOpenModal _ | EvDelete _ => negb (loading s)
  | EvSubmit => negb (loading s) && isModalOpen s && negb (isSaving s)
  | EvCloseModal | EvImageChange _ | EvNameChange _ | EvCategoryChange _
  | EvPriceChange _ | EvDescriptionChange _ | EvNotesChange _ => negb (loading s) && isModalOpen s
  end.

(** The states the page reaches from its first render, each handler run
    to completion in the state of the render that triggered it. *)
Inductive reachable : DashState -> Prop :=
| reach_init : reachable initialState
| reach_step s ev tr o :
    reachable s -> enabled ev s = true -> exec (handler ev s) tr o -> reachable (final s tr).

(** One transition of the page: an enabled event's handler run to
    completion. *)
Inductive dash_step (s : DashState) : DashState -> Prop :=
| dash_fire ev tr o : enabled ev s = true -> exec (handler ev s) tr o -> dash_step s (final s tr).

(** The form is reset whenever the modal is closed. *)
Definition closed_reset (s : DashState) : Prop :=
  isModalOpen s = false /\ editingPerfume s = None /\ formData s = initialFormData /\
  selectedImage s = None /\ previewUrl s = None /\ formError s = EmptyString.

(** Between handler runs: nothing is being saved or uploaded, and a
    closed modal holds no form data. *)
Definition quiescent (s : DashState) : Prop :=
  isSaving s = false /\ uploadProgress s = None /\ (isModalOpen s = true \/ closed_reset s).

(** Effects that leave the form, the modal and the save and upload flags
    alone. *)
Definition frame (u : Effect) : bool :=
  match u with
  | SetLoading _ | SetPerfumes _ | SetAdminData _ | Navigate _ | ConsoleError _
  | RevokeObjectURL _ => true
  | _ => false
  end.

(** Effects that leave the modal flag and the save and upload flags alone. *)
Definition keeps_flags (u : Effect) : bool :=
  match u with
  | SetIsModalOpen _ | SetIsSaving _ | SetUploadProgress _ => false
  | _ => true
  end.

(** The effects of [checkAdmin] and of [fetchPerfumes], the two handlers
    the mount effect starts together (lines 31-34): they write disjoint
    parts of the state. *)
Definition auth_effect (u : Effect) : bool :=
  match u with SetLoading _ | SetAdminData _ | Navigate _ => true | _ => false end.

Definition catalog_effect (u : Effect) : bool :=
  match u with SetPerfumes _ | ConsoleError _ => true | _ => false end.

(** ** The payload of a write *)

(** The data model's requirements on a persisted record (spec 3), for a
    submission from state [s]: the typed name, category, price and
    description, the first three non-empty (a non-zero price), notes
    without blank entries, and without a new file the stored image URL,
    which is not empty. *)
Definition payload_ok (s : DashState) (d : PerfumeFormData.PerfumeFormData) : Prop :=
  let f := formData s in
  PerfumeFormData.name d = PerfumeFormData.name f /\ PerfumeFormData.name d <> EmptyString /\
  PerfumeFormData.category d = PerfumeFormData.category f /\ PerfumeFormData.category d <> EmptyString /\
  PerfumeFormData.price d = PerfumeFormData.price f /\ JsValue.num_falsy (PerfumeFormData.price d) = false /\
  PerfumeFormData.description d = PerfumeFormData.description f /\
  Forall (fun n => JsString.trim n <> EmptyString) (PerfumeFormData.notes d) /\
  (selectedImage s = None ->
   PerfumeFormData.image_url d = PerfumeFormData.image_url f /\ PerfumeFormData.image_url d <> EmptyString).

(** A call that writes to [perfumes] writes such a record. *)
Definition write_ok (s : DashState) (c : call) : Prop :=
  match c with
  | PerfumesInsert d | PerfumesUpdate d _ => payload_ok s d
  | _ => True
  end.

(** The object URLs an effect list revokes ([URL.revokeObjectURL],
    line 153), in order. *)
Fixpoint revokedUrls (us : list Effect) : list string :=
  match us with
  | [] => []
  | RevokeObjectURL url :: us' => url :: revokedUrls us'
  | _ :: us' => revokedUrls us'
  end.

(** ** Sample inputs *)

Definition sampleUser : User := mkUser "u1" "admin@fragrance.example".

Definition sampleDb : Backend.Db :=
  Backend.mkDb [] [mkAdminRow "admin@fragrance.example" "admin" None]
    [("admin@fragrance.example", "secret", sampleUser)] (Some sampleUser) [] true false 0.

Definition sampleForm : PerfumeFormData.PerfumeFormData :=
  PerfumeFormData.mkForm "Jardin Secret" "Floral" 295%float "https://img.example/js.jpg"
    "Green and floral" ["Rose"; "Jasmine"].

Definition formState (f : PerfumeFormData.PerfumeFormData) (img : option File)
  (editing : option Perfume.Perfume) : DashState :=
  {| loading := false; perfumes := []; adminData := None; isModalOpen := true;
     editingPerfume := editing; formError := EmptyString; isSaving := false;
     uploadProgress := None; formData := f; selectedImage := img;
     previewUrl := None; location := None |}.

(** ** Witness inputs *)

Definition sampleRecord : Perfume.Perfume :=
  Perfume.mkPerfume "p7" "Jardin Secret" "Floral" 295%float "https://img.example/js.jpg"
    "Green and floral" ["Rose"; " Jasmine "] "t1" "t1".

Definition noNameForm : PerfumeFormData.PerfumeFormData :=
  PerfumeFormData.mkForm "" "Floral" 295%float "" "" [].

Definition noImageForm : PerfumeFormData.PerfumeFormData :=
  PerfumeFormData.mkForm "Jardin Secret" "Floral" 295%float "" "" [].

(** ** Properties *)

Local Open Scope list_scope.
#[local] Existing Instance Backend.db_backend.

(** Every run of [handleSubmit] completes normally: it clears the error,
    marks the form as saving, runs the [try] block, shows the message of
    what the block threw if it threw, and ends by clearing [isSaving]. *)
Lemma handleSubmit_shape (s : DashState) tr o :
  exec (handleSubmit s) tr o ->
  o = inr tt /\
  exists tr1, tr = [LEmit (SetFormError EmptyString); LEmit (SetIsSaving true)] ++ tr1
                   ++ [LEmit (SetIsSaving false)] /\
    (exec (submitTry s) tr1 (inr tt) \/
     exists tr0 e, exec (submitTry s) tr0 (inl e) /\
       tr1 = tr0 ++ [LEmit (SetFormError (message_or "An error occurred" e))]).
Proof.
  intros H.
  change (exec (bind (emit_all [SetFormError EmptyString; SetIsSaving true])
    (fun _ => try_finally (try_catch (submitTry s)
       (fun e => emit_all [SetFormError (message_or "An error occurred" e)]))
       (emit_all [SetIsSaving false]))) tr o) in H.
  apply exec_bind_emit_all in H as (tr' & -> & H).
  apply exec_try_catch_finally_effects in H as (-> & tr1 & -> & H).
  split; [reflexivity|]. exists tr1. split; [reflexivity|exact H].
Qed.

(** [fetchPerfumes] issues the ordered select and either stores the rows
    (none when [data] is null) or logs the failure; it never throws. *)
Lemma exec_fetchPerfumes tr o :
  exec fetchPerfumes tr o ->
  o = inr tt /\
  ((exists rows, tr = [LCall PerfumesSelectOrdered; LEmit (SetPerfumes rows)]) \/
   tr = [LCall PerfumesSelectOrdered; LEmit (ConsoleError "Error fetching perfumes:")]).
Proof.
  simpl. intros (r & tr' & -> & H). destruct r as [data [err|]]; simpl in H; destruct_exec.
  - split; [reflexivity|]. right. reflexivity.
  - split; [reflexivity|]. left. eauto.
Qed.

(** [destruct_preview s]: the branches of [closeModal]'s revocation test. *)
Ltac destruct_preview s :=
  destruct (previewUrl s) as [url|];
  [destruct (negb (JsValue.str_falsy url) && negb (JsString.starts_with "http" url))|].

(** [run_valid_submit s d Hm Hi He Hu Ho]: run a submission that passes
    validation, without a new file, against a reachable state [d] of
    [Backend.db_backend], given the hypotheses on [s] and [d]. *)
Ltac run_valid_submit s d Hm Hi He Hu Ho :=
  unfold handleSubmit, submitTry, resolveImageUrl, saveRecord, closeModal;
  rewrite Hm, Hi, He, Hu;
  let online := fresh "online" in
  destruct d as [? ? ? ? ? online ? ?]; simpl in Ho; subst online;
  destruct_preview s; simpl.

(** [run_write_answer s err Hm Hi Hu Hw]: run a submission that passes
    validation, without a new file, against any backend whose answer
    [err] to the write is given by [Hw], in every branch of that answer,
    of the answer to the refresh and of [closeModal]'s revocation test. *)
Ltac run_write_answer s err Hm Hi Hu Hw :=
  unfold handleSubmit, submitTry, resolveImageUrl, saveRecord, saveCall, closeModal, fetchPerfumes;
  rewrite Hm, Hi, Hu; destruct_preview s; destruct (editingPerfume s) eqn:?; simpl; rewrite Hw;
  destruct err; simpl;
  try match goal with
      | |- context [answer PerfumesSelectOrdered ?x] =>
          destruct (answer PerfumesSelectOrdered x) as [[[?|] [?|]] ?]
      end; simpl.

(** [closeModal] resets the form and the modal and performs no call. *)
Lemma exec_closeModal (s : DashState) tr o :
  exec (closeModal s) tr o ->
  o = inr tt /\ calls tr = [] /\
  exists rest, effects tr = [SetIsModalOpen false; SetEditingPerfume None;
    SetFormData initialFormData; SetFormError EmptyString; SetSelectedImage None;
    SetPreviewUrl None] ++ rest /\ Forall (fun u => exists url, u = RevokeObjectURL url) rest.
Proof.
  unfold closeModal. intros H. apply exec_bind_emit_all in H as (tr' & -> & H).
  destruct_preview s; simpl in H; destruct_exec; simpl; repeat split; eauto.
Qed.

(** C1: The validation guard: a submission whose name, category or price is
    falsy issues no call at all (no upload, no write), shows the
    required-fields message and ends with [isSaving] cleared. *)
Theorem handleSubmit_rejects_missing_fields (s : DashState) tr o :
  requiredMissing (formData s) = true ->
  exec (handleSubmit s) tr o ->
  calls tr = [] /\ o = inr tt /\
  effects tr = [SetFormError EmptyString; SetIsSaving true;
                SetFormError requiredFieldsMessage; SetIsSaving false].
Proof.
  intros Hm H. apply handleSubmit_shape in H as (-> & tr1 & -> & H).
  unfold submitTry in H. rewrite Hm in H.
  destruct H as [[_ H]|(tr0 & e & [-> He] & ->)]; [discriminate H|].
  injection He as ->. auto.
Qed.

(** Without a newly selected file, a submission whose stored image URL is
    empty issues no call and shows "Please select an image". *)
Theorem handleSubmit_requires_image (s : DashState) tr o :
  requiredMissing (formData s) = false ->
  selectedImage s = None ->
  PerfumeFormData.image_url (formData s) = EmptyString ->
  exec (handleSubmit s) tr o ->
  calls tr = [] /\ o = inr tt /\
  effects tr = [SetFormError EmptyString; SetIsSaving true;
                SetFormError "Please select an image"; SetIsSaving false].
Proof.
  intros Hm Hi Hu H. apply handleSubmit_shape in H as (-> & tr1 & -> & H).
  unfold submitTry, resolveImageUrl in H. rewrite Hm, Hi, Hu in H. simpl in H.
  destruct H as [H|(tr0 & e & H & ->)]; destruct_exec; auto.
Qed.

Lemma exec_saveRecord (s : DashState) data tr o :
  exec (saveRecord s data) tr o ->
  tr = [LCall (saveCall s data)] /\ (o = inr tt \/ exists e, o = inl e).
Proof.
  unfold saveRecord, saveCall. destruct (editingPerfume s);
    simpl; intros (r & tr' & -> & H); destruct r; simpl in H; destruct_exec; eauto.
Qed.

Lemma exec_resolveImageUrl_none (s : DashState) tr o :
  selectedImage s = None ->
  exec (resolveImageUrl s) tr o ->
  tr = [] /\
  o = (if JsValue.str_falsy (PerfumeFormData.image_url (formData s))
       then inl (ErrorObj "Please select an image")
       else inr (PerfumeFormData.image_url (formData s))).
Proof.
  unfold resolveImageUrl. intros -> H.
  destruct (JsValue.str_falsy _); simpl in H; destruct_exec; auto.
Qed.

(** The runs of the [try] block of a valid submission: the image step
    fails, or it yields a URL and the write call follows; after a failed
    write nothing else happens, after a successful one the list is
    fetched again and the modal is closed. *)
Lemma exec_submitTry (s : DashState) tr o :
  requiredMissing (formData s) = false ->
  exec (submitTry s) tr o ->
  (exists e, exec (resolveImageUrl s) tr (inl e) /\ o = inl e) \/
  exists tr1 url, exec (resolveImageUrl s) tr1 (inr url) /\
    let c := saveCall s (perfumeData (formData s) url) in
    ((exists e, tr = tr1 ++ [LCall c] /\ o = inl e) \/
     exists trf trc, exec fetchPerfumes trf (inr tt) /\ exec (closeModal s) trc o /\
       tr = tr1 ++ [LCall c] ++ trf ++ trc).
Proof.
  unfold submitTry. intros -> H.
  apply exec_bind in H as [(tr1 & url & tr2 & H1 & H2 & ->)|(e & H1 & ->)]; [|left; eauto].
  right. exists tr1, url. split; [exact H1|].
  apply exec_bind in H2 as [(tr3 & [] & tr4 & H3 & H4 & ->)|(e & H3 & ->)];
    apply exec_saveRecord in H3 as [-> Ho]; [|left; eauto].
  apply exec_bind in H4 as [(trf & [] & trc & Hf & Hc & ->)|(e & Hf & ->)].
  - right. exists trf, trc. auto.
  - apply exec_fetchPerfumes in Hf as [Hf _]. discriminate Hf.
Qed.

(** C14: Without a newly selected file no upload is issued: the only calls are
    the write with the stored image URL unchanged, then the ordered select. *)
Theorem handleSubmit_no_upload_without_new_image (s : DashState) tr o :
  selectedImage s = None ->
  exec (handleSubmit s) tr o ->
  let data := perfumeData (formData s) (PerfumeFormData.image_url (formData s)) in
  calls tr = [] \/ calls tr = [saveCall s data] \/
  calls tr = [saveCall s data; PerfumesSelectOrdered].
Proof.
  intros Hi H. apply handleSubmit_shape in H as (_ & tr1 & -> & H).
  destruct (requiredMissing (formData s)) eqn:Hm.
  - unfold submitTry in H. rewrite Hm in H. simpl in H.
    destruct H as [H|(tr0 & e & H & ->)]; destruct_exec; auto.
  - assert (Hrun : forall tr0 o0, exec (submitTry s) tr0 o0 ->
      calls tr0 = [] \/ calls tr0 = [saveCall s (perfumeData (formData s) (PerfumeFormData.image_url (formData s)))] \/
      calls tr0 = [saveCall s (perfumeData (formData s) (PerfumeFormData.image_url (formData s)));
                   PerfumesSelectOrdered]).
    { intros tr0 o0 H0.
      apply (exec_submitTry s tr0 o0 Hm) in H0 as [(e & H0 & _)|(tr2 & url & H2 & H3)].
      - apply (exec_resolveImageUrl_none s _ _ Hi) in H0 as [-> _]; auto.
      - apply (exec_resolveImageUrl_none s _ _ Hi) in H2 as [-> Hu].
        destruct (JsValue.str_falsy _); [discriminate Hu|injection Hu as <-].
        destruct H3 as [(e & -> & _)|(trf & trc & Hf & Hc & ->)]; [auto|].
        apply exec_fetchPerfumes in Hf as [_ [[rows ->]| ->]];
        apply exec_closeModal in Hc as (_ & Hc & _);
        rewrite !calls_app; simpl; rewrite Hc; auto. }
    destruct H as [H|(tr0 & e & H & ->)]; apply Hrun in H;
      rewrite !calls_app; simpl; rewrite ?calls_app; simpl; rewrite ?app_nil_r; exact H.
Qed.

(** C12: The outcome of the write step against any backend, for a valid
    submission without a new file, read off the answer the write
    receives: when the insert or update answers an error, no other call
    follows, the form stays open with its data and the edited record, and
    shows that error's message; when it answers none, the list is fetched
    again (storing the rows it answers, or keeping the old ones when the
    refresh fails) and the form is closed and reset.  Either way the
    handler completes and [isSaving] ends cleared. *)
Theorem handleSubmit_write_outcome {S} `{Backend S} (s : DashState) (b b1 : S) (err : option exn) :
  requiredMissing (formData s) = false -> selectedImage s = None ->
  JsValue.str_falsy (PerfumeFormData.image_url (formData s)) = false ->
  let data := perfumeData (formData s) (PerfumeFormData.image_url (formData s)) in
  match editingPerfume s with
  | Some p => answer (PerfumesUpdate data (Perfume.id p)) b
  | None => answer (PerfumesInsert data) b
  end = (err, b1) ->
  let '(tr, o, _) := run (handleSubmit s) b in
  let s' := final s tr in
  o = inr tt /\ isSaving s' = false /\
  match err with
  | Some e =>
      calls tr = [saveCall s data] /\ formError s' = message_or "An error occurred" e /\
      isModalOpen s' = isModalOpen s /\ formData s' = formData s /\ editingPerfume s' = editingPerfume s
  | None =>
      calls tr = [saveCall s data; PerfumesSelectOrdered] /\
      isModalOpen s' = false /\ formData s' = initialFormData /\ editingPerfume s' = None /\
      formError s' = EmptyString /\ selectedImage s' = None /\
      perfumes s' = match fst (answer PerfumesSelectOrdered b1) with
                    | (_, Some _) => perfumes s
                    | (Some rows, None) => rows
                    | (None, None) => []
                    end
  end.
Proof.
  intros Hm Hi Hu. cbv zeta. intros Hw.
  run_write_answer s err Hm Hi Hu Hw; unfold final, apply_trace; destruct s; simpl in *; subst; auto 12.
Qed.
(** C5: With a newly selected file the upload comes first and, against any
    backend, the write follows only an upload that reports no error: when
    the storage client answers an error, the calls are the random name
    and the upload alone, "Failed to upload image" is shown in the form,
    which stays open with its data, and neither the saving flag nor the
    progress bar stays set; when it answers none, the public URL of the
    uploaded path is resolved and the write that follows carries that
    URL. *)
Theorem handleSubmit_upload_before_write {S} `{Backend S} (s : DashState) (file : File) (b b1 b2 : S)
  (r36 : string) (events : list Progress) (err : option exn) :
  requiredMissing (formData s) = false -> selectedImage s = Some file ->
  answer MathRandomToString36 b = (r36, b1) ->
  answer (StorageUpload bucket (filePath r36 file) file "3600" false) b1 = ((events, err), b2) ->
  let path := filePath r36 file in
  let '(tr, _, _) := run (handleSubmit s) b in
  match err with
  | Some _ =>
      calls tr = [MathRandomToString36; StorageUpload bucket path file "3600" false] /\
      formError (final s tr) = "Failed to upload image" /\ isSaving (final s tr) = false /\
      uploadProgress (final s tr) = None /\
      isModalOpen (final s tr) = isModalOpen s /\ formData (final s tr) = formData s
  | None =>
      exists rest, calls tr = [MathRandomToString36; StorageUpload bucket path file "3600" false;
                               StorageGetPublicUrl bucket path;
                               saveCall s (perfumeData (formData s)
                                             (fst (answer (StorageGetPublicUrl bucket path) b2)))] ++ rest
  end.
Proof.
  intros Hm Hi Hr Hu. cbv zeta. unfold handleSubmit, submitTry, resolveImageUrl. rewrite Hm, Hi.
  cbn -[uploadImage filePath].
  rewrite run_try_finally, run_try_catch, run_bind, (run_uploadImage file b b1 b2 r36 events err Hr Hu).
  set (path := filePath r36 file) in *. clearbody path. destruct err as [e|]; cbn.
  - unfold final, apply_trace. simpl_trace. rewrite !fold_left_app. simpl.
    rewrite step_console, (fold_progress _ _ None (progress_callbacks_only events)). destruct s; simpl. auto 10.
  - destruct (answer (StorageGetPublicUrl bucket path) b2) as [url b3]. cbn.
    unfold saveRecord, saveCall. destruct (editingPerfume s); cbn;
    match goal with |- context [answer ?c b3] => destruct (answer c b3) as [r b4] end; cbn;
    match goal with |- context [run ?p ?x] => destruct (run p x) as [[tr' [e|]] b5] end; cbn;
    simpl_trace; eexists; reflexivity.
Qed.

(** C3: A failed write after a successful upload leaves the uploaded object
    behind and the file selected: against any backend, when the upload
    and the public URL succeed and the insert or update carrying that URL
    answers an error, the form stays open with its data and the selected
    file and shows the error, and submitting it again, in the state that
    run left and against the service it left, starts by uploading the
    file again under a new random name. *)
Theorem failed_write_reuploads {S} `{Backend S} (s : DashState) (file : File) (b b1 b2 b3 b4 : S)
  (r36 url : string) (events : list Progress) (e : exn) :
  requiredMissing (formData s) = false -> selectedImage s = Some file ->
  answer MathRandomToString36 b = (r36, b1) ->
  answer (StorageUpload bucket (filePath r36 file) file "3600" false) b1 = ((events, None), b2) ->
  answer (StorageGetPublicUrl bucket (filePath r36 file)) b2 = (url, b3) ->
  match editingPerfume s with
  | Some p => answer (PerfumesUpdate (perfumeData (formData s) url) (Perfume.id p)) b3
  | None => answer (PerfumesInsert (perfumeData (formData s) url)) b3
  end = (Some e, b4) ->
  let '(tr, _, b') := run (handleSubmit s) b in
  let s' := final s tr in
  formError s' = message_or "An error occurred" e /\ selectedImage s' = Some file /\
  isModalOpen s' = isModalOpen s /\ formData s' = formData s /\
  exists rest, calls (fst (fst (run (handleSubmit s') b'))) =
    [MathRandomToString36; StorageUpload bucket (filePath (fst (answer MathRandomToString36 b')) file) file "3600" false]
    ++ rest.
Proof.
  intros Hm Hi Hr Hu Hg Hw. unfold handleSubmit at 1, submitTry at 1, resolveImageUrl at 1. rewrite Hm, Hi.
  cbn -[uploadImage filePath handleSubmit].
  rewrite run_try_finally, run_try_catch, run_bind, (run_uploadImage file b b1 b2 r36 events None Hr Hu).
  cbn -[filePath handleSubmit]. rewrite Hg. cbn -[filePath handleSubmit].
  unfold saveRecord. destruct (editingPerfume s) eqn:He; cbn -[filePath handleSubmit]; rewrite Hw;
    cbn -[filePath handleSubmit];
    rewrite !effects_app, effects_map_emit; cbn [effects]; rewrite !fold_left_app; cbn [fold_left];
    rewrite (fold_progress _ _ None (progress_callbacks_only events));
    destruct s; cbn [formData selectedImage editingPerfume] in *; subst; cbn -[handleSubmit filePath];
    do 4 (split; [reflexivity|]);
    unfold handleSubmit, submitTry, resolveImageUrl, uploadImage; cbn [formData selectedImage]; rewrite Hm;
    cbn -[filePath]; destruct (answer MathRandomToString36 b4) as [r b5]; cbn -[filePath];
    match goal with |- context [answer ?c b5] => destruct (answer c b5) as [[ev er] b6] end; cbn -[filePath];
    repeat match goal with |- context [run ?p ?x] => destruct (run p x) as [[? [?|?]] ?]; cbn -[filePath] end;
    eexists; reflexivity.
Qed.

(** C18: Against any backend, a delete whose confirmation prompt is answered
    with Cancel issues no other call and changes no state: the run is the
    prompt alone. *)
Theorem handleDelete_unconfirmed {S} `{Backend S} (id : string) (b b' : S) :
  answer (WindowConfirm deleteConfirmMessage) b = (false, b') ->
  run (handleDelete id) b = ([LCall (WindowConfirm deleteConfirmMessage)], inr tt, b').
Proof. intros Hc. simpl. rewrite Hc. reflexivity. Qed.

(** C30: The notes a submission stores, from what the operator typed in the
    notes field ([onNotesChange] then [perfumeData]), are the spec's
    normalisation — split on commas, trim, drop the empty entries — and
    each is trimmed and non-empty. *)
Theorem submitted_notes_normalized (v : string) :
  keptNotes (notesOfInput v) =
  filter (fun n => negb (String.eqb n EmptyString)) (map JsString.trim (JsString.split ","%char v)) /\
  Forall (fun n => JsString.trimmed n = true /\ n <> EmptyString) (keptNotes (notesOfInput v)).
Proof.
  unfold keptNotes, notesOfInput. induction (JsString.split ","%char v) as [|x l [IH1 IH2]];
    [split; [reflexivity|constructor]|].
  simpl. rewrite JsString.trim_idem.
  destruct (String.eqb (JsString.trim x) EmptyString) eqn:E; simpl; [split; assumption|].
  split; [rewrite IH1; reflexivity|]. constructor; [|exact IH2].
  split; [apply JsString.trimmed_trim|]. intros Hx. rewrite Hx in E. discriminate E.
Qed.

(** The spec's example input. *)
Example submitted_notes_example :
  keptNotes (notesOfInput "Rose, Jasmine,  , Bergamot") = ["Rose"; "Jasmine"; "Bergamot"].
Proof. reflexivity. Qed.

(** C31: The notes input is controlled: it shows [notes.join(', ')] and each
    change stores [value.split(',').map(trim)].  Reading back the text it
    shows gives the notes back when there is at least one, each trimmed
    and free of commas. *)
Theorem notes_field_roundtrip (f : PerfumeFormData.PerfumeFormData) :
  PerfumeFormData.notes f <> [] ->
  Forall (fun n => JsString.trimmed n = true /\ JsString.has_char ","%char n = false)
         (PerfumeFormData.notes f) ->
  notesOfInput (notesValue f) = PerfumeFormData.notes f.
Proof.
  unfold notesOfInput, notesValue. destruct (PerfumeFormData.notes f) as [|x xs]; [congruence|].
  intros _ Hall.
  rewrite (JsString.split_join_gen ","%char " " x xs eq_refl)
    by (eapply Forall_impl; [|exact Hall]; intros n [_ H]; exact H).
  simpl. inversion Hall as [|? ? [Hx _] Hxs]; subst.
  apply String.eqb_eq in Hx. rewrite Hx. f_equal. clear Hall.
  induction Hxs as [|y ys [Hy _] _ IH]; simpl; [reflexivity|].
  rewrite JsString.trim_space_cons by reflexivity. apply String.eqb_eq in Hy. rewrite Hy, IH. reflexivity.
Qed.

(** What a create leaves in the service: the new row heads the table and
    the service stays reachable. *)
Lemma submit_create_db (s : DashState) (d : Backend.Db) :
  requiredMissing (formData s) = false -> selectedImage s = None -> editingPerfume s = None ->
  JsValue.str_falsy (PerfumeFormData.image_url (formData s)) = false -> Backend.online d = true ->
  let d' := snd (run (handleSubmit s) d) in
  Backend.perfume_rows d' =
    Backend.new_row d (perfumeData (formData s) (PerfumeFormData.image_url (formData s))) :: Backend.perfume_rows d /\
  Backend.online d' = true.
Proof.
  intros Hm Hi He Hu Ho. run_valid_submit s d Hm Hi He Hu Ho; auto.
Qed.
(** What a confirmed delete leaves in the service. *)
Lemma delete_db (id : string) (d : Backend.Db) :
  Backend.confirm_answer d = true -> Backend.online d = true ->
  let d' := snd (run (handleDelete id) d) in
  Backend.perfume_rows d' = filter (fun q => negb (String.eqb (Perfume.id q) id)) (Backend.perfume_rows d) /\
  Backend.online d' = true.
Proof.
  intros Hc Ho. destruct d as [rows admins creds sess objs online conf clk]; simpl in Hc, Ho.
  subst conf online. simpl. auto.
Qed.


(** C21: Creating a record against the spec's service when it is reachable:
    the record the insert stores heads the list the page then displays,
    and the displayed list is the table's content ordered newest first. *)
Theorem create_appears_first (s : DashState) (d : Backend.Db) :
  requiredMissing (formData s) = false ->
  selectedImage s = None ->
  editingPerfume s = None ->
  JsValue.str_falsy (PerfumeFormData.image_url (formData s)) = false ->
  Backend.online d = true ->
  let '(tr, o, d') := run (handleSubmit s) d in
  let row := Backend.new_row d (perfumeData (formData s) (PerfumeFormData.image_url (formData s))) in
  o = inr tt /\
  perfumes (final s tr) = row :: Backend.perfume_rows d /\
  Backend.perfume_rows d' = perfumes (final s tr).
Proof.
  intros Hm Hi He Hu Ho. run_valid_submit s d Hm Hi He Hu Ho; unfold final, apply_trace; destruct s; simpl; auto.
Qed.

(** C23: Editing a record against the spec's service when it is reachable:
    the update keyed by the record's identifier replaces every field of
    the rows with that identifier, keeps their identity and creation
    time, leaves the other rows as they were, and the page then displays
    the table's new content. *)
Theorem update_replaces_record (s : DashState) (d : Backend.Db) (p : Perfume.Perfume) :
  requiredMissing (formData s) = false ->
  selectedImage s = None ->
  editingPerfume s = Some p ->
  JsValue.str_falsy (PerfumeFormData.image_url (formData s)) = false ->
  Backend.online d = true ->
  let '(tr, o, d') := run (handleSubmit s) d in
  let data := perfumeData (formData s) (PerfumeFormData.image_url (formData s)) in
  o = inr tt /\
  Backend.perfume_rows d' =
    map (fun q => if String.eqb (Perfume.id q) (Perfume.id p) then Backend.replace_row d data q else q)
        (Backend.perfume_rows d) /\
  perfumes (final s tr) = Backend.perfume_rows d'.
Proof.
  intros Hm Hi He Hu Ho. run_valid_submit s d Hm Hi He Hu Ho; unfold final, apply_trace; destruct s; simpl; auto.
Qed.

(** C24: A confirmed delete against the spec's service when it is reachable
    removes exactly the rows with that identifier, and the page then
    displays the table's new content. *)
Theorem delete_removes_record (s : DashState) (d : Backend.Db) (id : string) :
  Backend.confirm_answer d = true ->
  Backend.online d = true ->
  let '(tr, o, d') := run (handleDelete id) d in
  o = inr tt /\
  Backend.perfume_rows d' = filter (fun q => negb (String.eqb (Perfume.id q) id)) (Backend.perfume_rows d) /\
  perfumes (final s tr) = Backend.perfume_rows d'.
Proof.
  intros Hc Ho. destruct d as [rows admins creds sess objs online conf clk]; simpl in Hc, Ho.
  subst conf online. simpl. unfold final, apply_trace. destruct s; simpl; auto.
Qed.

(** C22: Creating a record with a new image against the spec's service when
    it is reachable and the derived object name is free: the file is
    stored under [perfumes/], and the new row, at the head of the list the
    page then displays, carries the public URL of that object. *)
Theorem create_with_upload_stores_url (s : DashState) (d : Backend.Db) (f : File) :
  requiredMissing (formData s) = false ->
  selectedImage s = Some f ->
  editingPerfume s = None ->
  Backend.online d = true ->
  let path := filePath ("0." ++ Backend.digits (Backend.clock d))%string f in
  existsb (String.eqb path) (Backend.objects d) = false ->
  let '(tr, o, d') := run (handleSubmit s) d in
  o = inr tt /\ In path (Backend.objects d') /\
  map Perfume.image_url (perfumes (final s tr)) =
    Backend.public_url bucket path :: map Perfume.image_url (Backend.perfume_rows d).
Proof.
  intros Hm Hi He Ho. cbv zeta. intros Hfree.
  remember (filePath ("0." ++ Backend.digits (Backend.clock d))%string f) as path eqn:Hp.
  unfold handleSubmit, submitTry, resolveImageUrl, saveRecord, closeModal.
  rewrite Hm, Hi, He.
  destruct d as [rows admins creds sess objs online conf clk]; cbn [Backend.online] in Ho; subst online.
  cbn [Backend.objects Backend.clock] in Hfree, Hp.
  change ("0." ++ Backend.digits clk)%string with (String "0" (String "." (Backend.digits clk))) in Hp.
  destruct_preview s;
    unfold uploadImage; cbn -[filePath existsb Backend.digits]; rewrite <- Hp;
    unfold answer, Backend.db_backend; cbn -[existsb Backend.digits]; rewrite Hfree;
    simpl; unfold final, apply_trace; destruct s; simpl; auto.
Qed.

(** C19: A confirmed delete against any backend, read off the answer the
    delete call receives: an error is only logged, with no other call
    and no change to the page; no error is followed by the ordered select,
    whose rows replace the list (none when it answers null), or whose
    failure is only logged (the refresh catches its own error, so the
    delete's [catch] never sees it).  It never throws. *)
Theorem handleDelete_outcome {S} `{Backend S} (id : string) (s : DashState) (b b1 b2 : S) (err : option exn) :
  answer (WindowConfirm deleteConfirmMessage) b = (true, b1) ->
  answer (PerfumesDelete id) b1 = (err, b2) ->
  let '(tr, o, _) := run (handleDelete id) b in
  o = inr tt /\
  match err with
  | Some _ => calls tr = [WindowConfirm deleteConfirmMessage; PerfumesDelete id] /\
              effects tr = [ConsoleError "Error deleting perfume:"] /\ final s tr = s
  | None => calls tr = [WindowConfirm deleteConfirmMessage; PerfumesDelete id; PerfumesSelectOrdered] /\
            final s tr = match fst (answer PerfumesSelectOrdered b2) with
                         | (_, Some _) => s
                         | (Some rows, None) => step (SetPerfumes rows) s
                         | (None, None) => step (SetPerfumes []) s
                         end
  end.
Proof.
  intros Hc Hd. unfold handleDelete, fetchPerfumes. simpl. rewrite Hc. simpl. rewrite Hd.
  destruct err as [e|]; simpl; [|destruct (answer PerfumesSelectOrdered b2) as [[[rows|] [e'|]] b3]; simpl];
    unfold final, apply_trace; destruct s; simpl; auto.
Qed.
(** Opening the form on a record loads it: the record becomes the edited
    one, its fields fill the form, its stored image is the preview, no
    file is selected and no error is shown.  No call is issued. *)
Theorem openModal_loads_record (s : DashState) (p : Perfume.Perfume) tr o :
  exec (openModal (Some p)) tr o ->
  let s' := final s tr in
  calls tr = [] /\ isModalOpen s' = true /\ editingPerfume s' = Some p /\
  formData s' = formOfPerfume p /\ previewUrl s' = Some (Perfume.image_url p) /\
  selectedImage s' = None /\ formError s' = EmptyString.
Proof.
  unfold openModal. intros H. apply exec_emit_all in H as [-> _].
  unfold final, apply_trace. simpl. destruct s; simpl. auto 10.
Qed.

(** C8: [checkAdmin] implements the gate's contract against any backend: the
    state it leaves is the contract's effect of the three-way result
    computed from the identity and the lookup the backend answers. *)
Theorem checkAdmin_refines_gate {S} `{Backend S} (s : DashState) (b : S) :
  let '(user, b1) := answer AuthGetUser b in
  final s (fst (fst (run checkAdmin b))) =
  gate_effect (gate user (fun u => fst (answer (AdminUsersSelectSingle "username, last_login"
                                                                      (user_email u)) b1))) s.
Proof.
  simpl. destruct (answer AuthGetUser b) as [[u|] b1]; simpl.
  - destruct (answer (AdminUsersSelectSingle "username, last_login" (user_email u)) b1)
      as [[[row|] [e|]] b2]; simpl; unfold final, apply_trace; destruct s; reflexivity.
  - unfold final, apply_trace. destruct s; reflexivity.
Qed.

(** ** The quiescence invariant *)

Lemma fold_frame (us : list Effect) (v : DashState) :
  Forall (fun u => frame u = true) us -> quiescent (run_effects us v) <-> quiescent v.
Proof.
  intros Hall; revert v; induction Hall as [|u us Hu _ IH]; intros v; simpl; [tauto|]. rewrite IH.
  destruct u; try discriminate; destruct v; unfold quiescent, closed_reset; simpl; tauto.
Qed.

Lemma fold_keeps_flags (us : list Effect) (v : DashState) :
  Forall (fun u => keeps_flags u = true) us ->
  isModalOpen (run_effects us v) = isModalOpen v /\ isSaving (run_effects us v) = isSaving v /\
  uploadProgress (run_effects us v) = uploadProgress v.
Proof.
  intros Hall; revert v; induction Hall as [|u us Hu _ IH]; intros v; simpl; [auto|].
  destruct (IH (step u v)) as (-> & -> & ->). destruct u; try discriminate; destruct v; simpl; auto.
Qed.

Lemma exec_resolveImageUrl_final (s : DashState) tr o (v : DashState) :
  uploadProgress v = None -> exec (resolveImageUrl s) tr o -> run_effects (effects tr) v = v.
Proof.
  unfold resolveImageUrl. destruct (selectedImage s) as [file|]; [apply exec_uploadImage_final|].
  intros _ H. destruct (JsValue.str_falsy _); simpl in H; destruct_exec; reflexivity.
Qed.

(** A failed [try] block of [handleSubmit] changes nothing. *)
Lemma submitTry_fail (s : DashState) tr e (v : DashState) :
  uploadProgress v = None -> exec (submitTry s) tr (inl e) -> run_effects (effects tr) v = v.
Proof.
  intros Hv H. destruct (requiredMissing (formData s)) eqn:Hm.
  - unfold submitTry in H. rewrite Hm in H. destruct H as [-> _]. reflexivity.
  - apply (exec_submitTry s _ _ Hm) in H
      as [(e' & H & _)|(tr1 & url & H1 & [(e' & -> & _)|(trf & trc & _ & Hc & _)])].
    + exact (exec_resolveImageUrl_final s _ _ v Hv H).
    + rewrite effects_app, fold_left_app. exact (exec_resolveImageUrl_final s _ _ v Hv H1).
    + apply exec_closeModal in Hc as [Hc _]. discriminate Hc.
Qed.

(** A successful [try] block of [handleSubmit] ends with the form closed
    and reset and no upload in progress. *)
Lemma submitTry_success (s : DashState) tr (v : DashState) :
  uploadProgress v = None -> exec (submitTry s) tr (inr tt) ->
  closed_reset (run_effects (effects tr) v) /\ uploadProgress (run_effects (effects tr) v) = None /\
  isSaving (run_effects (effects tr) v) = isSaving v.
Proof.
  intros Hv H. destruct (requiredMissing (formData s)) eqn:Hm.
  - unfold submitTry in H. rewrite Hm in H. destruct H as [_ H]. discriminate H.
  - apply (exec_submitTry s _ _ Hm) in H
      as [(e' & H & He)|(tr1 & url & H1 & [(e' & -> & He)|(trf & trc & Hf & Hc & ->)])];
      try discriminate He.
    apply exec_fetchPerfumes in Hf as [_ Hf].
    apply exec_closeModal in Hc as (_ & _ & rest & Heff & Hrev).
    rewrite !effects_app, !fold_left_app, (exec_resolveImageUrl_final s _ _ v Hv H1), Heff.
    destruct Hf as [[rows ->]| ->]; simpl; rewrite final_revokes by exact Hrev;
      destruct v; simpl in *; unfold closed_reset; simpl; auto 10.
Qed.

Lemma handleSubmit_quiescent (s : DashState) tr o :
  quiescent s -> isModalOpen s = true -> exec (handleSubmit s) tr o -> quiescent (final s tr).
Proof.
  intros (_ & Hup & _) Hopen H. apply handleSubmit_shape in H as (_ & tr1 & -> & H).
  unfold final, apply_trace. rewrite !effects_app, !fold_left_app.
  set (v1 := run_effects (effects [LEmit (SetFormError EmptyString); LEmit (SetIsSaving true)]) s).
  assert (Hv1 : uploadProgress v1 = None) by (subst v1; destruct s; exact Hup).
  destruct H as [H|(tr0 & e & H & ->)].
  - destruct (submitTry_success s tr1 v1 Hv1 H) as (Hc & Hu & _).
    destruct (run_effects (effects tr1) v1); unfold closed_reset in Hc; simpl in *.
    unfold quiescent, closed_reset; simpl; tauto.
  - rewrite effects_app, fold_left_app, (submitTry_fail s tr0 e v1 Hv1 H).
    subst v1. destruct s; simpl in *. unfold quiescent; simpl; auto.
Qed.

Lemma closeModal_quiescent (s v : DashState) tr o :
  quiescent v -> exec (closeModal s) tr o -> quiescent (final v tr).
Proof.
  intros (Hs & Hu & _) H. apply exec_closeModal in H as (_ & _ & rest & Heff & Hrev).
  unfold final, apply_trace. rewrite Heff, fold_left_app, final_revokes by exact Hrev.
  destruct v; simpl in *. unfold quiescent, closed_reset; simpl; auto 10.
Qed.

Lemma openModal_quiescent (p : option Perfume.Perfume) (v : DashState) tr o :
  quiescent v -> exec (openModal p) tr o -> quiescent (final v tr).
Proof.
  intros (Hs & Hu & _) H. apply exec_emit_all in H as [-> _].
  unfold final, apply_trace. rewrite effects_map_emit.
  destruct p; destruct v; simpl in *; unfold quiescent; simpl; auto.
Qed.

(** A handler that only performs [frame] effects preserves quiescence. *)
Lemma frame_quiescent {A} (p : prog Effect A) (v : DashState) tr o :
  emits_only (fun u => frame u = true) p -> quiescent v -> exec p tr o -> quiescent (final v tr).
Proof. intros Hp Hv H. apply fold_frame; [exact (exec_emits_only _ _ _ _ Hp H)|exact Hv]. Qed.

(** A handler of the open form preserves quiescence. *)
Lemma form_quiescent {A} (p : prog Effect A) (v : DashState) tr o :
  emits_only (fun u => keeps_flags u = true) p -> quiescent v -> isModalOpen v = true ->
  exec p tr o -> quiescent (final v tr).
Proof.
  intros Hp (Hs & Hu & _) Ho H. apply (exec_emits_only _ _ _ _ Hp) in H.
  destruct (fold_keeps_flags _ v H) as (H1 & H2 & H3).
  unfold quiescent, final, apply_trace. rewrite H1, H2, H3. auto.
Qed.

Lemma quiescent_init : quiescent initialState.
Proof. unfold quiescent, closed_reset. simpl. auto 10. Qed.

(** One handler run preserves quiescence. *)
Lemma quiescent_step (s : DashState) ev tr o :
  quiescent s -> enabled ev s = true -> exec (handler ev s) tr o -> quiescent (final s tr).
Proof.
  intros Hq Hen H. destruct ev; cbn [handler enabled] in Hen, H; bool_cases;
    first [ exact (handleSubmit_quiescent s tr o Hq ltac:(assumption) H)
          | exact (closeModal_quiescent s s tr o Hq H)
          | exact (openModal_quiescent _ s tr o Hq H)
          | solve [refine (frame_quiescent _ s tr o _ Hq H); solve_over_answers]
          | solve [refine (form_quiescent _ s tr o _ Hq ltac:(assumption) H); solve_over_answers] ].
Qed.

(** C6: Every state the page reaches is quiescent: no save or upload appears
    in progress once a handler has finished, and whenever the modal is
    closed the form holds no data, no record is being edited, no file is
    selected, no preview is shown and no error is pending. *)
Theorem reachable_quiescent (s : DashState) : reachable s -> quiescent s.
Proof.
  induction 1 as [|s ev tr o _ IH Hen H]; [exact quiescent_init|exact (quiescent_step s ev tr o IH Hen H)].
Qed.

(** C32: What the operator sees between handler runs: whenever the form is
    shown, no upload progress bar is displayed and the submit button is
    enabled, labelled "Update Perfume" when a record is edited and
    "Create Perfume" otherwise. *)
Theorem reachable_view_idle (s : DashState) :
  reachable s ->
  match view s with
  | Page _ _ _ (Some m) =>
      progressBar m = None /\ submitDisabled m = false /\
      submitLabel m = match editingPerfume s with
                      | Some _ => "Update Perfume" | None => "Create Perfume" end
  | _ => True
  end.
Proof.
  intros Hr. assert (Hq : quiescent s)
    by (induction Hr as [|? ? ? ? _ IH Hen H]; [exact quiescent_init|exact (quiescent_step _ _ _ _ IH Hen H)]).
  destruct Hq as (Hs & Hu & _). unfold view.
  destruct (loading s); [exact I|]. destruct (isModalOpen s); [|exact I].
  simpl. rewrite Hs, Hu. auto.
Qed.

Lemma auth_catalog_comm (a b : Effect) (v : DashState) :
  auth_effect a = true -> catalog_effect b = true -> step a (step b v) = step b (step a v).
Proof. destruct a; try discriminate; destruct b; try discriminate; destruct v; reflexivity. Qed.

(** C10: The mount effect calls [checkAdmin()] and [fetchPerfumes()] without
    awaiting either, so their calls and state updates interleave in any
    order the answers arrive in.  Every interleaving of a run of each
    ends in the state of running [checkAdmin] first and [fetchPerfumes]
    after: the outcome does not depend on the order of the answers. *)
Theorem mount_interleavings_agree (s : DashState) t1 o1 t2 o2 t :
  exec checkAdmin t1 o1 -> exec fetchPerfumes t2 o2 -> shuffle t1 t2 t ->
  final s t = final (final s t1) t2.
Proof.
  intros H1 H2 Hs. unfold final, apply_trace.
  apply (fold_shuffle step (fun u => auth_effect u = true) (fun u => catalog_effect u = true)).
  - exact auth_catalog_comm.
  - apply (exec_emits_only _ checkAdmin t1 o1); [solve_over_answers|exact H1].
  - apply (exec_emits_only _ fetchPerfumes t2 o2); [solve_over_answers|exact H2].
  - apply effects_shuffle, Hs.
Qed.

(** C20: No handler of the page retries or loops: whatever the service and
    the browser answer, every run of every handler returns after at most
    five awaited calls (random name, upload, public URL, write and
    refresh for a submission with a new image). *)
Theorem handlers_terminate (ev : Event) (s : DashState) tr o :
  exec (handler ev s) tr o -> List.length (calls tr) <= 5.
Proof.
  apply exec_calls_le. destruct ev; cbn [handler]; try solve [solve_over_answers].
  unfold handleSubmit. simpl.
  apply (calls_le_try_finally 5 0); [|exact I].
  apply (calls_le_try_catch 5 0); [|intros; exact I].
  unfold submitTry. destruct (requiredMissing (formData s)); [exact I|].
  apply (calls_le_bind 3 2); [|intros url].
  { unfold resolveImageUrl. destruct (selectedImage s); [apply uploadImage_calls_le|solve_over_answers]. }
  apply (calls_le_bind 1 1); [unfold saveRecord; solve_over_answers|intros _].
  apply (calls_le_bind 1 0); [unfold fetchPerfumes; solve_over_answers|intros _].
  unfold closeModal. solve_over_answers.
Qed.

Lemma keptNotes_nonblank (notes : list string) :
  Forall (fun n => JsString.trim n <> EmptyString) (keptNotes notes).
Proof.
  unfold keptNotes. induction notes as [|n notes IH]; simpl; [constructor|].
  destruct (String.eqb (JsString.trim n) EmptyString) eqn:E; simpl; [exact IH|].
  constructor; [|exact IH]. intros H. rewrite H in E. discriminate E.
Qed.

Lemma perfumeData_ok (s : DashState) (url : string) :
  requiredMissing (formData s) = false ->
  (selectedImage s = None -> url = PerfumeFormData.image_url (formData s) /\ JsValue.str_falsy url = false) ->
  payload_ok s (perfumeData (formData s) url).
Proof.
  unfold requiredMissing, payload_ok, perfumeData. simpl. intros Hm Hurl.
  apply orb_false_iff in Hm as [Hm Hp]. apply orb_false_iff in Hm as [Hn Hc].
  repeat split; auto using keptNotes_nonblank.
  - intros H. rewrite H in Hn. discriminate Hn.
  - intros H. rewrite H in Hc. discriminate Hc.
  - apply Hurl. assumption.
  - destruct Hurl as [_ Hu]; [assumption|]. intros He. rewrite He in Hu. discriminate Hu.
Qed.

(** C39: The object URLs of a form's previews leak: choosing a file, then
    another, then closing the form, against any backend, creates an
    object URL for each file, but only the last one is revoked, since
    [handleImageChange] replaces the preview without revoking the
    previous one and [closeModal] revokes only the preview it renders. *)
Theorem object_url_leak {S} `{Backend S} (s : DashState) (f1 f2 : File) (b b1 b2 : S) (u1 u2 : string) :
  previewUrl s = None ->
  answer (CreateObjectURL f1) b = (u1, b1) -> answer (CreateObjectURL f2) b1 = (u2, b2) ->
  JsValue.str_falsy u2 = false -> JsString.starts_with "http" u2 = false ->
  let '(t1, _, b1') := run (handleImageChange (Some f1)) b in
  let '(t2, _, b2') := run (handleImageChange (Some f2)) b1' in
  let s2 := final (final s t1) t2 in
  let t3 := fst (fst (run (closeModal s2) b2')) in
  calls (t1 ++ t2 ++ t3) = [CreateObjectURL f1; CreateObjectURL f2] /\
  previewUrl s2 = Some u2 /\ selectedImage s2 = Some f2 /\
  revokedUrls (effects (t1 ++ t2 ++ t3)) = [u2].
Proof.
  intros Hp H1 H2 Hf Hh. cbn -[JsString.starts_with JsValue.str_falsy]. rewrite H1.
  cbn -[JsString.starts_with JsValue.str_falsy]. rewrite H2.
  unfold final, apply_trace. destruct s; simpl in Hp; subst.
  cbn -[JsString.starts_with JsValue.str_falsy]. rewrite Hf, Hh. simpl. auto.
Qed.

(** C2: The data-model invariant of persisted records holds for every write
    a submission issues, whatever the answers: its payload has the typed
    non-empty name and category, the typed non-zero price and the typed
    description, no blank note, and, without a new file, the stored
    non-empty image URL. *)
Theorem submit_payload_wellformed (s : DashState) tr o :
  exec (handleSubmit s) tr o -> Forall (write_ok s) (calls tr).
Proof.
  apply exec_calls_only. unfold handleSubmit. simpl.
  apply calls_only_try_finally; [|solve_over_answers].
  apply calls_only_try_catch; [|solve_over_answers].
  unfold submitTry. destruct (requiredMissing (formData s)) eqn:Hm; [exact I|].
  assert (Hrest : forall url, (selectedImage s = None -> url = PerfumeFormData.image_url (formData s) /\
                                JsValue.str_falsy url = false) ->
            calls_only (write_ok s) (saveRecord s (perfumeData (formData s) url) ;; fetchPerfumes ;; closeModal s)).
  { intros url Hurl. apply calls_only_bind.
    - unfold saveRecord. destruct (editingPerfume s); simpl;
        (split; [exact (perfumeData_ok s url Hm Hurl)|solve_over_answers]).
    - intros _. unfold fetchPerfumes, closeModal. solve_over_answers. }
  unfold resolveImageUrl. destruct (selectedImage s) as [file|] eqn:Hi.
  - apply calls_only_bind; [unfold uploadImage; solve_over_answers|].
    intros url. apply Hrest. discriminate.
  - destruct (JsValue.str_falsy (PerfumeFormData.image_url (formData s))) eqn:Hu; [exact I|].
    simpl. apply Hrest. auto.
Qed.

(** C13: A save that completes late acts on whatever form is open then.
    The Cancel button stays enabled while a save awaits the service, and
    the save's remaining steps run with the state of the render that
    started it.  Against any backend, the run of a valid submission
    without a new file is its two first effects, the write call, and a
    remainder that, applied to whatever state [v] the page reached
    between the write call and its answer (the form closed, another
    record opened, its fields typed into), closes the form and resets
    it, discarding that other record's edits, when the write answers no
    error, and shows the write's error in that form, leaving its data,
    when it answers one; in both cases it clears [isSaving]. *)
Theorem late_save_completion {S} `{Backend S} (s v : DashState) (b b1 : S) (err : option exn) :
  requiredMissing (formData s) = false -> selectedImage s = None ->
  JsValue.str_falsy (PerfumeFormData.image_url (formData s)) = false ->
  let data := perfumeData (formData s) (PerfumeFormData.image_url (formData s)) in
  match editingPerfume s with
  | Some p => answer (PerfumesUpdate data (Perfume.id p)) b
  | None => answer (PerfumesInsert data) b
  end = (err, b1) ->
  let '(tr, _, _) := run (handleSubmit s) b in
  exists post, tr = [LEmit (SetFormError EmptyString); LEmit (SetIsSaving true); LCall (saveCall s data)] ++ post /\
  let v' := final v post in
  isSaving v' = false /\
  match err with
  | Some e => formError v' = message_or "An error occurred" e /\ isModalOpen v' = isModalOpen v /\
              editingPerfume v' = editingPerfume v /\ formData v' = formData v
  | None => isModalOpen v' = false /\ editingPerfume v' = None /\ formData v' = initialFormData /\
            formError v' = EmptyString /\ selectedImage v' = None
  end.
Proof.
  intros Hm Hi Hu. cbv zeta. intros Hw.
  run_write_answer s err Hm Hi Hu Hw;
    eexists; (split; [reflexivity|]); unfold final, apply_trace; destruct v; simpl; auto 12.
Qed.
Lemma checkAdmin_quiescent (s : DashState) tr o :
  quiescent s -> exec checkAdmin tr o -> quiescent (final s tr).
Proof. intros Hq H. refine (frame_quiescent _ s tr o _ Hq H). unfold checkAdmin. solve_over_answers. Qed.

Lemma closeModal_settles (s : DashState) tr o :
  loading s = false -> exec (closeModal s) tr o -> loading (final s tr) = false /\ closed_reset (final s tr).
Proof.
  intros Hl H. apply exec_closeModal in H as (_ & _ & rest & Heff & Hrev).
  unfold final, apply_trace. rewrite Heff, fold_left_app, final_revokes by exact Hrev.
  destruct s; simpl in *. unfold closed_reset; simpl; auto 10.
Qed.

(** C7: The page can always be brought back to rest: from every quiescent
    state (every reachable one is), the mount check followed, if the
    modal is open, by its close button reaches a state that is no longer
    loading and whose modal is closed with the form reset. *)
Theorem dashboard_can_settle (s : DashState) :
  quiescent s -> exists s', star dash_step s s' /\ loading s' = false /\ closed_reset s'.
Proof.
  intros Hq. pose proof (exec_run checkAdmin sampleDb) as H1.
  pose proof (checkAdmin_quiescent s _ _ Hq H1) as Hq1.
  assert (Hl : loading (final s (fst (fst (run checkAdmin sampleDb)))) = false).
  { revert H1. generalize (fst (fst (run checkAdmin sampleDb))), (snd (fst (run checkAdmin sampleDb))).
    simpl. intros tr o ([u|] & tr1 & -> & H); simpl in H;
      [destruct H as ([[row|] [e|]] & tr2 & -> & H); simpl in H|];
      destruct_exec; unfold final, apply_trace; destruct s; reflexivity. }
  pose proof (dash_fire s EvCheckAdmin _ _ eq_refl H1) as Hs1. cbn [handler] in Hs1.
  destruct (isModalOpen (final s (fst (fst (run checkAdmin sampleDb))))) eqn:Ho.
  - pose proof (exec_run (closeModal (final s (fst (fst (run checkAdmin sampleDb))))) sampleDb) as H2.
    destruct (closeModal_settles _ _ _ Hl H2) as [Hl2 Hc].
    eexists; split; [|exact (conj Hl2 Hc)].
    refine (star_step _ _ _ _ Hs1 (star_one _ _ _ (dash_fire _ EvCloseModal _ _ _ H2))).
    cbn [enabled]. rewrite Hl, Ho. reflexivity.
  - destruct Hq1 as (_ & _ & [Ho'|Hc]); [congruence|].
    eexists; split; [exact (star_one _ _ _ Hs1)|]. split; [exact Hl|exact Hc].
Qed.

(** ** Witnesses *)

Lemma handleSubmit_rejects_missing_fields_witness :
  calls (fst (fst (run (handleSubmit (formState noNameForm None None)) sampleDb))) = [].
Proof.
  exact (proj1 (handleSubmit_rejects_missing_fields (formState noNameForm None None) _ _
                  eq_refl (exec_run _ _))).
Defined.

Lemma handleSubmit_requires_image_witness :
  calls (fst (fst (run (handleSubmit (formState noImageForm None None)) sampleDb))) = [].
Proof.
  exact (proj1 (handleSubmit_requires_image (formState noImageForm None None) _ _
                  eq_refl eq_refl eq_refl (exec_run _ _))).
Defined.

Lemma handleSubmit_no_upload_without_new_image_witness :
  let s := formState sampleForm None None in
  let tr := fst (fst (run (handleSubmit s) sampleDb)) in
  let data := perfumeData (formData s) (PerfumeFormData.image_url (formData s)) in
  calls tr = [] \/ calls tr = [saveCall s data] \/ calls tr = [saveCall s data; PerfumesSelectOrdered].
Proof.
  exact (handleSubmit_no_upload_without_new_image (formState sampleForm None None) _ _
           eq_refl (exec_run _ _)).
Defined.

Lemma handleSubmit_write_outcome_witness :
  let s := formState sampleForm None None in
  let d := Backend.mkDb [] [] [] None [] false false 0 in
  let '(tr, o, _) := run (handleSubmit s) d in
  o = inr tt /\ isSaving (final s tr) = false /\
  calls tr = [PerfumesInsert (perfumeData sampleForm "https://img.example/js.jpg")] /\
  formError (final s tr) = message_or "An error occurred" Backend.network_error /\
  isModalOpen (final s tr) = true /\ formData (final s tr) = sampleForm /\ editingPerfume (final s tr) = None.
Proof.
  pose proof (handleSubmit_write_outcome (formState sampleForm None None) (Backend.mkDb [] [] [] None [] false false 0)
                _ _ eq_refl eq_refl eq_refl eq_refl) as H.
  exact H.
Defined.
Lemma handleSubmit_upload_before_write_witness :
  let s := formState sampleForm (Some sampleFile) None in
  let d := Backend.with_objects ["perfumes/0.jpg"] sampleDb in
  let '(tr, _, _) := run (handleSubmit s) d in
  calls tr = [MathRandomToString36; StorageUpload bucket "perfumes/0.jpg" sampleFile "3600" false] /\
  formError (final s tr) = "Failed to upload image" /\ isSaving (final s tr) = false /\
  uploadProgress (final s tr) = None /\ isModalOpen (final s tr) = true /\ formData (final s tr) = sampleForm.
Proof.
  pose proof (handleSubmit_upload_before_write (formState sampleForm (Some sampleFile) None) sampleFile
                (Backend.with_objects ["perfumes/0.jpg"] sampleDb) _ _ _ _ _ eq_refl eq_refl eq_refl eq_refl) as H.
  exact H.
Defined.
Lemma handleDelete_unconfirmed_witness :
  run (handleDelete "p1") sampleDb =
  ([LCall (WindowConfirm deleteConfirmMessage)], inr tt, Backend.tick sampleDb).
Proof. exact (handleDelete_unconfirmed "p1" sampleDb _ eq_refl). Defined.

Lemma notes_field_roundtrip_witness :
  notesOfInput (notesValue sampleForm) = ["Rose"; "Jasmine"].
Proof.
  exact (notes_field_roundtrip sampleForm ltac:(discriminate) ltac:(repeat constructor)).
Defined.

Lemma create_appears_first_witness :
  let '(tr, o, d') := run (handleSubmit (formState sampleForm None None)) sampleDb in
  let row := Backend.new_row sampleDb (perfumeData sampleForm "https://img.example/js.jpg") in
  o = inr tt /\ perfumes (final (formState sampleForm None None) tr) = row :: [] /\
  Backend.perfume_rows d' = perfumes (final (formState sampleForm None None) tr).
Proof.
  exact (create_appears_first (formState sampleForm None None) sampleDb
           eq_refl eq_refl eq_refl eq_refl eq_refl).
Defined.

Lemma handleDelete_outcome_witness :
  let d := Backend.mkDb [sampleRecord] [] [] None [] true true 0 in
  let '(tr, o, _) := run (handleDelete "p7") d in
  o = inr tt /\
  calls tr = [WindowConfirm deleteConfirmMessage; PerfumesDelete "p7"; PerfumesSelectOrdered] /\
  final initialState tr = step (SetPerfumes []) initialState.
Proof.
  pose proof (handleDelete_outcome "p7" initialState (Backend.mkDb [sampleRecord] [] [] None [] true true 0)
                _ _ _ eq_refl eq_refl) as H.
  exact H.
Defined.
Lemma openModal_loads_record_witness :
  editingPerfume (final initialState (fst (fst (run (openModal (Some sampleRecord)) sampleDb))))
  = Some sampleRecord.
Proof.
  exact (proj1 (proj2 (proj2 (openModal_loads_record initialState sampleRecord _ _ (exec_run _ _))))).
Defined.

Lemma reachable_quiescent_witness :
  let s1 := final initialState (fst (fst (run checkAdmin sampleDb))) in
  quiescent (final s1 (fst (fst (run (openModal None) sampleDb)))).
Proof.
  exact (reachable_quiescent _
           (reach_step _ (EvOpenModal None) _ _
              (reach_step initialState EvCheckAdmin _ _ reach_init eq_refl
                 (exec_run (handler EvCheckAdmin initialState) sampleDb))
              eq_refl (exec_run (openModal None) sampleDb))).
Defined.

Lemma reachable_view_idle_witness :
  let s1 := final initialState (fst (fst (run checkAdmin sampleDb))) in
  let s2 := final s1 (fst (fst (run (openModal None) sampleDb))) in
  match view s2 with
  | Page _ _ _ (Some m) =>
      progressBar m = None /\ submitDisabled m = false /\
      submitLabel m = match editingPerfume s2 with
                      | Some _ => "Update Perfume" | None => "Create Perfume" end
  | _ => True
  end.
Proof.
  exact (reachable_view_idle _
           (reach_step _ (EvOpenModal None) _ _
              (reach_step initialState EvCheckAdmin _ _ reach_init eq_refl
                 (exec_run (handler EvCheckAdmin initialState) sampleDb))
              eq_refl (exec_run (openModal None) sampleDb))).
Defined.

Lemma mount_interleavings_agree_witness :
  let t1 := [LCall AuthGetUser; LCall (AdminUsersSelectSingle "username, last_login" "admin@fragrance.example");
             LEmit (SetAdminData (mkAdminData "admin" None)); LEmit (SetLoading false)] in
  let t2 := [LCall PerfumesSelectOrdered; LEmit (SetPerfumes [])] in
  let t := [LCall AuthGetUser; LCall PerfumesSelectOrdered;
            LCall (AdminUsersSelectSingle "username, last_login" "admin@fragrance.example");
            LEmit (SetPerfumes []); LEmit (SetAdminData (mkAdminData "admin" None));
            LEmit (SetLoading false)] in
  final initialState t = final (final initialState t1) t2.
Proof.
  intros t1 t2 t.
  refine (mount_interleavings_agree initialState t1 _ t2 _ t
            (exec_run checkAdmin sampleDb) (exec_run fetchPerfumes sampleDb) _).
  repeat constructor.
Defined.

Lemma update_replaces_record_witness :
  let s := formState sampleForm None (Some sampleRecord) in
  let d := Backend.with_rows [sampleRecord] sampleDb in
  let '(tr, o, d') := run (handleSubmit s) d in
  let data := perfumeData (formData s) (PerfumeFormData.image_url (formData s)) in
  o = inr tt /\
  Backend.perfume_rows d' =
    map (fun q => if String.eqb (Perfume.id q) (Perfume.id sampleRecord) then Backend.replace_row d data q else q)
        (Backend.perfume_rows d) /\
  perfumes (final s tr) = Backend.perfume_rows d'.
Proof.
  exact (update_replaces_record (formState sampleForm None (Some sampleRecord))
           (Backend.with_rows [sampleRecord] sampleDb) sampleRecord eq_refl eq_refl eq_refl eq_refl eq_refl).
Defined.

Lemma delete_removes_record_witness :
  let d := Backend.mkDb [sampleRecord] [] [] None [] true true 0 in
  let '(tr, o, d') := run (handleDelete "p7") d in
  o = inr tt /\ Backend.perfume_rows d' = [] /\ perfumes (final initialState tr) = Backend.perfume_rows d'.
Proof.
  exact (delete_removes_record initialState (Backend.mkDb [sampleRecord] [] [] None [] true true 0) "p7"
           eq_refl eq_refl).
Defined.

Lemma create_with_upload_stores_url_witness :
  let s := formState noImageForm (Some sampleFile) None in
  let path := filePath ("0." ++ Backend.digits 0)%string sampleFile in
  let '(tr, o, d') := run (handleSubmit s) sampleDb in
  o = inr tt /\ In path (Backend.objects d') /\
  map Perfume.image_url (perfumes (final s tr)) = [Backend.public_url bucket path].
Proof.
  exact (create_with_upload_stores_url (formState noImageForm (Some sampleFile) None) sampleDb sampleFile
           eq_refl eq_refl eq_refl eq_refl eq_refl).
Defined.

Lemma submit_payload_wellformed_witness :
  Forall (write_ok (formState sampleForm None None))
    (calls (fst (fst (run (handleSubmit (formState sampleForm None None)) sampleDb)))).
Proof. exact (submit_payload_wellformed _ _ _ (exec_run _ _)). Defined.

Lemma handlers_terminate_witness :
  List.length (calls (fst (fst (run (handler EvSubmit (formState sampleForm None (Some sampleRecord)))
                                      sampleDb)))) <= 5.
Proof. exact (handlers_terminate _ _ _ _ (exec_run _ _)). Defined.

Lemma dashboard_can_settle_witness :
  exists s', star dash_step initialState s' /\ loading s' = false /\ closed_reset s'.
Proof. exact (dashboard_can_settle initialState quiescent_init). Defined.

Lemma late_save_completion_witness :
  let '(tr, _, _) := run (handleSubmit (formState sampleForm None None)) sampleDb in
  exists post, tr = [LEmit (SetFormError EmptyString); LEmit (SetIsSaving true);
                     LCall (PerfumesInsert (perfumeData sampleForm "https://img.example/js.jpg"))] ++ post /\
  let v' := final (formState sampleForm None (Some sampleRecord)) post in
  isSaving v' = false /\ isModalOpen v' = false /\ editingPerfume v' = None /\
  formData v' = initialFormData /\ formError v' = EmptyString /\ selectedImage v' = None.
Proof.
  pose proof (late_save_completion (formState sampleForm None None) (formState sampleForm None (Some sampleRecord))
                sampleDb _ _ eq_refl eq_refl eq_refl eq_refl) as H.
  exact H.
Defined.
Lemma object_url_leak_witness :
  let '(t1, _, b1') := run (handleImageChange (Some sampleFile)) sampleDb in
  let '(t2, _, b2') := run (handleImageChange (Some sampleFile)) b1' in
  let s2 := final (final (formState sampleForm None None) t1) t2 in
  let t3 := fst (fst (run (closeModal s2) b2')) in
  calls (t1 ++ t2 ++ t3) = [CreateObjectURL sampleFile; CreateObjectURL sampleFile] /\
  previewUrl s2 = Some "blob:1" /\ selectedImage s2 = Some sampleFile /\
  revokedUrls (effects (t1 ++ t2 ++ t3)) = ["blob:1"].
Proof.
  pose proof (object_url_leak (formState sampleForm None None) sampleFile sampleFile sampleDb _ _ _ _
                eq_refl eq_refl eq_refl eq_refl eq_refl) as H.
  exact H.
Defined.

(** The service of [sampleDb] behind a table policy that rejects every
    insert and update. *)
Definition rejectingWrites : Backend Backend.Db :=
  fun c d => match c as c0 return resp c0 * Backend.Db with
             | PerfumesInsert _ | PerfumesUpdate _ _ =>
                 (Some (ErrorObj "new row violates row-level security policy"), d)
             | c0 => Backend.db_backend c0 d
             end.

Lemma failed_write_reuploads_witness :
  let s := formState sampleForm (Some sampleFile) None in
  let '(tr, _, b') := @run _ _ rejectingWrites _ (handleSubmit s) sampleDb in
  let s' := final s tr in
  formError s' = "new row violates row-level security policy" /\ selectedImage s' = Some sampleFile /\
  isModalOpen s' = true /\ formData s' = sampleForm /\
  exists rest, calls (fst (fst (@run _ _ rejectingWrites _ (handleSubmit s') b'))) =
    [MathRandomToString36; StorageUpload bucket "perfumes/3.jpg" sampleFile "3600" false] ++ rest.
Proof.
  pose proof (@failed_write_reuploads _ rejectingWrites (formState sampleForm (Some sampleFile) None) sampleFile
                sampleDb _ _ _ _ _ _ _ _ eq_refl eq_refl eq_refl eq_refl eq_refl eq_refl) as H.
  exact H.
Defined.

End Dashboard.
