(* ===== verification/Login.v ===== *)
(** * Login: the admin sign-in page (src/src/pages/AdminLogin.tsx)

    The page's state (lines 7-10: [email], [password], [error], [loading])
    and the router location form [LoginState]; its effects are the state
    setters, [navigate] and [console.error].  [checkSession] is the mount
    effect (lines 14-22), [handleLogin] the form's submit handler (lines
    24-65) with its [try] block [loginTry].

    The theorems read the calls and the final state of [handleLogin] off
    the answers of any backend: a failed sign-in shows the service's own
    message, an
    authenticated identity without an [admin_users] row is signed out
    before "Unauthorized access" is shown and never reaches the
    dashboard, and only an authorised sign-in records the login time and
    navigates to the dashboard.  Against the spec's service (Backend.v)
    the unauthorised identity's session is closed and the admin's row is
    stamped.  [view] is the page's render and [reachable] its states: in
    every one the sign-in button is enabled. *)

From Stdlib Require Import List String Bool.
From S2P Require Import Prelude JsString Types Remote Prog Backend.
Import ListNotations.

Module Login.
Import Remote Prog.
Local Open Scope string_scope.
Local Open Scope prog_scope.

Record LoginState := mkLogin {
  email : string;
  password : string;
  error : string;
  loading : bool;
  location : option string
}.

Inductive Effect :=
| SetEmail (v : string)
| SetPassword (v : string)
| SetError (msg : string)
| SetLoading (b : bool)
| Navigate (path : string)
| ConsoleError (msg : string).

Definition step (u : Effect) (s : LoginState) : LoginState :=
  let '(mkLogin em pw er lo loc) := s in
  match u with
  | SetEmail v => mkLogin v pw er lo loc
  | SetPassword v => mkLogin em v er lo loc
  | SetError m => mkLogin em pw m lo loc
  | SetLoading b => mkLogin em pw er b loc
  | Navigate p => mkLogin em pw er lo (Some p)
  | ConsoleError _ => s
  end.

Definition final (s : LoginState) (tr : list (label Effect)) : LoginState :=
  apply_trace step tr s.

Definition dashboard_path : string := "/admin/dashboard".

(** [checkSession] (lines 15-20). *)
Definition checkSession : prog Effect unit :=
  session <- call_ AuthGetSession ;;
  if session then emit (Navigate dashboard_path) else Ret tt.

(** The [try] block of [handleLogin] (lines 30-58). *)
Definition loginTry (s : LoginState) : prog Effect unit :=
  '(user, signInError) <- call_ (AuthSignInWithPassword (email s) (password s)) ;;
  throw_if signInError ;;
  match user with
  | None => Throw (ErrorObj "Authentication failed")
  | Some _ =>
      '(adminUser, adminError) <- call_ (AdminUsersSelectSingle "email" (email s)) ;;
      match adminError, adminUser with
      | None, Some _ =>
          now <- call_ DateToISOString ;;
          _ <- call_ (AdminUsersUpdateLastLogin now (email s)) ;;
          emit (Navigate dashboard_path)
      | _, _ =>
          _ <- call_ AuthSignOut ;;
          Throw (ErrorObj "Unauthorized access")
      end
  end.

(** [handleLogin] (lines 24-65). *)
Definition handleLogin (s : LoginState) : prog Effect unit :=
  emit (SetError EmptyString) ;;
  emit (SetLoading true) ;;
  try_finally
    (try_catch (loginTry s)
       (fun e => emit (ConsoleError "Login error:") ;;
                 emit (SetError (message_or "Invalid login credentials" e))))
    (emit (SetLoading false)).

(** The inputs' [onChange] handlers (lines 95, 110). *)
Definition onEmailChange (v : string) : prog Effect unit := emit (SetEmail v).
Definition onPasswordChange (v : string) : prog Effect unit := emit (SetPassword v).

(** ** Rendering and events *)

(** The page's render (lines 67-129): the error banner ([{error && ..}]),
    the two controlled inputs and the submit button. *)
Record LoginView := mkLoginView {
  errorBanner : option string;
  emailValue : string;
  passwordValue : string;
  buttonLabel : string;
  buttonDisabled : bool
}.

Definition view (s : LoginState) : LoginView :=
  {| errorBanner := if JsValue.str_falsy (error s) then None else Some (error s);
     emailValue := email s;
     passwordValue := password s;
     buttonLabel := if loading s then "Signing in..." else "Sign In";
     buttonDisabled := loading s |}.

(** The mount effect (lines 14-22) and the page's controls. *)
Inductive Event :=
| EvCheckSession
| EvEmailChange (v : string)
| EvPasswordChange (v : string)
| EvSubmit.

Definition handler (ev : Event) (s : LoginState) : prog Effect unit :=
  match ev with
  | EvCheckSession => checkSession
  | EvEmailChange v => onEmailChange v
  | EvPasswordChange v => onPasswordChange v
  | EvSubmit => handleLogin s
  end.

(** The submit button is [disabled={loading}] (line 119). *)
Definition enabled (ev : Event) (s : LoginState) : bool :=
  match ev with EvSubmit => negb (loading s) | _ => true end.

Inductive reachable : LoginState -> Prop :=
| reach_init : reachable (mkLogin EmptyString EmptyString EmptyString false None)
| reach_step s ev tr o :
    reachable s -> enabled ev s = true -> exec (handler ev s) tr o -> reachable (final s tr).

(** ** Witness inputs *)

Definition loginAs (e p : string) : LoginState := mkLogin e p EmptyString false None.

(** A customer account of the service with no [admin_users] row. *)
Definition customerDb : Backend.Db :=
  Backend.mkDb [] [mkAdminRow "admin@fragrance.example" "admin" None]
    [("admin@fragrance.example", "secret", mkUser "u1" "admin@fragrance.example");
     ("buyer@mail.example", "pw", mkUser "u2" "buyer@mail.example")] None [] true false 0.

(** ** Properties *)

Local Open Scope list_scope.
#[local] Existing Instance Backend.db_backend.

(** C4: Every sign-in against any backend, read off the answers it
    receives: it completes and clears [loading], and
    - when the sign-in answers an error, no other call follows, the page
      stays and that error's message is shown;
    - when it answers neither a user nor an error, "Authentication
      failed" is shown;
    - when it answers a user, the [admin_users] row of the typed email is
      looked up: a row without an error leads to recording the time
      [Date] answers as that email's last login, no error shown and the
      dashboard; no row, or an error, to the session being signed out,
      "Unauthorized access" shown and no navigation. *)
Theorem handleLogin_outcomes {S} `{Backend S} (s : LoginState) (b : S) :
  let signIn := AuthSignInWithPassword (email s) (password s) in
  let lookup := AdminUsersSelectSingle "email" (email s) in
  let '(tr, o, _) := run (handleLogin s) b in
  let s' := final s tr in
  o = inr tt /\ loading s' = false /\
  let '(auth, b1) := answer signIn b in
  match auth with
  | (_, Some e) =>
      calls tr = [signIn] /\ location s' = location s /\ error s' = message_or "Invalid login credentials" e
  | (None, None) =>
      calls tr = [signIn] /\ location s' = location s /\ error s' = "Authentication failed"
  | (Some _, None) =>
      let '(admin, b2) := answer lookup b1 in
      match admin with
      | (Some _, None) =>
          calls tr = [signIn; lookup; DateToISOString;
                      AdminUsersUpdateLastLogin (fst (answer DateToISOString b2)) (email s)] /\
          location s' = Some dashboard_path /\ error s' = EmptyString
      | _ =>
          calls tr = [signIn; lookup; AuthSignOut] /\ location s' = location s /\
          error s' = "Unauthorized access"
      end
  end.
Proof.
  cbv zeta. simpl.
  destruct (answer (AuthSignInWithPassword (email s) (password s)) b) as [[[u|] [e|]] b1]; simpl;
    [| destruct (answer (AdminUsersSelectSingle "email" (email s)) b1) as [[[row|] [e|]] b2]; simpl;
       [| destruct (answer DateToISOString b2) as [now b3]; simpl;
          destruct (answer (AdminUsersUpdateLastLogin now (email s)) b3) as [? b4] | |]
     | |];
    try (destruct (answer AuthSignOut _) as [? ?]);
    unfold final, apply_trace; destruct s; simpl; auto.
Qed.


(** [checkSession] navigates to the dashboard exactly when a session
    exists. *)
Theorem checkSession_navigates (s : LoginState) tr o :
  exec checkSession tr o ->
  o = inr tt /\
  (location (final s tr) = Some dashboard_path \/ location (final s tr) = location s).
Proof.
  simpl. intros ([|] & tr1 & -> & H); simpl in H; destruct_exec;
    unfold final, apply_trace; destruct s; simpl; auto.
Qed.

(** C9: The spec's scenario, against the spec's service: credentials that match
    an identity without an [admin_users] row end with the session
    terminated, "Unauthorized access" shown and no navigation. *)
Theorem handleLogin_unauthorized_signs_out (d : Backend.Db) (s : LoginState) (u : User) :
  Backend.online d = true ->
  Backend.find_credentials (email s) (password s) (Backend.credentials d) = Some u ->
  Backend.find_admin (email s) (Backend.admin_rows d) = None ->
  let '(tr, _, d') := run (handleLogin s) d in
  Backend.session d' = None /\ error (final s tr) = "Unauthorized access" /\
  location (final s tr) = location s.
Proof.
  intros Ho Hc Ha. destruct d as [rows admins creds sess objs online conf clk].
  simpl in *. subst online. Backend.db_simpl. rewrite Hc. Backend.db_simpl. rewrite Ha. simpl.
  unfold final, apply_trace. destruct s; simpl. auto.
Qed.

(** C29: Against the spec's service, an administrator's sign-in keeps the
    session, stamps the [admin_users] row with the time of the sign-in
    and navigates to the dashboard. *)
Theorem handleLogin_admin_records_login (d : Backend.Db) (s : LoginState) (u : User) (row : AdminRow) :
  Backend.online d = true ->
  Backend.find_credentials (email s) (password s) (Backend.credentials d) = Some u ->
  Backend.find_admin (email s) (Backend.admin_rows d) = Some row ->
  let '(tr, _, d') := run (handleLogin s) d in
  Backend.session d' = Some u /\ location (final s tr) = Some dashboard_path /\
  Backend.find_admin (email s) (Backend.admin_rows d') =
    Some (mkAdminRow (admin_email row) (admin_username row)
                     (Some (Backend.timestamp (2 + Backend.clock d)))).
Proof.
  intros Ho Hc Ha. destruct d as [rows admins creds sess objs online conf clk].
  simpl in *. subst online. Backend.db_simpl. rewrite Hc. Backend.db_simpl. rewrite Ha. Backend.db_simpl.
  rewrite Backend.find_admin_stamp, Ha.
  unfold final, apply_trace. destruct s; simpl. auto.
Qed.

(** [handleLogin] clears the error, sets [loading], runs its [try] block
    and its [catch] effects, and clears [loading] last. *)
Lemma handleLogin_shape (s : LoginState) tr o :
  exec (handleLogin s) tr o ->
  o = inr tt /\ exists tr1, tr = [LEmit (SetError EmptyString); LEmit (SetLoading true)] ++ tr1
                                   ++ [LEmit (SetLoading false)].
Proof.
  intros H.
  change (exec (bind (emit_all [SetError EmptyString; SetLoading true])
    (fun _ => try_finally (try_catch (loginTry s)
       (fun e => emit_all [ConsoleError "Login error:"; SetError (message_or "Invalid login credentials" e)]))
       (emit_all [SetLoading false]))) tr o) in H.
  apply exec_bind_emit_all in H as (tr' & -> & H).
  apply exec_try_catch_finally_effects in H as (-> & tr1 & -> & _).
  split; [reflexivity|]. exists tr1. reflexivity.
Qed.

Lemma login_idle_step (s : LoginState) ev tr o :
  loading s = false -> exec (handler ev s) tr o -> loading (final s tr) = false.
Proof.
  intros Hl H. destruct ev; cbn [handler] in H.
  - simpl in H. destruct H as ([|] & tr1 & -> & H); simpl in H; destruct_exec;
      unfold final, apply_trace; destruct s; exact Hl.
  - simpl in H. destruct_exec. unfold final, apply_trace. destruct s; exact Hl.
  - simpl in H. destruct_exec. unfold final, apply_trace. destruct s; exact Hl.
  - apply handleLogin_shape in H as (_ & tr1 & ->). unfold final.
    rewrite !apply_trace_app. unfold apply_trace at 1. simpl. destruct (apply_trace _ _ _); reflexivity.
Qed.

(** Between handler runs the sign-in button is always enabled and reads
    "Sign In": every sign-in attempt, failed or not, ends by clearing
    [loading], so the form never stays locked. *)
Theorem reachable_login_idle (s : LoginState) :
  reachable s -> buttonDisabled (view s) = false /\ buttonLabel (view s) = "Sign In".
Proof.
  intros Hr. assert (Hl : loading s = false)
    by (induction Hr as [|? ? ? ? _ IH _ H]; [reflexivity|exact (login_idle_step _ _ _ _ IH H)]).
  unfold view. simpl. rewrite Hl. auto.
Qed.

(** ** Witnesses *)

Lemma handleLogin_outcomes_witness :
  let s := loginAs "buyer@mail.example" "pw" in
  let '(tr, o, _) := run (handleLogin s) customerDb in
  o = inr tt /\ loading (final s tr) = false /\
  calls tr = [AuthSignInWithPassword "buyer@mail.example" "pw"; AdminUsersSelectSingle "email" "buyer@mail.example";
              AuthSignOut] /\
  location (final s tr) = None /\ error (final s tr) = "Unauthorized access".
Proof. pose proof (handleLogin_outcomes (loginAs "buyer@mail.example" "pw") customerDb) as H. exact H. Defined.


Lemma checkSession_navigates_witness :
  location (final (loginAs "" "") (fst (fst (run checkSession customerDb)))) = Some dashboard_path \/
  location (final (loginAs "" "") (fst (fst (run checkSession customerDb)))) = None.
Proof. exact (proj2 (checkSession_navigates (loginAs "" "") _ _ (exec_run _ _))). Defined.

Lemma handleLogin_unauthorized_signs_out_witness :
  let '(tr, _, d') := run (handleLogin (loginAs "buyer@mail.example" "pw")) customerDb in
  Backend.session d' = None /\ error (final (loginAs "buyer@mail.example" "pw") tr) = "Unauthorized access" /\
  location (final (loginAs "buyer@mail.example" "pw") tr) = None.
Proof.
  exact (handleLogin_unauthorized_signs_out customerDb (loginAs "buyer@mail.example" "pw")
           (mkUser "u2" "buyer@mail.example") eq_refl eq_refl eq_refl).
Defined.

Lemma handleLogin_admin_records_login_witness :
  let '(tr, _, d') := run (handleLogin (loginAs "admin@fragrance.example" "secret")) customerDb in
  Backend.session d' = Some (mkUser "u1" "admin@fragrance.example") /\
  location (final (loginAs "admin@fragrance.example" "secret") tr) = Some dashboard_path /\
  Backend.find_admin "admin@fragrance.example" (Backend.admin_rows d') =
    Some (mkAdminRow "admin@fragrance.example" "admin" (Some (Backend.timestamp 2))).
Proof.
  exact (handleLogin_admin_records_login customerDb (loginAs "admin@fragrance.example" "secret")
           (mkUser "u1" "admin@fragrance.example") (mkAdminRow "admin@fragrance.example" "admin" None)
           eq_refl eq_refl eq_refl).
Defined.

Lemma reachable_login_idle_witness :
  let s0 := mkLogin EmptyString EmptyString EmptyString false None in
  let s1 := final s0 (fst (fst (run (handleLogin s0) customerDb))) in
  buttonDisabled (view s1) = false /\ buttonLabel (view s1) = "Sign In".
Proof.
  exact (reachable_login_idle _
           (reach_step _ EvSubmit _ _ reach_init eq_refl
              (exec_run (handleLogin (mkLogin EmptyString EmptyString EmptyString false None)) customerDb))).
Defined.

End Login.
