(* ===== verification/Shop.v ===== *)
(** * Shop: the public catalog page (src/src/pages/Shop.tsx)

    The page's state (lines 9-14) is [ShopState]; [fetchPerfumes]
    (lines 20-35) loads the catalog through the ordered select, and the
    displayed subset [filteredPerfumes] (lines 37-42) keeps the records
    whose category is the selected one (or the wildcard "All") and whose
    lower-cased name or description contains the lower-cased query.

    The theorems give the filter's specification (membership in terms of
    substrings), that it keeps the fetched order, is idempotent, ignores
    the letter case of the query and shows everything for "All" and the
    empty query, and that a load, against any backend, always clears
    [loading] and either stores the rows its select answers or, when
    that answer is an error, keeps the previous list and shows the error
    message.
    [same_query] relates queries with the same lower-case form; it is an
    [Equivalence] and the filter is [Proper] for it, so a query can be
    rewritten into any equivalent one.  [view] is the page's render
    (lines 44-152) and [reachable] its states: each renders exactly one
    of spinner, error or results. *)

From Stdlib Require Import List String Bool PrimFloat Arith Setoid Morphisms.
From S2P Require Import Prelude JsString Types Remote Prog Backend.
Import ListNotations.

Module Shop.
Import Remote Prog.
Local Open Scope string_scope.
Local Open Scope prog_scope.

(** [CATEGORIES] (line 6). *)
Definition CATEGORIES : list string := ["All"; "Floral"; "Oriental"; "Fresh"; "Woody"].

Record ShopState := mkShop {
  selectedCategory : string;
  searchQuery : string;
  showFilters : bool;
  perfumes : list Perfume.Perfume;
  loading : bool;
  error : option string
}.

Inductive Effect :=
| SetSelectedCategory (c : string)
| SetSearchQuery (q : string)
| SetShowFilters (b : bool)
| SetPerfumes (l : list Perfume.Perfume)
| SetLoading (b : bool)
| SetError (msg : option string)
| ConsoleError (msg : string).

Definition step (u : Effect) (s : ShopState) : ShopState :=
  let '(mkShop sc sq sf ps lo er) := s in
  match u with
  | SetSelectedCategory c => mkShop c sq sf ps lo er
  | SetSearchQuery q => mkShop sc q sf ps lo er
  | SetShowFilters b => mkShop sc sq b ps lo er
  | SetPerfumes l => mkShop sc sq sf l lo er
  | SetLoading b => mkShop sc sq sf ps b er
  | SetError m => mkShop sc sq sf ps lo m
  | ConsoleError _ => s
  end.

Definition final (s : ShopState) (tr : list (label Effect)) : ShopState :=
  apply_trace step tr s.

(** The first render's state. *)
Definition initialState : ShopState := mkShop "All" EmptyString false [] true None.

Definition loadErrorMessage : string := "Failed to load perfumes. Please try again later.".

(** [fetchPerfumes] (lines 20-35). *)
Definition fetchPerfumes : prog Effect unit :=
  try_finally
    (try_catch
       ('(data, err) <- call_ PerfumesSelectOrdered ;;
        throw_if err ;;
        emit (SetPerfumes match data with Some l => l | None => [] end))
       (fun _ => emit (ConsoleError "Error fetching perfumes:") ;;
                 emit (SetError (Some loadErrorMessage))))
    (emit (SetLoading false)).

(** [matchesCategory] (line 38). *)
Definition matchesCategory (selected : string) (p : Perfume.Perfume) : bool :=
  String.eqb selected "All" || String.eqb (Perfume.category p) selected.

(** [matchesSearch] (lines 39-40). *)
Definition matchesSearch (query : string) (p : Perfume.Perfume) : bool :=
  JsString.includes (JsString.to_lower (Perfume.name p)) (JsString.to_lower query) ||
  JsString.includes (JsString.to_lower (Perfume.description p)) (JsString.to_lower query).

(** [filteredPerfumes] (lines 37-42). *)
Definition filteredPerfumes (selected query : string) (ps : list Perfume.Perfume)
  : list Perfume.Perfume :=
  filter (fun p => matchesCategory selected p && matchesSearch query p) ps.

(** Two queries the search cannot tell apart: the same lower-case form. *)
Definition same_query (q1 q2 : string) : Prop := JsString.to_lower q1 = JsString.to_lower q2.

(** The buttons' and the input's handlers (lines 64, 68, 78). *)
Definition onSearchChange (q : string) : prog Effect unit := emit (SetSearchQuery q).
Definition onToggleFilters (s : ShopState) : prog Effect unit :=
  emit (SetShowFilters (negb (showFilters s))).
Definition onSelectCategory (c : string) : prog Effect unit := emit (SetSelectedCategory c).

(** ** Rendering (lines 44-152) *)

(** A product card (lines 109-138). *)
Record CardView := mkCardView {
  card_image : string; card_name : string; card_category : string; card_price : float;
  card_description : string; card_notes : list string
}.

Record ShopView := mkShopView {
  searchValue : string;
  filtersShown : bool;
  categoryButtons : list (string * bool);
  spinner : bool;
  errorText : option string;
  cards : list CardView;
  noResults : bool
}.

Definition cardView (p : Perfume.Perfume) : CardView :=
  mkCardView (Perfume.image_url p) (Perfume.name p) (Perfume.category p) (Perfume.price p)
             (Perfume.description p) (Perfume.notes p).

(** [error] as a JSX condition: null and the empty string are falsy. *)
Definition errorShown (s : ShopState) : option string :=
  match error s with
  | Some m => if JsValue.str_falsy m then None else Some m
  | None => None
  end.

(** The page's render: the search input (line 63), the filter toggle
    and the category buttons with the selected one highlighted (lines
    67-88), the spinner while loading (93-97), the error (100-104), the
    grid of the filtered records when neither (107-140), and the
    no-results message when that grid is empty (144-148). *)
Definition view (s : ShopState) : ShopView :=
  let shown := filteredPerfumes (selectedCategory s) (searchQuery s) (perfumes s) in
  let ready := negb (loading s) && negb (is_some (errorShown s)) in
  {| searchValue := searchQuery s;
     filtersShown := showFilters s;
     categoryButtons := map (fun c => (c, String.eqb (selectedCategory s) c)) CATEGORIES;
     spinner := loading s;
     errorText := errorShown s;
     cards := if ready then map cardView shown else [];
     noResults := ready && Nat.eqb (List.length shown) 0 |}.

(** ** The page as a state machine *)

(** The mount effect (lines 16-18) and the page's controls. *)
Inductive Event :=
| EvFetchPerfumes
| EvSearchChange (q : string)
| EvToggleFilters
| EvSelectCategory (c : string).

Definition handler (ev : Event) (s : ShopState) : prog Effect unit :=
  match ev with
  | EvFetchPerfumes => fetchPerfumes
  | EvSearchChange q => onSearchChange q
  | EvToggleFilters => onToggleFilters s
  | EvSelectCategory c => onSelectCategory c
  end.

(** Every control is rendered in every state. *)
Inductive reachable : ShopState -> Prop :=
| reach_init : reachable initialState
| reach_step s ev tr o : reachable s -> exec (handler ev s) tr o -> reachable (final s tr).

(** ** Witness inputs *)

Definition offlineDb : Backend.Db :=
  Backend.mkDb [] [] [] None [] false false 0.

(** ** Properties *)

Local Open Scope list_scope.
#[local] Existing Instance Backend.db_backend.

(** C33: The filter's specification: a record is shown exactly when it was
    fetched, its category is the selected one or "All" is selected, and
    the lower-cased query is a substring of its lower-cased name or
    description. *)
Theorem filteredPerfumes_spec (selected query : string) (ps : list Perfume.Perfume) p :
  In p (filteredPerfumes selected query ps) <->
  In p ps /\
  (selected = "All" \/ Perfume.category p = selected) /\
  ((exists a b, JsString.to_lower (Perfume.name p) = (a ++ JsString.to_lower query ++ b)%string) \/
   (exists a b, JsString.to_lower (Perfume.description p) = (a ++ JsString.to_lower query ++ b)%string)).
Proof.
  unfold filteredPerfumes, matchesCategory, matchesSearch.
  rewrite filter_In, andb_true_iff, !orb_true_iff, !String.eqb_eq, !JsString.includes_spec.
  tauto.
Qed.

(** Filtering keeps the fetched order (newest first): the shown list is
    a sublist of the fetched one. *)
Theorem filteredPerfumes_sublist (selected query : string) (ps : list Perfume.Perfume) :
  sublist (filteredPerfumes selected query ps) ps.
Proof. apply filter_sublist. Qed.

(** Applying the filter twice with the same inputs shows what applying it
    once shows. *)
Theorem filteredPerfumes_idempotent (selected query : string) (ps : list Perfume.Perfume) :
  filteredPerfumes selected query (filteredPerfumes selected query ps) =
  filteredPerfumes selected query ps.
Proof. apply filter_idem. Qed.

#[export] Instance same_query_Equivalence : Equivalence same_query.
Proof. unfold same_query. split; [intros q|intros q1 q2 H|intros q1 q2 q3 H1 H2]; congruence. Qed.

#[export] Instance matchesSearch_Proper : Proper (same_query ==> eq ==> eq) matchesSearch.
Proof. intros q1 q2 Hq p ? <-. unfold matchesSearch. rewrite Hq. reflexivity. Qed.

(** The filter is a morphism for [same_query]: it ignores the letter case
    of the query. *)
#[export] Instance filteredPerfumes_Proper : Proper (eq ==> same_query ==> eq ==> eq) filteredPerfumes.
Proof.
  intros c ? <- q1 q2 Hq ps ? <-. unfold filteredPerfumes.
  apply filter_ext. intros p. rewrite Hq. reflexivity.
Qed.

(** The search ignores letter case: two queries with the same lower-case
    form show the same records; a query shows what its lower-case form
    shows. *)
Lemma filteredPerfumes_case_insensitive (selected q1 q2 : string) (ps : list Perfume.Perfume) :
  same_query q1 q2 -> filteredPerfumes selected q1 ps = filteredPerfumes selected q2 ps.
Proof. intros Hq. rewrite Hq. reflexivity. Qed.

Lemma filteredPerfumes_lower (selected q : string) (ps : list Perfume.Perfume) :
  filteredPerfumes selected (JsString.to_lower q) ps = filteredPerfumes selected q ps.
Proof. assert (H : same_query (JsString.to_lower q) q) by apply JsString.to_lower_idem. rewrite H. reflexivity. Qed.

(** With "All" selected and an empty query every fetched record is shown. *)
Theorem filteredPerfumes_all (ps : list Perfume.Perfume) :
  filteredPerfumes "All" EmptyString ps = ps.
Proof.
  unfold filteredPerfumes. induction ps as [|p ps IH]; [reflexivity|].
  cbn [filter]. rewrite IH. unfold matchesSearch. rewrite !JsString.includes_empty. reflexivity.
Qed.

(** The two runs of [fetchPerfumes]. *)
Lemma exec_shop_fetch tr o :
  exec fetchPerfumes tr o ->
  o = inr tt /\
  ((exists rows, tr = [LCall PerfumesSelectOrdered; LEmit (SetPerfumes rows); LEmit (SetLoading false)]) \/
   tr = [LCall PerfumesSelectOrdered; LEmit (ConsoleError "Error fetching perfumes:");
         LEmit (SetError (Some loadErrorMessage)); LEmit (SetLoading false)]).
Proof. simpl. intros ([data [e|]] & tr1 & -> & H); simpl in H; destruct_exec; eauto. Qed.

(** C27: The shop's load against any backend, read off the answer to its
    ordered select: it issues that one call, completes and clears
    [loading]; an error keeps the list it had and shows the load error,
    no error stores the answered rows (none when the answer is null) and
    leaves the error as it was. *)
Theorem fetchPerfumes_outcome {S} `{Backend S} (s : ShopState) (b : S) :
  let '(tr, o, _) := run fetchPerfumes b in
  let s' := final s tr in
  o = inr tt /\ calls tr = [PerfumesSelectOrdered] /\ loading s' = false /\
  match fst (answer PerfumesSelectOrdered b) with
  | (_, Some _) => perfumes s' = perfumes s /\ error s' = Some loadErrorMessage
  | (data, None) => perfumes s' = match data with Some rows => rows | None => [] end /\ error s' = error s
  end.
Proof.
  simpl. destruct (answer PerfumesSelectOrdered b) as [[[rows|] [e|]] b1];
    simpl; unfold final, apply_trace; destruct s; simpl; auto.
Qed.
(** While the catalog loads no error is set. *)
Definition shop_inv (s : ShopState) : Prop := loading s = true -> error s = None.

Lemma shop_inv_step (s : ShopState) ev tr o :
  shop_inv s -> exec (handler ev s) tr o -> shop_inv (final s tr).
Proof.
  unfold shop_inv. intros Hi H. destruct ev; cbn [handler] in H.
  1: apply exec_shop_fetch in H as [_ [[rows ->]| ->]]; unfold final, apply_trace; destruct s;
       simpl; discriminate.
  all: simpl in H; destruct_exec; unfold final, apply_trace; destruct s; exact Hi.
Qed.

(** C34: What the shop shows in every state it reaches: the spinner alone
    while loading; the error alone after a failed load; otherwise the
    cards of the filtered records, with the no-results message exactly
    when there is none. *)
Theorem reachable_view_exclusive (s : ShopState) :
  reachable s ->
  let v := view s in
  (spinner v = true /\ errorText v = None /\ cards v = [] /\ noResults v = false) \/
  (spinner v = false /\ (exists m, errorText v = Some m) /\ cards v = [] /\ noResults v = false) \/
  (spinner v = false /\ errorText v = None /\
   cards v = map cardView (filteredPerfumes (selectedCategory s) (searchQuery s) (perfumes s)) /\
   (noResults v = true <-> cards v = [])).
Proof.
  intros Hr. assert (Hi : shop_inv s)
    by (induction Hr as [|? ? ? ? _ IH H]; [intros _; reflexivity|exact (shop_inv_step _ _ _ _ IH H)]).
  unfold view, errorShown. simpl. destruct (loading s) eqn:L.
  - rewrite (Hi L). auto.
  - destruct (error s) as [m|]; [destruct (JsValue.str_falsy m)|]; simpl.
    2: right; left; split; [reflexivity|split; [eexists; reflexivity|split; reflexivity]].
    all: right; right; (split; [reflexivity|split; [reflexivity|split; [reflexivity|]]]);
      destruct (filteredPerfumes _ _ _); simpl; split; congruence.
Qed.

(** ** Witnesses *)

Lemma fetchPerfumes_outcome_witness :
  let '(tr, o, _) := run fetchPerfumes offlineDb in
  o = inr tt /\ calls tr = [PerfumesSelectOrdered] /\ loading (final initialState tr) = false /\
  perfumes (final initialState tr) = [] /\ error (final initialState tr) = Some loadErrorMessage.
Proof. pose proof (fetchPerfumes_outcome initialState offlineDb) as H. exact H. Defined.

Lemma reachable_view_exclusive_witness :
  spinner (view initialState) = true /\ errorText (view initialState) = None /\
  cards (view initialState) = [] /\ noResults (view initialState) = false \/
  spinner (view initialState) = false /\ (exists m, errorText (view initialState) = Some m) /\
  cards (view initialState) = [] /\ noResults (view initialState) = false \/
  spinner (view initialState) = false /\ errorText (view initialState) = None /\
  cards (view initialState) = map cardView (filteredPerfumes "All" EmptyString []) /\
  (noResults (view initialState) = true <-> cards (view initialState) = []).
Proof. exact (reachable_view_exclusive initialState reach_init). Defined.

End Shop.
