(* ===== verification/Tailwind.v ===== *)
(** * Tailwind: the styling configuration (src/tailwind.config.js)

    [Tailwind] models the configuration object of tailwind.config.js: the
    [content] globs that tell Tailwind which files to scan for class
    names (line 3), and the theme extension (lines 4-15) with the two font
    families and the two colours the pages use as [font-cormorant],
    [font-inter], [bg-cream] and [text-gold].  A glob is parsed into
    segments ([parse_glob]) and matched against a path's segments
    ([glob_match]) the way fast-glob does for these patterns: a literal
    segment, [**] for any number of directories, and [prefix*suffix] with
    [{a,b}] alternatives, where neither [*] nor [**] matches a name that
    starts with a dot.

    The theorems characterise the files the source glob selects (the
    matcher against a declarative description) and show that every
    source file of the application is scanned, so that no class of a
    page is left out of the generated stylesheet. *)

From Stdlib Require Import List String Ascii Bool Arith Lia.
From S2P Require Import Prelude JsString.
Import ListNotations.

Module Tailwind.
Local Open Scope string_scope.

(** ** Globs *)

(** A segment of a glob. *)
Inductive Glob :=
| GLit (s : string)
| GAnyDirs
| GStar (prefix : string) (suffixes : list string).

(** [pre{a,b}post] is [pre a post] or [pre b post]. *)
Definition expand_braces (s : string) : list string :=
  match JsString.split "{"%char s with
  | [pre; rest] =>
      match JsString.split "}"%char rest with
      | [alts; post] => map (fun a => pre ++ a ++ post) (JsString.split ","%char alts)
      | _ => [s]
      end
  | _ => [s]
  end.

Definition parse_seg (s : string) : Glob :=
  if String.eqb s "**" then GAnyDirs else
  match JsString.split "*"%char s with
  | [pre; post] => GStar pre (expand_braces post)
  | _ => GLit s
  end.

Definition parse_glob (p : string) : list Glob := map parse_seg (JsString.split "/"%char p).

(** A name that does not start with a dot. *)
Definition visible (d : string) : bool := negb (JsString.starts_with "." d).

Fixpoint ends_with (suf s : string) : bool :=
  String.eqb suf s ||
  match s with
  | EmptyString => false
  | String _ s' => ends_with suf s'
  end.

Definition seg_match (g : Glob) (name : string) : bool :=
  match g with
  | GLit l => String.eqb l name
  | GAnyDirs => false
  | GStar pre sufs =>
      (negb (String.eqb pre EmptyString) || visible name) &&
      existsb (fun suf => JsString.starts_with pre name && ends_with suf name &&
                          Nat.leb (String.length pre + String.length suf) (String.length name)) sufs
  end.

Fixpoint glob_match (pat : list Glob) (path : list string) {struct pat} : bool :=
  match pat with
  | [] => match path with [] => true | _ => false end
  | GAnyDirs :: pat' =>
      (fix any (path : list string) : bool :=
         glob_match pat' path ||
         match path with
         | [] => false
         | d :: r => visible d && any r
         end) path
  | g :: pat' =>
      match path with
      | [] => false
      | d :: r => seg_match g d && glob_match pat' r
      end
  end.

(** ** The configuration *)

Record Config := mkConfig {
  content : list string;
  fontFamily : list (string * list string);
  colors : list (string * string);
  plugins : list string }.

(** The double-quote character, which the first font name contains. *)
Definition quote : string := String (ascii_of_nat 34) EmptyString.

(** [export default {...}] (lines 2-17). *)
Definition config : Config :=
  mkConfig ["./index.html"; "./src/**/*.{js,ts,jsx,tsx}"]
           [("cormorant", [quote ++ "Cormorant Garamond" ++ quote; "serif"]); ("inter", ["Inter"; "sans-serif"])]
           [("cream", "#FAF7F2"); ("gold", "#B8A088")]
           [].

(** Tailwind scans the files that a [content] glob matches. *)
Definition scanned (cfg : Config) (path : string) : bool :=
  existsb (fun pat => glob_match (parse_glob pat) (JsString.split "/"%char path)) (content cfg).

Fixpoint assoc {A} (k : string) (l : list (string * A)) : option A :=
  match l with
  | [] => None
  | (k', v) :: r => if String.eqb k k' then Some v else assoc k r
  end.

(** The CSS declaration a [bg-], [text-] or [font-] class gets from the
    theme extension; [None] for other classes (Tailwind's default theme
    is not modelled). *)
Definition theme_utility (cfg : Config) (cls : string) : option (string * string) :=
  if JsString.starts_with "bg-" cls then
    option_map (fun v => ("background-color", v)) (assoc (JsString.substring_from 3 cls) (colors cfg))
  else if JsString.starts_with "text-" cls then
    option_map (fun v => ("color", v)) (assoc (JsString.substring_from 5 cls) (colors cfg))
  else if JsString.starts_with "font-" cls then
    option_map (fun fs => ("font-family", JsString.join "," fs)) (assoc (JsString.substring_from 5 cls) (fontFamily cfg))
  else None.

(** The application's source files, as paths from the project root
    (src/ of the repository). *)
Definition appSources : list string :=
  ["./src/main.tsx"; "./src/App.tsx"; "./src/components/Layout.tsx"; "./src/pages/Home.tsx";
   "./src/pages/Shop.tsx"; "./src/pages/AdminLogin.tsx"; "./src/pages/AdminDashboard.tsx";
   "./src/lib/supabase.ts"; "./src/types/perfume.ts"].

(** ** Properties *)

Lemma ends_with_spec (suf s : string) : ends_with suf s = true <-> exists b, s = b ++ suf.
Proof.
  induction s as [|c s IH]; simpl; rewrite orb_true_iff, String.eqb_eq.
  - split; [intros [->|H]; [exists EmptyString; reflexivity|discriminate H]|].
    intros [[|c b] H]; [left; exact (eq_sym H)|discriminate H].
  - rewrite IH. split.
    + intros [->|[b ->]]; [exists EmptyString|exists (String c b)]; reflexivity.
    + intros [[|d b] H]; [left; exact (eq_sym H)|right; injection H as <- ->; exists b; reflexivity].
Qed.

Lemma length_append (s t : string) : String.length (s ++ t) = String.length s + String.length t.
Proof. induction s as [|c s IH]; simpl; [reflexivity|rewrite IH; reflexivity]. Qed.

Lemma glob_match_any_nil (pat : list Glob) : glob_match (GAnyDirs :: pat) [] = glob_match pat [].
Proof. simpl. apply orb_false_r. Qed.

Lemma glob_match_any_cons (pat : list Glob) (d : string) (r : list string) :
  glob_match (GAnyDirs :: pat) (d :: r) = glob_match pat (d :: r) || (visible d && glob_match (GAnyDirs :: pat) r).
Proof. reflexivity. Qed.

Lemma glob_match_lit_cons (l : string) (pat : list Glob) (d : string) (r : list string) :
  glob_match (GLit l :: pat) (d :: r) = String.eqb l d && glob_match pat r.
Proof. reflexivity. Qed.

Lemma glob_match_lit_nil (l : string) (pat : list Glob) : glob_match (GLit l :: pat) [] = false.
Proof. reflexivity. Qed.

(** [**] stands for any sequence of visible directories. *)
Lemma glob_match_any (pat : list Glob) (path : list string) :
  glob_match (GAnyDirs :: pat) path = true <->
  exists dirs rest, path = (dirs ++ rest)%list /\ forallb visible dirs = true /\ glob_match pat rest = true.
Proof.
  induction path as [|d r IH].
  - rewrite glob_match_any_nil. split; [intros H; exists [], []; auto|].
    intros ([|x dirs] & rest & H & _ & Hm); [simpl in H; subst; exact Hm|discriminate H].
  - rewrite glob_match_any_cons, orb_true_iff, andb_true_iff, IH. split.
    + intros [H|[Hv (dirs & rest & -> & Hd & Hm)]]; [exists [], (d :: r); auto|].
      exists (d :: dirs), rest. simpl. rewrite Hv, Hd. auto.
    + intros ([|x dirs] & rest & H & Hd & Hm); simpl in H; [subst; left; exact Hm|].
      injection H as <- ->. simpl in Hd. apply andb_true_iff in Hd as [Hv Hd].
      right. split; [exact Hv|]. exists dirs, rest. auto.
Qed.

Lemma glob_match_single (g : Glob) (path : list string) :
  g <> GAnyDirs -> glob_match [g] path = true <-> exists name, path = [name] /\ seg_match g name = true.
Proof.
  intros Hg. destruct g as [l| |pre sufs]; [|contradiction|];
    (destruct path as [|d [|e r]]; simpl;
     [split; [discriminate|intros (n & H & _); discriminate H]
     |rewrite andb_true_r; split; [intros H; exists d; auto|intros (n & [= ->] & H); exact H]
     |rewrite andb_false_r; split; [discriminate|intros (n & H & _); discriminate H]]).
Qed.

(** The segments of an extension pattern [*.{e1,...}]. *)
Lemma seg_match_ext (exts : list string) (name : string) :
  seg_match (GStar EmptyString (map (fun e => "." ++ e) exts)) name = true <->
  visible name = true /\ exists base ext, In ext exts /\ name = base ++ "." ++ ext.
Proof.
  simpl. rewrite andb_true_iff, existsb_exists. apply and_iff_compat_l. split.
  - intros (suf & Hin & Hm). apply in_map_iff in Hin as (ext & <- & Hin).
    apply andb_true_iff in Hm as [Hm _]. apply ends_with_spec in Hm as [b ->].
    exists b, ext. auto.
  - intros (b & ext & Hin & ->). exists ("." ++ ext). split; [apply in_map, Hin|].
    rewrite (proj2 (ends_with_spec _ _) (ex_intro _ b eq_refl)).
    rewrite (proj2 (Nat.leb_le _ _)) by (rewrite !length_append; simpl; lia). reflexivity.
Qed.

(** C40: The files the source glob of [content] selects: exactly the paths
    [./src/d1/.../dn/name] whose directories and name do not start with
    a dot and whose name ends with [.js], [.ts], [.jsx] or [.tsx]. *)
Theorem content_src_glob_spec (segs : list string) :
  glob_match (parse_glob (nth 1 (content config) EmptyString)) segs = true <->
  exists dirs name, segs = "." :: "src" :: (dirs ++ [name])%list /\ forallb visible dirs = true /\
    visible name = true /\ exists base ext, In ext ["js"; "ts"; "jsx"; "tsx"] /\ name = base ++ "." ++ ext.
Proof.
  replace (parse_glob (nth 1 (content config) EmptyString))
    with [GLit "."; GLit "src"; GAnyDirs; GStar EmptyString (map (fun e => "." ++ e) ["js"; "ts"; "jsx"; "tsx"])]
    by (vm_compute; reflexivity).
  destruct segs as [|a [|b segs]]; rewrite ?glob_match_lit_cons, ?glob_match_lit_nil, ?andb_false_r;
    [split; [discriminate|intros (? & ? & H & _); discriminate H]
    |split; [discriminate|intros (? & ? & H & _); discriminate H]|].
  rewrite !andb_true_iff, !String.eqb_eq, glob_match_any. split.
  - intros (<- & <- & dirs & rest & -> & Hd & Hm).
    apply glob_match_single in Hm as (name & -> & Hm); [|discriminate].
    apply seg_match_ext in Hm. exists dirs, name. auto.
  - intros (dirs & name & [= -> -> ->] & Hd & Hm). do 2 (split; [reflexivity|]).
    exists dirs, [name]. do 2 (split; [reflexivity || exact Hd|]).
    apply glob_match_single; [discriminate|]. exists name. split; [reflexivity|].
    apply seg_match_ext, Hm.
Qed.

(** Every source file of the application is scanned, so every class
    name a page writes is seen when the stylesheet is generated. *)
Theorem app_sources_scanned : Forall (fun p => scanned config p = true) appSources.
Proof. repeat constructor; vm_compute; reflexivity. Qed.

(** The theme's tokens give the colours and fonts the pages use. *)
Lemma theme_tokens :
  theme_utility config "bg-cream" = Some ("background-color", "#FAF7F2") /\
  theme_utility config "text-gold" = Some ("color", "#B8A088") /\
  theme_utility config "font-inter" = Some ("font-family", "Inter,sans-serif").
Proof. vm_compute. auto. Qed.

End Tailwind.
