(* ===== verification/Layout.v ===== *)
(** * Layout: the storefront's frame

    [Layout] models src/src/components/Layout.tsx: the menu and scroll
    flags (lines 6-7) with the menu button's handler (lines 38-39) and
    [handleScroll] (lines 9-16), the navigation it renders (lines 21-57)
    and the footer (lines 62-115), around the routed page of
    [<Outlet />].  Browser events reach it as [Event]s.  [HtmlForm] models
    a [<form>] and what the browser does when one is submitted, for the
    newsletter forms of Home.tsx and App.tsx.

    The theorems give the state after any sequence of events (menu open
    after an odd number of clicks, scrolled style from the last scroll
    position) and show that the mobile menu, shown exactly when the
    button shows its close icon, offers the desktop navigation's links. *)

From Stdlib Require Import List String Ascii Bool Arith ZArith Lia.
From S2P Require Import Prelude JsString.
Import ListNotations.

Module HtmlForm.
Local Open Scope string_scope.

(** An [<input>]: its type, its [name] attribute if any, its placeholder. *)
Record Input := mkInput { input_type : string; input_name : option string; placeholder : string }.

(** A [<form>]: whether React binds an [onSubmit] to it, its [action]
    attribute, its inputs and its submit button's text. *)
Record FormView := mkFormView {
  has_onSubmit : bool; action : option string; inputs : list Input; submitLabel : string }.

(** What submitting does: a handler takes the values, or the browser
    navigates. *)
Inductive Submission := Handled (values : list string) | Navigate (url : string).

(** The form data set: the value of each input that has a name. *)
Fixpoint entries (ins : list Input) (vals : list string) : list (string * string) :=
  match ins, vals with
  | i :: ins', v :: vals' =>
      match input_name i with
      | Some n => (n, v) :: entries ins' vals'
      | None => entries ins' vals'
      end
  | _, _ => []
  end.

Definition query (es : list (string * string)) : string :=
  JsString.join "&" (map (fun '(k, v) => k ++ "=" ++ v) es).

(** The HTML form submission algorithm for a [GET] form: without a
    handler the browser navigates to the form's action, or to the
    current page's path when it has none, with the query built from the
    form data set.  The values are not percent-encoded here. *)
Definition submit (f : FormView) (path : string) (vals : list string) : Submission :=
  if has_onSubmit f then Handled vals
  else Navigate ((match action f with Some a => a | None => path end) ++ "?" ++ query (entries (inputs f) vals)).

End HtmlForm.

Module Layout.
Local Open Scope string_scope.

Record LayoutState := mkLayout { isMenuOpen : bool; isScrolled : bool }.

Definition initialState : LayoutState := mkLayout false false.

(** The menu button's [onClick] (lines 38-39). *)
Definition toggleMenu (s : LayoutState) : LayoutState :=
  mkLayout (negb (isMenuOpen s)) (isScrolled s).

(** [handleScroll] (lines 10-12) on [window.scrollY]. *)
Definition handleScroll (scrollY : Z) (s : LayoutState) : LayoutState :=
  mkLayout (isMenuOpen s) (20 <? scrollY)%Z.

(** A [<Link to=...>]: its text and its target. *)
Record NavLink := mkNavLink { label : string; target : string }.

(** The brand link (line 26). *)
Definition brandLink : NavLink := mkNavLink "FRAGRANCE" "/".

(** The desktop navigation (lines 30-34). *)
Definition desktopLinks : list NavLink :=
  [mkNavLink "Home" "/"; mkNavLink "Collections" "/shop"; mkNavLink "New Arrivals" "/new-arrivals";
   mkNavLink "About Us" "/about"; mkNavLink "Contact" "/contact"].

(** The mobile navigation (lines 49-53), written out a second time in
    the source. *)
Definition mobileLinks : list NavLink :=
  [mkNavLink "Home" "/"; mkNavLink "Collections" "/shop"; mkNavLink "New Arrivals" "/new-arrivals";
   mkNavLink "About Us" "/about"; mkNavLink "Contact" "/contact"].

(** The navigation's link targets (lines 29-35). *)
Definition navLinks : list string := map target desktopLinks.

(** The lucide-react icons the layout renders. *)
Inductive Icon := IconMenu | IconX | IconInstagram | IconFacebook | IconTwitter
                | IconMapPin | IconPhone | IconMail.

(** The [<nav>]'s class (lines 21-23). *)
Definition navClass (s : LayoutState) : string :=
  "fixed w-full z-50 transition-all duration-500 "
  ++ (if isScrolled s then "nav-scrolled glossy-card" else "nav-default bg-transparent").

(** What the [<nav>] shows (lines 21-57): its class, the brand link, the
    desktop links, the menu button's icon (line 40) and the mobile menu,
    rendered only while [isMenuOpen] (line 46). *)
Record NavView := mkNavView {
  nav_class : string; brand : NavLink; desktop : list NavLink;
  menuIcon : Icon; mobileMenu : option (list NavLink) }.

Definition renderNav (s : LayoutState) : NavView :=
  mkNavView (navClass s) brandLink desktopLinks
            (if isMenuOpen s then IconX else IconMenu)
            (if isMenuOpen s then Some mobileLinks else None).

(** The footer (lines 62-115): brand, tagline, the contact lines with
    their icons, the quick links, which are plain [<p>] elements with no
    target and no handler, and the social icons. *)
Record Footer := mkFooter {
  footerBrand : string; tagline : string; contact : list (Icon * string);
  quickLinks : list string; social : list Icon }.

Definition footer : Footer :=
  mkFooter "FRAGRANCE" "Crafting exceptional fragrances that capture moments and memories."
    [(IconMapPin, "123 Luxury Lane, Paris"); (IconPhone, "+33 1 23 45 67 89");
     (IconMail, "contact@fragrance.com")]
    ["FAQ"; "Shipping"; "Returns"; "Privacy Policy"]
    [IconInstagram; IconFacebook; IconTwitter].

(** The whole layout (lines 18-117) around the routed page [page] that
    [<Outlet />] renders (line 59). *)
Record LayoutView (A : Type) := mkLayoutView { nav : NavView; outlet : A; foot : Footer }.
Arguments mkLayoutView {A}.
Arguments nav {A}. Arguments outlet {A}. Arguments foot {A}.

Definition render {A} (s : LayoutState) (page : A) : LayoutView A :=
  mkLayoutView (renderNav s) page footer.

(** What reaches the layout: a click on the menu button or a window
    scroll event at position [scrollY]. *)
Inductive Event := EvToggleMenu | EvScroll (scrollY : Z).

Definition handler (ev : Event) (s : LayoutState) : LayoutState :=
  match ev with
  | EvToggleMenu => toggleMenu s
  | EvScroll y => handleScroll y s
  end.

Definition run_events (evs : list Event) (s : LayoutState) : LayoutState :=
  fold_left (fun s ev => handler ev s) evs s.

(** The number of menu clicks, and the position of the last scroll
    event, in a sequence of events. *)
Definition toggles (evs : list Event) : nat :=
  List.length (filter (fun ev => match ev with EvToggleMenu => true | _ => false end) evs).

Fixpoint last_scroll (evs : list Event) : option Z :=
  match evs with
  | [] => None
  | EvScroll y :: r => match last_scroll r with None => Some y | o => o end
  | EvToggleMenu :: r => last_scroll r
  end.

(** ** Properties *)

Lemma odd_succ_negb (n : nat) : Nat.odd (S n) = negb (Nat.odd n).
Proof. rewrite Nat.odd_succ, <- Nat.negb_odd. reflexivity. Qed.

(** The layout's state after any sequence of events: the mobile menu is
    open exactly when it was open before and the menu button was clicked
    an even number of times, or closed and clicked an odd number of
    times; the navigation has its scrolled style exactly when the last
    scroll event was more than 20 pixels down the page (the style before
    when there was none). *)
Theorem run_events_state (evs : list Event) (s : LayoutState) :
  run_events evs s =
  mkLayout (xorb (isMenuOpen s) (Nat.odd (toggles evs)))
           (match last_scroll evs with None => isScrolled s | Some y => (20 <? y)%Z end).
Proof.
  assert (Hstep : forall ev s, handler ev s =
            mkLayout (xorb (isMenuOpen s) (match ev with EvToggleMenu => true | _ => false end))
                     (match ev with EvScroll y => (20 <? y)%Z | _ => isScrolled s end))
    by (intros [|y] [[] b]; reflexivity).
  revert s; unfold run_events, toggles. induction evs as [|ev evs IH]; intros s; simpl.
  - destruct s as [m b]. simpl. rewrite xorb_false_r. reflexivity.
  - rewrite IH, Hstep. simpl.
    destruct ev; simpl; [rewrite odd_succ_negb|];
      destruct (last_scroll evs), (isMenuOpen s), (Nat.odd _); reflexivity.
Qed.

(** The two navigations agree: whenever the menu button shows its close
    icon the mobile menu is rendered and offers exactly the desktop
    links, with the same texts and targets; otherwise the button shows
    the menu icon and no mobile menu is rendered. *)
Theorem mobile_menu_mirrors_desktop (s : LayoutState) :
  let v := renderNav s in
  (menuIcon v = IconX /\ mobileMenu v = Some (desktop v)) \/
  (menuIcon v = IconMenu /\ mobileMenu v = None).
Proof. simpl. destruct (isMenuOpen s); [left|right]; split; reflexivity. Qed.

End Layout.
