(* ===== verification/Site.v ===== *)
(** * Site: routing, start-up and the home page

    - [Router] models the route table of src/src/main.tsx (lines 16-43):
      a path is cut into its non-empty segments, compared without regard
      to letter case (React Router's default), and resolved to a page, a
      redirect, or no route (the router's error page).
    - [Startup] models main.tsx's development check (lines 11-14).
    - [Home] models src/src/pages/Home.tsx: the hero link (line 25), the
      featured products (lines 37-53) and their cards, whose links are
      [/shop/] followed by the name lower-cased with each run of
      characters outside [a-z0-9] replaced by one dash (line 54), and the
      newsletter form (lines 80-89).
    The theorems show that a slug only has [a-z0-9] and single dashes and
    is stable under re-slugging; that every product link with a
    non-empty slug, and the layout's "New Arrivals", "About Us" and
    "Contact" links, resolve to no route; that the newsletter form drops
    the typed address; and that a missing Supabase URL is announced only
    in development builds. *)

From Stdlib Require Import List String Ascii Bool Arith ZArith.
From S2P Require Import Prelude JsString Types Remote Layout.
Import ListNotations.

Module Router.
Local Open Scope string_scope.

Inductive Route :=
| RHome
| RShop
| RRedirect (target : string)
| RAdminLogin
| RAdminDashboard.

(** The non-empty, lower-cased segments of a path. *)
Definition segments (path : string) : list string :=
  map JsString.to_lower
      (filter (fun seg => negb (String.eqb seg EmptyString)) (JsString.split "/"%char path)).

(** [createBrowserRouter([...])] (main.tsx lines 16-43). *)
Definition resolve (path : string) : option Route :=
  match segments path with
  | [] => Some RHome
  | ["shop"] => Some RShop
  | ["admin"] => Some (RRedirect "/admin/login")
  | ["admin"; "login"] => Some RAdminLogin
  | ["admin"; "dashboard"] => Some RAdminDashboard
  | _ => None
  end.

End Router.

Module Startup.
Local Open Scope string_scope.

(** The message of line 13; [quote] is the double-quote character. *)
Definition quote : string := String (ascii_of_nat 34) EmptyString.

Definition connectMessage : string :=
  "Please connect to Supabase using the " ++ quote ++ "Connect to Supabase" ++ quote
  ++ " button in the top right corner.".

(** The start-up check (main.tsx lines 11-14) on [import.meta.env.DEV] and
    the two variables (an unset variable is the empty string): the
    message it logs with [console.info], if any. *)
Definition devNotice (dev : bool) (env_url env_key : string) : option string :=
  if dev && (JsValue.str_falsy env_url || JsValue.str_falsy env_key) then Some connectMessage else None.

End Startup.

Module Home.
Local Open Scope string_scope.

(** A character of [a-z0-9]. *)
Definition is_slug_char (c : ascii) : bool :=
  let n := nat_of_ascii c in
  (Nat.leb 97 n && Nat.leb n 122) || (Nat.leb 48 n && Nat.leb n 57).

(** [s.replace(/[^a-z0-9]+/g, '-')]: [in_run] tells that the previous
    character was already replaced. *)
Fixpoint replace_runs (in_run : bool) (s : string) : string :=
  match s with
  | EmptyString => EmptyString
  | String c s' =>
      if is_slug_char c then String c (replace_runs false s')
      else if in_run then replace_runs true s'
      else String "-"%char (replace_runs true s')
  end.

(** [product.name.toLowerCase().replace(/[^a-z0-9]+/g, '-')]. *)
Definition slug (name : string) : string := replace_runs false (JsString.to_lower name).

(** The link of a featured product (line 54). *)
Definition productLink (name : string) : string := "/shop/" ++ slug name.

(** A featured product (lines 38-52). *)
Record Product := mkProduct { pname : string; pimage : string; pprice : string }.

(** The featured products (lines 37-53). *)
Definition featured : list Product :=
  [mkProduct "L'Essence du Printemps"
     "https://images.unsplash.com/photo-1588405748880-12d1d2a59f75?auto=format&fit=crop&q=80" "$285";
   mkProduct ("Nuit Myst" ++ String (ascii_of_nat 233) "rieuse")
     "https://images.unsplash.com/photo-1590736969955-71cc94901144?auto=format&fit=crop&q=80" "$320";
   mkProduct "Jardin Secret"
     "https://images.unsplash.com/photo-1594035910387-fea47794261f?auto=format&fit=crop&q=80" "$295"].

Definition featuredNames : list string := map pname featured.

(** The hero's call to action (line 25). *)
Definition heroLink : Layout.NavLink := Layout.mkNavLink "Shop Collection" "/shop".

(** A product card (lines 54-66): a link around the image and its text. *)
Record Card := mkCard {
  card_to : string; card_src : string; card_alt : string; card_title : string; card_price : string }.

Definition card (p : Product) : Card :=
  mkCard (productLink (pname p)) (pimage p) (pname p) (pname p) (pprice p).

(** The newsletter form (lines 80-89): no [onSubmit], no [action], one
    email input without a [name]. *)
Definition newsletterForm : HtmlForm.FormView :=
  HtmlForm.mkFormView false None [HtmlForm.mkInput "email" None "Enter your email"] "Subscribe".

(** The page (lines 5-94): the hero link, the cards, the newsletter form. *)
Record HomeView := mkHomeView { hero : Layout.NavLink; cards : list Card; newsletter : HtmlForm.FormView }.

Definition view : HomeView := mkHomeView heroLink (map card featured) newsletterForm.

(** A well-formed slug: characters of [a-z0-9] and single dashes, no
    dash first when [prev_dash]. *)
Fixpoint slug_ok (prev_dash : bool) (t : string) : bool :=
  match t with
  | EmptyString => true
  | String c t' =>
      if is_slug_char c then slug_ok false t'
      else Ascii.eqb c "-"%char && negb prev_dash && slug_ok true t'
  end.

(** ** Properties *)

Lemma replace_runs_ok (b : bool) (s : string) : slug_ok b (replace_runs b s) = true.
Proof.
  revert b; induction s as [|c s IH]; intros b; simpl; [reflexivity|].
  destruct (is_slug_char c) eqn:E; simpl; [rewrite E; apply IH|].
  destruct b; [apply IH|simpl; apply IH].
Qed.

Lemma replace_runs_id (b : bool) (t : string) : slug_ok b t = true -> replace_runs b t = t.
Proof.
  revert b; induction t as [|c t IH]; intros b; simpl; [reflexivity|].
  destruct (is_slug_char c) eqn:E; [intros H; rewrite IH; auto|].
  intros H. apply andb_true_iff in H as [H Ht]. apply andb_true_iff in H as [Hc Hb].
  apply Ascii.eqb_eq in Hc. subst c. destruct b; [discriminate Hb|].
  rewrite IH; auto.
Qed.

Lemma lower_char_slug (c : ascii) :
  is_slug_char c || Ascii.eqb c "-"%char = true -> JsString.lower_char c = c.
Proof. destruct c as [[] [] [] [] [] [] [] []]; first [reflexivity | discriminate]. Qed.

Lemma to_lower_slug_ok (b : bool) (t : string) : slug_ok b t = true -> JsString.to_lower t = t.
Proof.
  revert b; induction t as [|c t IH]; intros b; simpl; [reflexivity|]. intros H.
  destruct (is_slug_char c) eqn:E.
  - rewrite lower_char_slug by (rewrite E; reflexivity). rewrite (IH false H). reflexivity.
  - apply andb_true_iff in H as [H Ht]. apply andb_true_iff in H as [Hc _].
    rewrite lower_char_slug by (rewrite Hc, orb_true_r; reflexivity). rewrite (IH true Ht). reflexivity.
Qed.

(** A slug is made of [a-z0-9] and single dashes, and slugging it again
    gives it back. *)
Theorem slug_wellformed_idem (name : string) :
  slug_ok false (slug name) = true /\ slug (slug name) = slug name.
Proof.
  assert (H := replace_runs_ok false (JsString.to_lower name)). fold (slug name) in H.
  split; [exact H|].
  unfold slug at 1. rewrite (to_lower_slug_ok false _ H). apply replace_runs_id, H.
Qed.

Lemma slug_ok_no_slash (b : bool) (t : string) : slug_ok b t = true -> JsString.has_char "/"%char t = false.
Proof.
  revert b; induction t as [|c t IH]; intros b; simpl; [reflexivity|]. intros H.
  destruct (is_slug_char c) eqn:E.
  - rewrite (IH false H), orb_false_r. destruct c as [[] [] [] [] [] [] [] []]; first [reflexivity | discriminate].
  - apply andb_true_iff in H as [H Ht]. apply andb_true_iff in H as [Hc _].
    apply Ascii.eqb_eq in Hc. subst c. rewrite (IH true Ht). reflexivity.
Qed.

(** C36: Every featured product's link whose slug is not empty leads to no
    route: the route table has no [/shop/:slug] entry. *)
Theorem productLink_unrouted (name : string) :
  slug name <> EmptyString -> Router.resolve (productLink name) = None.
Proof.
  intros Hne. unfold Router.resolve, Router.segments, productLink.
  pose proof (slug_ok_no_slash false _ (replace_runs_ok false (JsString.to_lower name))) as Hs.
  change ("/shop/" ++ slug name) with
    (JsString.join (String "/"%char EmptyString) [EmptyString; "shop"; slug name]).
  rewrite (JsString.split_join_gen "/"%char EmptyString EmptyString ["shop"; slug name] eq_refl)
    by (repeat constructor; exact Hs).
  simpl. destruct (String.eqb (slug name) EmptyString) eqn:E.
  - apply String.eqb_eq in E. contradiction.
  - reflexivity.
Qed.

(** The layout links that lead to no route. *)
Theorem layout_dead_links :
  filter (fun p => match Router.resolve p with None => true | Some _ => false end)
         Layout.navLinks = ["/new-arrivals"; "/about"; "/contact"].
Proof. reflexivity. Qed.

(** The newsletter signup keeps nothing: whatever email is typed,
    pressing Subscribe makes the browser reload the current page with an
    empty query, so the address is neither sent anywhere nor kept in
    any state. *)
Theorem newsletter_discards_email (path email : string) :
  HtmlForm.submit (newsletter view) path [email] = HtmlForm.Navigate (path ++ "?").
Proof. reflexivity. Qed.

(** The home page's links: the hero's opens the shop, and every product
    card's leads to no route. *)
Theorem home_links_resolve :
  Router.resolve (Layout.target (hero view)) = Some Router.RShop /\
  Forall (fun c => Router.resolve (card_to c) = None) (cards view).
Proof. split; [reflexivity|]. repeat constructor; vm_compute; reflexivity. Qed.

(** Without [VITE_SUPABASE_URL] every page talks to the placeholder
    host, and only a development build says so: the exported client is
    created for ["http://placeholder-url"], and the start-up check logs
    the connect message exactly when the build is a development one. *)
Theorem missing_url_noticed_only_in_dev (dev : bool) (env_url env_key : string) :
  JsValue.str_falsy env_url = true ->
  SupabaseClient.client_url (SupabaseClient.supabase (SupabaseClient.init env_url env_key))
    = "http://placeholder-url" /\
  Startup.devNotice dev env_url env_key = if dev then Some Startup.connectMessage else None.
Proof.
  intros Hu. unfold SupabaseClient.init, SupabaseClient.str_or, Startup.devNotice. simpl.
  apply JsValue.str_falsy_iff in Hu as ->. split; [reflexivity|]. destruct dev; reflexivity.
Qed.

Lemma productLink_unrouted_witness :
  Router.resolve (productLink "Jardin Secret") = None.
Proof. apply productLink_unrouted. discriminate. Defined.

Lemma missing_url_noticed_only_in_dev_witness :
  SupabaseClient.client_url (SupabaseClient.supabase (SupabaseClient.init EmptyString "key"))
    = "http://placeholder-url" /\
  Startup.devNotice true EmptyString "key" = Some Startup.connectMessage.
Proof. exact (missing_url_noticed_only_in_dev true EmptyString "key" eq_refl). Defined.

End Home.
