(* ===== verification/LegacyApp.v ===== *)
(** * LegacyApp: the single-page [App] component

    [App] models src/src/App.tsx, the storefront as one component from
    before the router: its own menu and scroll flags (lines 5-15), the
    navigation (lines 20-60) whose entries are [<a href="#">] anchors,
    the hero with a button (lines 63-85), the featured products as plain
    cards (lines 88-125), the newsletter form (lines 128-147) and the
    footer (lines 150-203).  No module imports App.tsx (main.tsx renders
    the router), so this component never runs; it is modelled to compare
    it with the [Layout] and [Home] that replaced it.

    The theorems show that App's header behaves as Layout's on every
    sequence of events and renders the same navigation with every target
    replaced by ["#"], so that none of its entries navigates; that its
    footer and newsletter form are Layout's and Home's; and that its
    featured product names are Home's read through a UTF-8/Latin-1
    mix-up. *)

From Stdlib Require Import List String Ascii Bool Arith ZArith.
From S2P Require Import Prelude JsString Layout Site.
Import ListNotations.

Module App.
Local Open Scope string_scope.

Record AppState := mkApp { isMenuOpen : bool; isScrolled : bool }.

Definition initialState : AppState := mkApp false false.

(** The menu button's [onClick] (lines 37-38). *)
Definition toggleMenu (s : AppState) : AppState := mkApp (negb (isMenuOpen s)) (isScrolled s).

(** [handleScroll] (lines 9-11). *)
Definition handleScroll (scrollY : Z) (s : AppState) : AppState :=
  mkApp (isMenuOpen s) (20 <? scrollY)%Z.

Definition handler (ev : Layout.Event) (s : AppState) : AppState :=
  match ev with
  | Layout.EvToggleMenu => toggleMenu s
  | Layout.EvScroll y => handleScroll y s
  end.

Definition run_events (evs : list Layout.Event) (s : AppState) : AppState :=
  fold_left (fun s ev => handler ev s) evs s.

(** An [<a>]: its text and its [href]. *)
Record Anchor := mkAnchor { a_label : string; href : string }.

(** The desktop entries (lines 29-33) and the mobile ones (lines 48-56),
    each an inline array mapped to anchors with [href="#"]. *)
Definition desktopItems : list string := ["Home"; "Collections"; "New Arrivals"; "About Us"; "Contact"].

Definition mobileItems : list string := ["Home"; "Collections"; "New Arrivals"; "About Us"; "Contact"].

Definition anchors (items : list string) : list Anchor := map (fun item => mkAnchor item "#") items.

(** The [<nav>] (lines 20-60): the class, the title (an [<h1>], not a
    link), the desktop anchors, the button's icon, the mobile menu. *)
Record AppNav := mkAppNav {
  app_class : string; app_title : string; app_desktop : list Anchor;
  app_icon : Layout.Icon; app_mobile : option (list Anchor) }.

Definition navClass (s : AppState) : string :=
  "fixed w-full z-50 transition-all duration-500 "
  ++ (if isScrolled s then "nav-scrolled glossy-card" else "nav-default bg-transparent").

Definition renderNav (s : AppState) : AppNav :=
  mkAppNav (navClass s) "FRAGRANCE" (anchors desktopItems)
           (if isMenuOpen s then Layout.IconX else Layout.IconMenu)
           (if isMenuOpen s then Some (anchors mobileItems) else None).

(** The hero's button (lines 80-82): a [<button>] with no handler. *)
Record Button := mkButton { b_label : string; b_onClick : bool }.

Definition heroButton : Button := mkButton "Shop Collection" false.

(** A featured product card (lines 109-121): an image with its name and
    price, inside a [<div>]. *)
Record AppCard := mkAppCard { c_src : string; c_alt : string; c_title : string; c_price : string }.

(** The featured products (lines 92-107).  The second name is written
    "MystÃ©rieuse" in the file: the UTF-8 bytes of "é" read as Latin-1. *)
Definition featured : list Home.Product :=
  [Home.mkProduct "L'Essence du Printemps"
     "https://images.unsplash.com/photo-1588405748880-12d1d2a59f75?auto=format&fit=crop&q=80" "$285";
   Home.mkProduct ("Nuit Myst" ++ String (ascii_of_nat 195) (String (ascii_of_nat 169) "rieuse"))
     "https://images.unsplash.com/photo-1590736969955-71cc94901144?auto=format&fit=crop&q=80" "$320";
   Home.mkProduct "Jardin Secret"
     "https://images.unsplash.com/photo-1594035910387-fea47794261f?auto=format&fit=crop&q=80" "$295"].

Definition card (p : Home.Product) : AppCard :=
  mkAppCard (Home.pimage p) (Home.pname p) (Home.pname p) (Home.pprice p).

(** The newsletter form (lines 135-144). *)
Definition newsletterForm : HtmlForm.FormView :=
  HtmlForm.mkFormView false None [HtmlForm.mkInput "email" None "Enter your email"] "Subscribe".

(** The footer (lines 150-203). *)
Definition footer : Layout.Footer :=
  Layout.mkFooter "FRAGRANCE" "Crafting exceptional fragrances that capture moments and memories."
    [(Layout.IconMapPin, "123 Luxury Lane, Paris"); (Layout.IconPhone, "+33 1 23 45 67 89");
     (Layout.IconMail, "contact@fragrance.com")]
    ["FAQ"; "Shipping"; "Returns"; "Privacy Policy"]
    [Layout.IconInstagram; Layout.IconFacebook; Layout.IconTwitter].

(** The page (lines 17-205). *)
Record AppView := mkAppView {
  v_nav : AppNav; v_hero : Button; v_cards : list AppCard;
  v_newsletter : HtmlForm.FormView; v_footer : Layout.Footer }.

Definition render (s : AppState) : AppView :=
  mkAppView (renderNav s) heroButton (map card featured) newsletterForm footer.

(** ** Relating App to Layout and Home *)

(** Layout's navigation with every target replaced by ["#"] and the brand
    link by its text. *)
Definition unlink (v : Layout.NavView) : AppNav :=
  let a := fun l => mkAnchor (Layout.label l) "#" in
  mkAppNav (Layout.nav_class v) (Layout.label (Layout.brand v)) (map a (Layout.desktop v))
           (Layout.menuIcon v) (option_map (map a) (Layout.mobileMenu v)).

(** Layout's state seen as App's. *)
Definition of_layout (s : Layout.LayoutState) : AppState :=
  mkApp (Layout.isMenuOpen s) (Layout.isScrolled s).

(** A Latin-1 string's UTF-8 encoding, each byte read back as a Latin-1
    character. *)
Fixpoint utf8_as_latin1 (s : string) : string :=
  match s with
  | EmptyString => EmptyString
  | String c r =>
      let n := nat_of_ascii c in
      if Nat.ltb n 128 then String c (utf8_as_latin1 r)
      else String (ascii_of_nat (192 + n / 64)) (String (ascii_of_nat (128 + n mod 64)) (utf8_as_latin1 r))
  end.

(** ** Properties *)

(** C37: App's header is Layout's with its links disabled: after every
    sequence of clicks and scroll events, starting from the first render
    of each, App renders the navigation that Layout renders with each
    link's target replaced by ["#"] and the brand link by its text, in
    the same order, with the same class, icon and mobile menu. *)
Theorem app_nav_refines_layout (evs : list Layout.Event) :
  renderNav (run_events evs initialState) =
  unlink (Layout.renderNav (Layout.run_events evs Layout.initialState)).
Proof.
  assert (H : forall s, run_events evs (of_layout s) = of_layout (Layout.run_events evs s)).
  { unfold run_events, Layout.run_events.
    induction evs as [|ev evs IH]; intros s; simpl; [reflexivity|].
    rewrite <- IH. destruct ev; reflexivity. }
  change initialState with (of_layout Layout.initialState). rewrite H.
  destruct (Layout.run_events evs Layout.initialState) as [[] []]; reflexivity.
Qed.

(** Of App's page, only the header's menu button does anything: every
    anchor of the navigation, in every state, points at ["#"], the
    hero's button has no handler, and no product card is a link. *)
Theorem app_entries_inert (s : AppState) :
  Forall (fun a => href a = "#") (app_desktop (renderNav s)) /\
  (forall l, app_mobile (renderNav s) = Some l -> Forall (fun a => href a = "#") l) /\
  b_onClick (v_hero (render s)) = false.
Proof.
  assert (Hall : forall items, Forall (fun a => href a = "#") (anchors items)).
  { intros items. apply Forall_forall. intros a Ha. apply in_map_iff in Ha as (i & <- & _). reflexivity. }
  split; [exact (Hall desktopItems)|split; [|reflexivity]].
  intros l. unfold renderNav. cbn [app_mobile]. destruct (isMenuOpen s); [intros [= <-]; exact (Hall mobileItems)|discriminate].
Qed.

(** The parts Layout and Home took over from App: the same footer and
    the same newsletter form; the featured products are Home's, with the
    name "Nuit Mystérieuse" stored as its UTF-8 bytes read as Latin-1. *)
Theorem app_static_parts :
  footer = Layout.footer /\ newsletterForm = Home.newsletterForm /\
  featured = map (fun p => Home.mkProduct (utf8_as_latin1 (Home.pname p)) (Home.pimage p) (Home.pprice p))
                 Home.featured.
Proof. repeat split; vm_compute; reflexivity. Qed.

End App.
