(* ===== verification/Root.v ===== *)
(** * Root: the React root of main.tsx and its StrictMode

    main.tsx renders the router inside [<StrictMode>] (lines 45-49).  In a
    development build StrictMode runs every mount effect of a component,
    then its cleanup, then the effect again; in a production build once.
    [Root] models this for the pages' mount effects: the admin
    dashboard's [checkAdmin(); fetchPerfumes()] (AdminDashboard.tsx lines
    31-34), the shop's [fetchPerfumes()] (Shop.tsx lines 16-18) and the
    login page's [checkSession()] (AdminLogin.tsx lines 14-22), each run
    to completion against the service ([mount_n]), each page described by
    a [MountedPage] record whose laws ([MountLaws]) the root relies on;
    and the layout's
    scroll listener, added by its effect and removed by its cleanup
    (Layout.tsx lines 9-16), as a list of registered listeners.

    The theorems show that StrictMode is harmless for both: a second run
    of each page's mount effect leaves the page as the first left it,
    because the effects only read the service (Backend.db_equiv) and
    write the state by assignment; and the layout ends up with exactly
    one scroll listener, which its unmount removes. *)

From Stdlib Require Import List String Bool Arith Lia Setoid Morphisms.
From S2P Require Import Prelude Types Remote Prog Backend DashState Dashboard Shop Login.
Import ListNotations.

Module Root.
Import Remote Prog Backend.
Local Open Scope prog_scope.

(** How many times React runs a mount effect: twice under StrictMode in
    a development build, once otherwise. *)
Definition effect_runs (dev : bool) : nat := if dev then 2 else 1.

(** [n] runs of a page's mount effect [p] against the service, each
    applied to the page state the previous one left. *)
Fixpoint mount_n {St E} (final : St -> list (label E) -> St) (n : nat) (p : prog E unit)
  (d : Db) (s : St) : St * Db :=
  match n with
  | 0 => (s, d)
  | S m => let '(tr, _, d') := run p d in mount_n final m p d' (final s tr)
  end.

(** The dashboard's mount effect (AdminDashboard.tsx lines 31-34); the
    order of the two runs does not change the result
    ([Dashboard.mount_interleavings_agree]). *)
Definition dashboardMount : prog DashboardState.Effect unit :=
  Dashboard.checkAdmin ;; Dashboard.fetchPerfumes.

(** A page as the root mounts it: its state, its effects, how a trace
    changes the state, and its mount effect. *)
Record MountedPage := mkPage {
  page_state : Type;
  page_effect : Type;
  page_final : page_state -> list (label page_effect) -> page_state;
  page_mount : prog page_effect unit }.

Definition dashboardPage : MountedPage :=
  mkPage DashboardState.DashState DashboardState.Effect DashboardState.final dashboardMount.

(** The shop's mount effect (Shop.tsx lines 16-18). *)
Definition shopPage : MountedPage := mkPage Shop.ShopState Shop.Effect Shop.final Shop.fetchPerfumes.

(** The login page's mount effect (AdminLogin.tsx lines 14-22). *)
Definition loginPage : MountedPage := mkPage Login.LoginState Login.Effect Login.final Login.checkSession.

(** What a page's mount effect promises the root: it only reads the
    service, and applying one run's effects twice is applying them once. *)
Class MountLaws (P : MountedPage) : Prop := {
  mount_reads_only : calls_only (fun c => reads_only c = true) (page_mount P);
  mount_idempotent : forall tr o, exec (page_mount P) tr o ->
    forall s, page_final P (page_final P s tr) tr = page_final P s tr }.

(** The window's scroll listeners, by the identity of the closure that
    each effect run creates. *)
Definition Listeners := list nat.

(** The layout's effect (Layout.tsx lines 9-16) in its [k]-th run:
    [addEventListener] of a fresh [handleScroll], and the cleanup that
    removes that same function. *)
Definition scrollSetup (k : nat) (ls : Listeners) : Listeners := ls ++ [k].

Definition scrollCleanup (k : nat) (ls : Listeners) : Listeners := remove Nat.eq_dec k ls.

(** Mounting the layout: StrictMode runs the effect, its cleanup and the
    effect again, with fresh closures [k] and [S k]; it returns the
    listeners and the closure of the live run. *)
Definition mountLayout (dev : bool) (k : nat) (ls : Listeners) : Listeners * nat :=
  if dev then (scrollSetup (S k) (scrollCleanup k (scrollSetup k ls)), S k)
  else (scrollSetup k ls, k).

Definition unmountLayout (m : Listeners * nat) : Listeners := scrollCleanup (snd m) (fst m).

(** ** Properties *)

Section StrictMount.
Context {St E : Type} (final : St -> list (label E) -> St) (p : prog E unit).

(** The mount effect only reads the service ... *)
Hypothesis Hp : calls_only (fun c => reads_only c = true) p.
(** ... and applying a run's effects twice is applying them once. *)
Hypothesis Hidem : forall tr o, exec p tr o -> forall s, final (final s tr) tr = final s tr.

Lemma mount_n_S (m : nat) (d : Db) (s : St) :
  mount_n final (S m) p d s = let '(tr, _, d') := run p d in mount_n final m p d' (final s tr).
Proof. reflexivity. Qed.

Lemma mount_n_equiv (n : nat) (d d' : Db) (s : St) :
  db_equiv d' d -> fst (mount_n final (S n) p d' s) = final s (fst (fst (run p d))).
Proof.
  revert d' s. induction n as [|n IH]; intros d' s Hd; rewrite mount_n_S;
    pose proof (run_trace_Proper p Hp d' d Hd) as Ht; simpl in Ht;
    pose proof (proj2 (run_reads_only p d' d' Hp (reflexivity _))) as He;
    destruct (run p d') as [[tr' o'] d''] eqn:E'; simpl in Ht, He; cbv beta iota;
    replace tr' with (fst (fst (run p d))) by (rewrite <- Ht; reflexivity); [reflexivity|].
  rewrite (IH d'' _ (transitivity He Hd)).
  exact (Hidem _ _ (exec_run p d) s).
Qed.

Lemma strict_mount_once (dev : bool) (d : Db) (s : St) :
  fst (mount_n final (effect_runs dev) p d s) = fst (mount_n final 1 p d s).
Proof. destruct dev; unfold effect_runs; rewrite !(mount_n_equiv _ d d) by reflexivity; reflexivity. Qed.

End StrictMount.

Lemma shop_mount_idem tr o :
  exec Shop.fetchPerfumes tr o -> forall s, Shop.final (Shop.final s tr) tr = Shop.final s tr.
Proof. intros H s. destruct (Shop.exec_shop_fetch tr o H) as [_ [[rows ->]| ->]]; destruct s; reflexivity. Qed.

Lemma login_mount_idem tr o :
  exec Login.checkSession tr o -> forall s, Login.final (Login.final s tr) tr = Login.final s tr.
Proof.
  simpl. intros ([|] & tr1 & -> & H) s; simpl in H; destruct_exec; destruct s; reflexivity.
Qed.

Lemma dashboard_mount_idem tr o :
  exec dashboardMount tr o ->
  forall s, DashboardState.final (DashboardState.final s tr) tr = DashboardState.final s tr.
Proof.
  unfold dashboardMount. intros H s. apply exec_bind in H as [(tr1 & [] & tr2 & H1 & H2 & ->)|(e & H1 & _)].
  - destruct (Dashboard.exec_fetchPerfumes tr2 o H2) as [_ [[rows ->]| ->]];
      simpl in H1; destruct H1 as ([u|] & t1 & -> & H1); simpl in H1;
      try (destruct H1 as ([[row|] [e|]] & t2 & -> & H1); simpl in H1);
      destruct_exec; destruct s; reflexivity.
  - simpl in H1. destruct H1 as ([u|] & t1 & -> & H1); simpl in H1;
      try (destruct H1 as ([[row|] [e'|]] & t2 & -> & H1); simpl in H1); destruct_exec.
Qed.

#[export] Instance dashboard_laws : MountLaws dashboardPage.
Proof.
  split; [|exact dashboard_mount_idem].
  cbn [page_mount dashboardPage]. unfold dashboardMount, Dashboard.checkAdmin, Dashboard.fetchPerfumes.
  solve_over_answers.
Qed.

#[export] Instance shop_laws : MountLaws shopPage.
Proof. split; [|exact shop_mount_idem]. cbn [page_mount shopPage]. unfold Shop.fetchPerfumes. solve_over_answers. Qed.

#[export] Instance login_laws : MountLaws loginPage.
Proof. split; [|exact login_mount_idem]. cbn [page_mount loginPage]. unfold Login.checkSession. solve_over_answers. Qed.

(** For every page that keeps the laws, StrictMode's second run of its
    mount effect changes nothing. *)
Lemma strict_mode_harmless (P : MountedPage) `{MountLaws P} (dev : bool) (d : Db) (s : page_state P) :
  fst (mount_n (page_final P) (effect_runs dev) (page_mount P) d s) =
  fst (mount_n (page_final P) 1 (page_mount P) d s).
Proof. apply strict_mount_once; [apply mount_reads_only|apply mount_idempotent]. Qed.

(** C11: StrictMode is harmless for the pages' mount effects: against any
    state of the service, a development build, which runs each page's
    mount effect twice, leaves the dashboard, the shop and the login
    page in the state a single run leaves them in. *)
Theorem strict_mode_mounts_agree (dev : bool) (d : Db) :
  (forall s, fst (mount_n DashboardState.final (effect_runs dev) dashboardMount d s) =
             fst (mount_n DashboardState.final 1 dashboardMount d s)) /\
  (forall s, fst (mount_n Shop.final (effect_runs dev) Shop.fetchPerfumes d s) =
             fst (mount_n Shop.final 1 Shop.fetchPerfumes d s)) /\
  (forall s, fst (mount_n Login.final (effect_runs dev) Login.checkSession d s) =
             fst (mount_n Login.final 1 Login.checkSession d s)).
Proof.
  split; [|split]; intros s;
    [exact (strict_mode_harmless dashboardPage dev d s)
    |exact (strict_mode_harmless shopPage dev d s)
    |exact (strict_mode_harmless loginPage dev d s)].
Qed.

(** C38: The layout's scroll listener does not leak: mounting it, in a
    development or a production build, registers exactly one listener
    beside the ones already there, and unmounting removes it. *)
Theorem layout_listener_no_leak (dev : bool) (k : nat) (ls : Listeners) :
  ~ In k ls -> ~ In (S k) ls ->
  fst (mountLayout dev k ls) = ls ++ [snd (mountLayout dev k ls)] /\
  unmountLayout (mountLayout dev k ls) = ls.
Proof.
  intros Hk Hsk. unfold unmountLayout, mountLayout, scrollCleanup, scrollSetup.
  assert (Hr : forall j, ~ In j ls -> remove Nat.eq_dec j (ls ++ [j]) = ls).
  { intros j Hj. rewrite remove_app, notin_remove by exact Hj. simpl.
    destruct (Nat.eq_dec j j) as [_|C]; [apply app_nil_r|contradiction]. }
  destruct dev; simpl; rewrite ?Hr by assumption; split; reflexivity.
Qed.

Lemma layout_listener_no_leak_witness :
  fst (mountLayout true 0 []) = [] ++ [snd (mountLayout true 0 [])] /\ unmountLayout (mountLayout true 0 []) = [].
Proof. exact (layout_listener_no_leak true 0 [] (fun H => H) (fun H => H)). Defined.

End Root.
