(* ===== verification/Catalog.v ===== *)
(** * Catalog: the admin console and the storefront over one service

    The spec's data flow (section 2): the admin console writes the
    [perfumes] table through the write path, the public shop reads it
    through the read path, and the two meet only in the hosted service.
    [Catalog] composes the dashboard's [handleSubmit]
    (AdminDashboard.tsx lines 157-202) and the shop's [fetchPerfumes]
    (Shop.tsx lines 20-35) over the service of Backend.v.

    Two administrators in two sessions also meet only in the service:
    their runs are composed as one run after the other on the state the
    first left.

    The theorems show that a record the administrator creates is the
    first record a shop loaded afterwards holds, and the first card it
    shows whenever the selected category and the search query admit it;
    and that a save of a record another session deleted meanwhile
    reports success and stores nothing. *)

From Stdlib Require Import List String Bool.
From S2P Require Import Prelude Types Remote Prog Backend DashState Dashboard Shop.
Import ListNotations.

Module Catalog.
Import Remote Prog Backend.

(** A shop page loaded after a create: the state it reaches from [sh]
    when its mount effect runs against the service the create left. *)
Definition shopAfter (s : DashboardState.DashState) (d : Db) (sh : Shop.ShopState) : Shop.ShopState :=
  Shop.final sh (fst (fst (run Shop.fetchPerfumes (snd (run (Dashboard.handleSubmit s) d))))).

(** A service holding one record, with the confirmation prompt answered
    OK. *)
Definition twoSessionDb : Db :=
  mkDb [Dashboard.sampleRecord] [] [] None [] true true 0.

(** A session editing that record. *)
Definition editingSession : DashboardState.DashState :=
  Dashboard.formState Dashboard.sampleForm None (Some Dashboard.sampleRecord).

(** C25: A record created in the admin console reaches the storefront: after
    a valid create against a reachable service, a shop that loads holds
    the new row first, followed by the rows it held before, stops loading,
    and shows the new row as its first card whenever its selected
    category and search query admit the row. *)
Theorem created_record_in_shop (s : DashboardState.DashState) (d : Db) (sh : Shop.ShopState) :
  Dashboard.requiredMissing (DashboardState.formData s) = false ->
  DashboardState.selectedImage s = None -> DashboardState.editingPerfume s = None ->
  JsValue.str_falsy (PerfumeFormData.image_url (DashboardState.formData s)) = false ->
  online d = true ->
  let row := new_row d (Dashboard.perfumeData (DashboardState.formData s)
                          (PerfumeFormData.image_url (DashboardState.formData s))) in
  let sh' := shopAfter s d sh in
  Shop.perfumes sh' = row :: perfume_rows d /\ Shop.loading sh' = false /\
  (Shop.matchesCategory (Shop.selectedCategory sh') row && Shop.matchesSearch (Shop.searchQuery sh') row = true ->
   Shop.filteredPerfumes (Shop.selectedCategory sh') (Shop.searchQuery sh') (Shop.perfumes sh') =
   row :: Shop.filteredPerfumes (Shop.selectedCategory sh') (Shop.searchQuery sh') (perfume_rows d)).
Proof.
  intros Hm Hi He Hu Ho. unfold shopAfter.
  destruct (Dashboard.submit_create_db s d Hm Hi He Hu Ho) as [Hr Hon].
  destruct (snd (run (Dashboard.handleSubmit s) d)) as [rows admins creds sess objs online conf clk].
  simpl in Hr, Hon. subst rows online.
  destruct sh as [sc sq sf ps lo er]; simpl.
  split; [reflexivity|split; [reflexivity|]].
  intros Hrow. unfold Shop.filteredPerfumes. simpl. rewrite Hrow. reflexivity.
Qed.

(** C26: An edit of a record that another session deleted meanwhile is lost
    without a word: the update matches no row, the service reports no
    error, so the form closes as after a successful save, no error is
    shown, and the table stays without the record. *)
Theorem save_after_delete_is_lost (sA : DashboardState.DashState) (d0 : Db) (p : Perfume.Perfume) :
  confirm_answer d0 = true -> online d0 = true ->
  Dashboard.requiredMissing (DashboardState.formData sA) = false ->
  DashboardState.selectedImage sA = None -> DashboardState.editingPerfume sA = Some p ->
  JsValue.str_falsy (PerfumeFormData.image_url (DashboardState.formData sA)) = false ->
  let d1 := snd (run (Dashboard.handleDelete (Perfume.id p)) d0) in
  let '(tr, o, d2) := run (Dashboard.handleSubmit sA) d1 in
  perfume_rows d2 = perfume_rows d1 /\
  forallb (fun q => negb (String.eqb (Perfume.id q) (Perfume.id p))) (perfume_rows d2) = true /\
  DashboardState.formError (DashboardState.final sA tr) = EmptyString /\
  DashboardState.isModalOpen (DashboardState.final sA tr) = false.
Proof.
  intros Hc Ho Hm Hi He Hu. cbv zeta.
  destruct (Dashboard.delete_db (Perfume.id p) d0 Hc Ho) as [Hr Ho1].
  pose proof (forallb_filter_self (fun q => negb (String.eqb (Perfume.id q) (Perfume.id p))) (perfume_rows d0)) as Hf.
  rewrite <- Hr in Hf. clear Hr.
  generalize dependent (snd (run (Dashboard.handleDelete (Perfume.id p)) d0)). intros d1 Ho1 Hf.
  Dashboard.run_valid_submit sA d1 Hm Hi He Hu Ho1;
    rewrite (map_cond_absent (fun q => String.eqb (Perfume.id q) (Perfume.id p))) by exact Hf;
    unfold DashboardState.final, apply_trace; destruct sA; simpl; auto.
Qed.

Lemma created_record_in_shop_witness :
  Shop.perfumes (shopAfter (Dashboard.formState Dashboard.sampleForm None None) Dashboard.sampleDb Shop.initialState)
  = new_row Dashboard.sampleDb (Dashboard.perfumeData Dashboard.sampleForm
                                  (PerfumeFormData.image_url Dashboard.sampleForm))
    :: perfume_rows Dashboard.sampleDb.
Proof.
  exact (proj1 (created_record_in_shop (Dashboard.formState Dashboard.sampleForm None None)
                  Dashboard.sampleDb Shop.initialState eq_refl eq_refl eq_refl eq_refl eq_refl)).
Defined.

Lemma save_after_delete_is_lost_witness :
  let d1 := snd (run (Dashboard.handleDelete (Perfume.id Dashboard.sampleRecord)) twoSessionDb) in
  let '(tr, o, d2) := run (Dashboard.handleSubmit editingSession) d1 in
  perfume_rows d2 = perfume_rows d1 /\
  forallb (fun q => negb (String.eqb (Perfume.id q) (Perfume.id Dashboard.sampleRecord))) (perfume_rows d2) = true /\
  DashboardState.formError (DashboardState.final editingSession tr) = EmptyString /\
  DashboardState.isModalOpen (DashboardState.final editingSession tr) = false.
Proof.
  exact (save_after_delete_is_lost editingSession twoSessionDb Dashboard.sampleRecord
           eq_refl eq_refl eq_refl eq_refl eq_refl eq_refl).
Defined.

End Catalog.
